(** * Order pipeline (projeto-aws): the Express API and the four lambdas

    A shallow embedding of
      - the API routes POST /pedidos and POST /pedidos/:idPedido/upload,
      - lambda-preparacao, lambda-envio, lambda-notificacao and
        lambda-confirmacao,
    over an explicit model of the three services they talk to (the DynamoDB
    table, the S3 bucket and SES), followed by the properties of the
    order lifecycle proved about them. *)

From Stdlib Require Import ZArith QArith Qabs String Ascii List Bool Lia.
From Stdlib Require Import DecimalString.
From stdpp Require Import gmap strings list fin_maps.

Local Open Scope string_scope.
Local Open Scope Z_scope.

(** ** JavaScript values *)

(** A JavaScript number.  Finite numbers are carried as exact rationals: no
    property below depends on binary64 rounding, and the table stores
    numbers as decimals anyway. *)
Inductive number :=
| NaN
| Infinity (negative : bool)
| Finite (q : Q).

(** The values a handler meets in a request body or in an item.  An object
    or array is known by the string [ToString] gives for it
    (["[object Object]"] for a plain object, the joined elements for an
    array): nothing else of it is ever inspected. *)
Inductive value :=
| VUndef
| VNull
| VBool (b : bool)
| VNum (n : number)
| VStr (s : string)
| VObj (repr : string).

#[global] Instance number_inhabited : Inhabited number := populate NaN.
#[global] Instance value_inhabited : Inhabited value := populate VUndef.

(** [!v] *)
Definition falsy (v : value) : bool :=
  match v with
  | VUndef | VNull => true
  | VBool b => negb b
  | VNum NaN => true
  | VNum (Infinity _) => false
  | VNum (Finite q) => Qeq_bool q 0
  | VStr s => String.eqb s ""
  | VObj _ => false
  end.

Definition truthy (v : value) : bool := negb (falsy v).

(** [a || b] *)
Definition js_or (a b : value) : value := if falsy a then b else a.

(** A property that is not there reads as [undefined]. *)
Definition prop (o : gmap string value) (k : string) : value :=
  default VUndef (o !! k).

(** *** Number arithmetic used by the sweep: [a - b], [a / b], [a > b]

    The sweep subtracts two time values and divides by 60000 to compare
    with 4.  The difference and the quotient are kept exact here.  A time
    value is an integer of at most 8.64e15 in size; the binary64 result of
    the code is the exact one rounded, rounding is monotone and keeps 4,
    and the exact quotient of an integer by 60000 is 4, or at least
    1/60000 away from it: the comparison with 4 comes out the same. *)

Definition num_sub (a b : number) : number :=
  match a, b with
  | Finite x, Finite y => Finite (Qred (x - y))
  | NaN, _ | _, NaN => NaN
  | Infinity s, Infinity t => if Bool.eqb s t then NaN else Infinity s
  | Infinity s, Finite _ => Infinity s
  | Finite _, Infinity t => Infinity (negb t)
  end.

Definition Qsign_neg (q : Q) : bool := negb (Qle_bool 0 q).

Definition num_div (a b : number) : number :=
  match a, b with
  | NaN, _ | _, NaN => NaN
  | Infinity _, Infinity _ => NaN
  | Infinity s, Finite y => Infinity (xorb s (Qsign_neg y))
  | Finite _, Infinity _ => Finite 0
  | Finite x, Finite y =>
      if Qeq_bool y 0
      then (if Qeq_bool x 0 then NaN else Infinity (Qsign_neg x))
      else Finite (Qred (x / y))
  end.

Definition num_gt (a b : number) : bool :=
  match a, b with
  | NaN, _ | _, NaN => false
  | Finite x, Finite y => negb (Qle_bool x y)
  | Infinity s, Infinity t => negb s && t
  | Infinity s, Finite _ => negb s
  | Finite _, Infinity t => t
  end.

Definition num_of_Z (z : Z) : number := Finite (inject_Z z).

(** ** Strings *)

Definition is_digit (c : ascii) : bool :=
  let n := nat_of_ascii c in (48 <=? n)%nat && (n <=? 57)%nat.

Definition digit_val (c : ascii) : Z := Z.of_nat (nat_of_ascii c) - 48.

(** The white space [parseFloat] trims ([StrWhiteSpaceChar]: the white
    space and the line terminators of the language).  The ones of one
    byte: tab, line feed, vertical tab, form feed, carriage return, space. *)
Definition isStrWhiteSpaceChar (c : ascii) : bool :=
  let n := nat_of_ascii c in
  (n =? 9)%nat || (n =? 10)%nat || (n =? 11)%nat || (n =? 12)%nat
  || (n =? 13)%nat || (n =? 32)%nat.

(** The one of two bytes in UTF-8: U+00A0, the no-break space. *)
Definition isStrWhiteSpace2 (a b : ascii) : bool :=
  (nat_of_ascii a =? 194)%nat && (nat_of_ascii b =? 160)%nat.

(** The ones of three bytes in UTF-8: U+1680; U+2000 to U+200A; U+2028 and
    U+2029, the line and paragraph separators; U+202F; U+205F; U+3000;
    U+FEFF. *)
Definition isStrWhiteSpace3 (a b c : ascii) : bool :=
  let x := nat_of_ascii a in
  let y := nat_of_ascii b in
  let z := nat_of_ascii c in
  ((x =? 225) && (y =? 154) && (z =? 128))%nat
  || ((x =? 226)%nat && (y =? 128)%nat
      && (((128 <=? z) && (z <=? 138))%nat
          || (z =? 168)%nat || (z =? 169)%nat || (z =? 175)%nat))
  || ((x =? 226) && (y =? 129) && (z =? 159))%nat
  || ((x =? 227) && (y =? 128) && (z =? 128))%nat
  || ((x =? 239) && (y =? 187) && (z =? 191))%nat.

Fixpoint skip_ws (s : string) : string :=
  match s with
  | String a r1 =>
      if isStrWhiteSpaceChar a then skip_ws r1
      else
        match r1 with
        | String b r2 =>
            if isStrWhiteSpace2 a b then skip_ws r2
            else
              match r2 with
              | String c r3 => if isStrWhiteSpace3 a b c then skip_ws r3 else s
              | EmptyString => s
              end
        | EmptyString => s
        end
  | EmptyString => s
  end.

(** *** The Number value of a decimal literal

    The value of a literal is the binary64 number nearest to what it
    spells, the even one of two that are as near, and an infinity past the
    largest. *)

(** The integer nearest to [n / d], the even one of the two when [n / d] is
    half way between them ([d] positive, [n] not negative). *)
Definition round_half_even (n d : Z) : Z :=
  let f := n / d in
  let r := n mod d in
  if 2 * r <? d then f
  else if d <? 2 * r then f + 1
  else if Z.even f then f else f + 1.

(** [(n / d) / 2^e], as a fraction. *)
Definition scaled2 (n d e : Z) : Z * Z :=
  if 0 <=? e then (n, d * 2 ^ e) else (n * 2 ^ (- e), d).

(** The exponent [e] of the binary64 number nearest to [n / d]: the one
    with [2^52 <= (n / d) / 2^e < 2^53], and [-1074] for the subnormal
    numbers. *)
Definition binary64_exponent (n d : Z) : Z :=
  let e0 := Z.log2 n - Z.log2 d - 52 in
  let '(n1, d1) := scaled2 n d e0 in
  let e := if n1 <? d1 * 2 ^ 52 then e0 - 1
           else if d1 * 2 ^ 53 <=? n1 then e0 + 1
           else e0 in
  Z.max e (- 1074).

Definition to_binary64 (q : Q) : number :=
  let n := Z.abs (Qnum q) in
  let d := Z.pos (Qden q) in
  if n =? 0 then Finite 0
  else
    let e := binary64_exponent n d in
    let '(n1, d1) := scaled2 n d e in
    let m := round_half_even n1 d1 in
    if (971 <? e) || ((e =? 971) && (2 ^ 53 <=? m)) then Infinity (Qnum q <? 0)
    else
      let m' := if Qnum q <? 0 then - m else m in
      Finite (if 0 <=? e then inject_Z (m' * 2 ^ e)
              else Qred (Qmake m' (Z.to_pos (2 ^ (- e))))).

(** Reads a run of decimal digits: its value on top of [acc], how many
    digits were read, and what follows. *)
Fixpoint read_digits (s : string) (acc : Z) (n : nat) : Z * nat * string :=
  match s with
  | String c r =>
      if is_digit c then read_digits r (10 * acc + digit_val c) (S n)
      else (acc, n, s)
  | EmptyString => (acc, n, s)
  end.

Definition read_sign (s : string) : bool * string :=
  match s with
  | String "-" r => (true, r)
  | String "+" r => (false, r)
  | _ => (false, s)
  end.

(** [ExponentPart], when one is there: [e] or [E], a sign, at least one digit. *)
Definition read_exponent (s : string) : Z :=
  match s with
  | String c r =>
      if Ascii.eqb c "e" || Ascii.eqb c "E" then
        let '(neg, r1) := read_sign r in
        let '(e, n, _) := read_digits r1 0 0 in
        match n with
        | O => 0
        | S _ => if neg then - e else e
        end
      else 0
  | EmptyString => 0
  end.

(** [m * 10^k] *)
Definition scale10 (m k : Z) : Q :=
  if 0 <=? k then inject_Z (m * 10 ^ k)
  else Qred (Qmake m (Z.to_pos (10 ^ (- k)))).

(** [parseFloat] on a string: the longest prefix, after leading white space,
    that is a [StrDecimalLiteral]; [NaN] when there is none. *)
Definition parseFloat_str (s : string) : number :=
  let '(neg, s1) := read_sign (skip_ws s) in
  if String.prefix "Infinity" s1 then Infinity neg
  else
    let '(ip, ni, s2) := read_digits s1 0 0 in
    let '(m, nf, s3) :=
      match s2 with
      | String "." r => let '(m, nf, s3) := read_digits r ip 0 in (m, nf, s3)
      | _ => (ip, O, s2)
      end in
    match (ni + nf)%nat with
    | O => NaN
    | S _ =>
        let q := scale10 m (read_exponent s3 - Z.of_nat nf) in
        to_binary64 (if neg then - q else q)
    end.

(** [parseFloat(v)]: [v] goes through [ToString] first; a number comes back
    as it was. *)
Definition parseFloat (v : value) : number :=
  match v with
  | VNum n => n
  | VStr s => parseFloat_str s
  | VObj repr => parseFloat_str repr
  | VUndef | VNull | VBool _ => NaN
  end.

Definition to_lower_ascii (c : ascii) : ascii :=
  let n := nat_of_ascii c in
  if (65 <=? n)%nat && (n <=? 90)%nat then ascii_of_nat (n + 32) else c.

(** [s.toLowerCase()].  Bytes outside ASCII stay as they are: the only use
    is the test of the [.pdf] suffix, and no character outside ASCII
    lowercases to one of [.], [p], [d], [f]. *)
Fixpoint toLowerCase (s : string) : string :=
  match s with
  | String c r => String (to_lower_ascii c) (toLowerCase r)
  | EmptyString => EmptyString
  end.

(** [s.endsWith(suffix)] *)
Definition endsWith (s suffix : string) : bool :=
  let n := String.length s in
  let k := String.length suffix in
  (k <=? n)%nat && String.eqb (String.substring (n - k) k s) suffix.

(** [s.split('/').pop()]: what follows the last slash. *)
Fixpoint last_segment_from (s cur : string) : string :=
  match s with
  | String c r =>
      if Ascii.eqb c "/" then last_segment_from r r
      else last_segment_from r cur
  | EmptyString => cur
  end.

Definition split_pop (s : string) : string := last_segment_from s s.

(** [s.replace(/\+/g, ' ')] *)
Fixpoint replace_plus (s : string) : string :=
  match s with
  | String c r => String (if Ascii.eqb c "+" then " "%char else c) (replace_plus r)
  | EmptyString => EmptyString
  end.

(** *** [decodeURIComponent]

    Strings are held as their UTF-8 bytes, so an escape sequence decodes to
    the bytes it spells; [None] stands for the [URIError] thrown on a
    malformed escape or on bytes that are not well-formed UTF-8. *)

Definition hex_val (c : ascii) : option Z :=
  let n := Z.of_nat (nat_of_ascii c) in
  if (48 <=? n) && (n <=? 57) then Some (n - 48)
  else if (65 <=? n) && (n <=? 70) then Some (n - 55)
  else if (97 <=? n) && (n <=? 102) then Some (n - 87)
  else None.

(** Reads one [%XY] escape. *)
Definition read_escape (s : string) : option (Z * string) :=
  match s with
  | String "%" (String a (String b r)) =>
      match hex_val a, hex_val b with
      | Some x, Some y => Some (16 * x + y, r)
      | _, _ => None
      end
  | _ => None
  end.

(** The ranges the continuation bytes must lie in after the lead byte [b]
    of a multi-byte sequence. *)
Definition utf8_tail (b : Z) : option (list (Z * Z)) :=
  if (194 <=? b) && (b <=? 223) then Some [(128, 191)]
  else if b =? 224 then Some [(160, 191); (128, 191)]
  else if (225 <=? b) && (b <=? 236) then Some [(128, 191); (128, 191)]
  else if b =? 237 then Some [(128, 159); (128, 191)]
  else if (238 <=? b) && (b <=? 239) then Some [(128, 191); (128, 191)]
  else if b =? 240 then Some [(144, 191); (128, 191); (128, 191)]
  else if (241 <=? b) && (b <=? 243) then Some [(128, 191); (128, 191); (128, 191)]
  else if b =? 244 then Some [(128, 143); (128, 191); (128, 191)]
  else None.

Definition byte_char (b : Z) : ascii := ascii_of_nat (Z.to_nat b).

Fixpoint read_continuation (ranges : list (Z * Z)) (s : string)
  : option (string * string) :=
  match ranges with
  | [] => Some ("", s)
  | (lo, hi) :: rest =>
      match read_escape s with
      | Some (b, r) =>
          if (lo <=? b) && (b <=? hi) then
            match read_continuation rest r with
            | Some (bytes, r') => Some (String (byte_char b) bytes, r')
            | None => None
            end
          else None
      | None => None
      end
  end.

Fixpoint decode_from (fuel : nat) (s : string) : option string :=
  match fuel with
  | O => Some ""
  | S fuel' =>
      match s with
      | EmptyString => Some ""
      | String c r =>
          if Ascii.eqb c "%" then
            match read_escape s with
            | None => None
            | Some (b, r1) =>
                if b <? 128 then
                  option_map (String (byte_char b)) (decode_from fuel' r1)
                else
                  match utf8_tail b with
                  | None => None
                  | Some ranges =>
                      match read_continuation ranges r1 with
                      | None => None
                      | Some (bytes, r2) =>
                          option_map (String.append (String (byte_char b) bytes))
                                     (decode_from fuel' r2)
                      end
                  end
            end
          else option_map (String c) (decode_from fuel' r)
      end
  end.

Definition decodeURIComponent (s : string) : option string :=
  decode_from (String.length s) s.

(** ** Dates *)

Definition msPerDay : Z := 86400000.

(** Year, month (1 to 12) and day of the month of a day number counted
    from 1970-01-01, in the proleptic Gregorian calendar. *)
Definition civil_from_days (day : Z) : Z * Z * Z :=
  let z := day + 719468 in
  let era := z / 146097 in
  let doe := z - era * 146097 in
  let yoe := (doe - doe / 1460 + doe / 36524 - doe / 146096) / 365 in
  let doy := doe - (365 * yoe + yoe / 4 - yoe / 100) in
  let mp := (5 * doy + 2) / 153 in
  let d := doy - (153 * mp + 2) / 5 + 1 in
  let m := if mp <? 10 then mp + 3 else mp - 9 in
  let y := yoe + era * 400 in
  (if m <=? 2 then y + 1 else y, m, d).

Definition days_from_civil (y m d : Z) : Z :=
  let y' := if m <=? 2 then y - 1 else y in
  let era := y' / 400 in
  let yoe := y' - era * 400 in
  let doy := (153 * (if 2 <? m then m - 3 else m + 9) + 2) / 5 + d - 1 in
  let doe := yoe * 365 + yoe / 4 - yoe / 100 + doy in
  era * 146097 + doe - 719468.

(** [n] written with exactly [width] decimal digits. *)
Fixpoint pad (width : nat) (n : Z) : string :=
  match width with
  | O => ""
  | S k => pad k (n / 10) ++ String (byte_char (48 + n mod 10)) ""
  end.

(** [new Date(t).toISOString()] for a time value [t] in milliseconds. *)
Definition toISOString (t : Z) : string :=
  let '(y, m, d) := civil_from_days (t / msPerDay) in
  let ms := t mod msPerDay in
  let year :=
    if (0 <=? y) && (y <=? 9999) then pad 4 y
    else (if y <? 0 then "-" else "+") ++ pad 6 (Z.abs y) in
  year ++ "-" ++ pad 2 m ++ "-" ++ pad 2 d ++ "T"
    ++ pad 2 (ms / 3600000) ++ ":" ++ pad 2 (ms / 60000 mod 60) ++ ":"
    ++ pad 2 (ms / 1000 mod 60) ++ "." ++ pad 3 (ms mod 1000) ++ "Z".

(** Reads exactly [n] decimal digits. *)
Fixpoint take_digits (n : nat) (s : string) (acc : Z) : option (Z * string) :=
  match n with
  | O => Some (acc, s)
  | S k =>
      match s with
      | String c r =>
          if is_digit c then take_digits k r (10 * acc + digit_val c) else None
      | EmptyString => None
      end
  end.

Definition expect (c : ascii) (s : string) : option string :=
  match s with
  | String c' r => if Ascii.eqb c c' then Some r else None
  | EmptyString => None
  end.

Definition read_year (s : string) : option (Z * string) :=
  match s with
  | String "+" r => take_digits 6 r 0
  | String "-" r => option_map (fun '(y, r') => (- y, r')) (take_digits 6 r 0)
  | _ => take_digits 4 s 0
  end.

Definition read_iso_fields (s : string) : option Z :=
  '(y, s) ← read_year s;
  s ← expect "-" s;
  '(m, s) ← take_digits 2 s 0;
  s ← expect "-" s;
  '(d, s) ← take_digits 2 s 0;
  s ← expect "T" s;
  '(hh, s) ← take_digits 2 s 0;
  s ← expect ":" s;
  '(mi, s) ← take_digits 2 s 0;
  s ← expect ":" s;
  '(ss, s) ← take_digits 2 s 0;
  s ← expect "." s;
  '(ms, s) ← take_digits 3 s 0;
  s ← expect "Z" s;
  Some (days_from_civil y m d * msPerDay
        + hh * 3600000 + mi * 60000 + ss * 1000 + ms).

(** [TimeClip] *)
Definition TimeClip (n : number) : number :=
  match n with
  | Finite q =>
      if Qle_bool (Qabs q) (inject_Z 8640000000000000)
      then num_of_Z (Z.quot (Qnum q) (Z.pos (Qden q)))
      else NaN
  | _ => NaN
  end.

(** [Date.parse] on the format [toISOString] writes, which is the only one
    this system stores.  The engine reads more than this format (a time
    without milliseconds, a date alone, the formats of its own); those are
    not modelled and read as [NaN] here, so what is proved of the age of an
    order is stated for dates that [toISOString] wrote. *)
Definition Date_parse (s : string) : number :=
  match read_iso_fields s with
  | Some t => if String.eqb (toISOString t) s then TimeClip (num_of_Z t) else NaN
  | None => NaN
  end.

(** The time value of [new Date(v)]; [NaN] is an invalid date. *)
Definition Date_of (v : value) : number :=
  match v with
  | VUndef => NaN
  | VNull => num_of_Z 0
  | VBool b => num_of_Z (if b then 1 else 0)
  | VNum n => TimeClip n
  | VStr s => Date_parse s
  | VObj repr => Date_parse repr
  end.

(** [String(n)] for an integer [n], as in a template literal. *)
Definition Z_to_string (n : Z) : string :=
  DecimalString.NilZero.string_of_int (Z.to_int n).

(** [s.includes(sub)] *)
Fixpoint includes (s sub : string) : bool :=
  String.prefix sub s
  || match s with
     | String _ r => includes r sub
     | EmptyString => false
     end.

(** ** The services *)

Abbreviation item := (gmap string value).

(** An object of the bucket.  S3 keeps the names of user metadata in lower
    case. *)
Record s3object := S3Object {
  Body : string;
  ContentType : string;
  Metadata : gmap string string
}.

(** The order as lambda-notificacao rebuilds it from a stream image. *)
Record pedido := Pedido {
  idPedido : value;
  emailCliente : value;
  nomeCliente : value;
  valor : number;
  data : value;
  status : value;
  referenciaNota : value;
  dataEnvio : value
}.

Inductive template := RECEBIMENTO | PREPARACAO | ENVIADO.

(** The parameters of a [SendEmailCommand].  The HTML body is
    [template.body(pedido)]; it is kept as the template and the order it is
    rendered from. *)
Record email := Email {
  Source : string;
  ToAddresses : list value;
  Subject : string;
  Html : template * pedido
}.

(** A command sent to one of the clients ([docClient], [s3Client],
    [sesClient]) or a request posted to the preparation endpoint. *)
Inductive call :=
| GetCommand (Key : value)
| PutCommand (Item : item)
| UpdateCommand (Key : value) (sets : list (string * value))
| ScanCommand (statusFilter : string)
| HeadObjectCommand (Bucket Key : string)
| PutObjectCommand (Bucket Key : string) (object : s3object)
| SendEmailCommand (params : email)
| HttpPost (idPedido : value).

Record exn := Exn { exn_name : string; exn_message : string }.

(** The world a handler runs in: the table of orders every handler is
    deployed against, keyed by [idPedido]; the objects of the buckets, keyed
    by bucket and key; the commands sent so far, oldest first; which
    commands the services refuse, and with what error; and [process.env]. *)
Record world := World {
  table : gmap string item;
  objects : gmap (string * string) s3object;
  calls : list call;
  fault : call -> option exn;
  env : gmap string string
}.

Definition set_table (t : gmap string item) (w : world) : world :=
  World t (objects w) (calls w) (fault w) (env w).

Definition set_objects (o : gmap (string * string) s3object) (w : world) : world :=
  World (table w) o (calls w) (fault w) (env w).

Definition log_call (c : call) (w : world) : world :=
  World (table w) (objects w) (calls w ++ [c]) (fault w) (env w).

(** *** Computations: state and exceptions *)

Inductive result (A : Type) :=
| Ok (a : A)
| Throw (e : exn).

Arguments Ok {A} a.
Arguments Throw {A} e.

Definition M (A : Type) : Type := world -> result A * world.

Definition ret {A} (a : A) : M A := fun w => (Ok a, w).

Definition throw {A} (e : exn) : M A := fun w => (Throw e, w).

Definition bind {A B} (m : M A) (k : A -> M B) : M B :=
  fun w =>
    match m w with
    | (Ok a, w') => k a w'
    | (Throw e, w') => (Throw e, w')
    end.

(** [try { m } catch (error) { h error }] *)
Definition try_catch {A} (m : M A) (h : exn -> M A) : M A :=
  fun w =>
    match m w with
    | (Ok a, w') => (Ok a, w')
    | (Throw e, w') => h e w'
    end.

Declare Scope js_scope.
Delimit Scope js_scope with js.
Notation "x <- m ;; k" := (bind m (fun x => k))
  (at level 100, m at next level, right associativity) : js_scope.
Notation "m ;;; k" := (bind m (fun _ => k))
  (at level 100, right associativity) : js_scope.
Local Open Scope js_scope.

(** [for (const x of xs) { body x }] *)
Fixpoint for_of {A} (xs : list A) (body : A -> M unit) : M unit :=
  match xs with
  | [] => ret tt
  | x :: rest => body x ;;; for_of rest body
  end.

(** Sending a command: it is recorded, and it throws when the service
    refuses it. *)
Definition send (c : call) : M unit :=
  fun w =>
    match fault w c with
    | Some e => (Throw e, log_call c w)
    | None => (Ok tt, log_call c w)
    end.

(** *** DynamoDB *)

Definition MAX_SAFE_INTEGER : Q := inject_Z 9007199254740991.

(** The numbers the document client refuses to marshall: [NaN], the
    infinities, and what lies beyond the safe integers. *)
Definition special_numeric (v : value) : bool :=
  match v with
  | VNum NaN | VNum (Infinity _) => true
  | VNum (Finite q) =>
      negb (Qle_bool q MAX_SAFE_INTEGER) || negb (Qle_bool (- MAX_SAFE_INTEGER) q)
  | _ => false
  end.

(** The document client marshalls the values of a command before sending
    it, and throws on such a number. *)
Definition marshall (vs : list value) : M unit :=
  if existsb special_numeric vs
  then throw (Exn "Error" "Special numeric value is not allowed")
  else ret tt.

Definition key_mismatch : exn :=
  Exn "ValidationException" "The provided key element does not match the schema".

(** [GetCommand]: the item under the key, if any.  The key of the table is
    a string. *)
Definition dynamo_get (Key : value) : M (option item) :=
  marshall [Key] ;;;
  send (GetCommand Key) ;;;
  match Key with
  | VStr k => fun w => (Ok (table w !! k), w)
  | _ => throw key_mismatch
  end.

(** [PutCommand]: the item replaces whatever was under its key. *)
Definition dynamo_put (Item : item) : M unit :=
  marshall (map_to_list Item).*2 ;;;
  send (PutCommand Item) ;;;
  match prop Item "idPedido" with
  | VStr k => fun w => (Ok tt, set_table (<[k := Item]> (table w)) w)
  | _ => throw key_mismatch
  end.

Definition apply_sets (sets : list (string * value)) (it : item) : item :=
  foldl (fun acc '(a, v) => <[a := v]> acc) it sets.

(** [UpdateCommand] with a [SET] expression, no condition, and
    [ReturnValues: 'ALL_NEW'].  UpdateItem edits the attributes of the item
    under the key, or adds a new item to the table if there is none yet; it
    answers the item as it is after the update. *)
Definition dynamo_update (Key : value) (sets : list (string * value)) : M item :=
  marshall (Key :: sets.*2) ;;;
  send (UpdateCommand Key sets) ;;;
  match Key with
  | VStr k =>
      fun w =>
        let old := default {[ "idPedido" := Key ]} (table w !! k) in
        let new := apply_sets sets old in
        (Ok new, set_table (<[k := new]> (table w)) w)
  | _ => throw key_mismatch
  end.

(** [ScanCommand] with the filter [#status = :status]: the items whose
    [status] is that string, in the order the table yields them (a table
    that fits in one page of results). *)
Definition status_is (statusFilter : string) (it : item) : bool :=
  match it !! "status" with
  | Some (VStr s) => String.eqb s statusFilter
  | _ => false
  end.

Definition dynamo_scan (statusFilter : string) : M (list item) :=
  send (ScanCommand statusFilter) ;;;
  fun w =>
    (Ok (List.filter (status_is statusFilter) (map_to_list (table w)).*2), w).

(** *** S3 *)

Definition no_such_key : exn := Exn "NotFound" "UnknownError".

(** [HeadObjectCommand]: the metadata of the object, which must exist. *)
Definition s3_head (Bucket Key : string) : M (gmap string string) :=
  send (HeadObjectCommand Bucket Key) ;;;
  fun w =>
    match objects w !! (Bucket, Key) with
    | Some o => (Ok (Metadata o), w)
    | None => (Throw no_such_key, w)
    end.

Definition lower_keys (md : gmap string string) : gmap string string :=
  list_to_map (map (fun '(k, v) => (toLowerCase k, v)) (map_to_list md)).

(** [PutObjectCommand] *)
Definition s3_put (Bucket Key : string) (o : s3object) : M unit :=
  send (PutObjectCommand Bucket Key o) ;;;
  fun w =>
    let stored := S3Object (Body o) (ContentType o) (lower_keys (Metadata o)) in
    (Ok tt, set_objects (<[(Bucket, Key) := stored]> (objects w)) w).

(** *** SES *)

Definition ses_send (params : email) : M unit := send (SendEmailCommand params).

(** ** Responses *)

(** What became of one order of the sweep; the answer of the endpoint is not
    kept. *)
Record resultado := Resultado {
  resultado_idPedido : value;
  sucesso : bool;
  erro : option string
}.

(** The JSON bodies the handlers answer with. *)
Inductive reply :=
| ErrorReply (error : string) (details : option string)
| MessageReply (message : string)
| PedidoReply (message : string) (pedido : item)
| UploadReply (message fileKey idPedido bucket : string)
| SweepReply (message : string) (totalPedidos pedidosPendentes : nat)
             (resultados : list resultado).

Record response := Response { statusCode : Z; body : reply }.

(** ** The API (Express) *)

Module Api.

(** The file multer hands over as [req.file]. *)
Record file := File {
  originalname : string;
  buffer : string;
  mimetype : string
}.

Definition credentials_hint : string :=
  "Erro de autenticação AWS: As credenciais detectadas automaticamente estão inválidas ou expiradas. Verifique se: (1) A instância EC2 tem uma IAM Role válida com permissões para DynamoDB e S3, ou (2) As credenciais em ~/.aws/credentials estão corretas e não expiradas. Variáveis de ambiente AWS_* foram ignoradas para evitar uso de credenciais inválidas.".

(** The item of lines 420 to 429. *)
Definition novo_pedido (now : Z) (uuid : string) (req_body : gmap string value) : item :=
  let status :=
    match prop req_body "status" with
    | VUndef => VStr "RECEBIDO"
    | v => v
    end in
  <["idPedido" := VStr uuid]>
  (<["emailCliente" := prop req_body "emailCliente"]>
  (<["nomeCliente" := prop req_body "nomeCliente"]>
  (<["valor" := VNum (parseFloat (prop req_body "valor"))]>
  (<["data" := VStr (toISOString now)]>
  (<["status" := status]>
  (<["referenciaNota" := js_or (prop req_body "referenciaNota") VNull]>
  (<["dataEnvio" := js_or (prop req_body "dataEnvio") VNull]> ∅))))))).

(** [POST /pedidos], with the clock reading [now], the identifier
    [randomUUID()] draws, and [req.body].  The default of [status] applies
    when the property is [undefined]. *)
Definition post_pedidos (now : Z) (uuid : string) (req_body : gmap string value)
  : M response :=
  try_catch
    (let emailCliente := prop req_body "emailCliente" in
     let nomeCliente := prop req_body "nomeCliente" in
     let valor := prop req_body "valor" in
     if falsy emailCliente || falsy nomeCliente || falsy valor then
       ret (Response 400
              (ErrorReply "emailCliente, nomeCliente e valor são obrigatórios" None))
     else
       let pedido := novo_pedido now uuid req_body in
       dynamo_put pedido ;;;
       ret (Response 201 (PedidoReply "Pedido criado com sucesso" pedido)))
    (fun error =>
       let errorMessage :=
         if String.eqb (exn_name error) "UnrecognizedClientException"
            || includes (exn_message error) "security token"
         then credentials_hint
         else exn_message error in
       ret (Response 500 (ErrorReply "Erro ao criar pedido" (Some errorMessage)))).

Definition missing_bucket : exn :=
  Exn "Error" "No value provided for input HTTP label: Bucket.".

(** [POST /pedidos/:idPedido/upload], with the clock reading [now], the
    path parameter and [req.file]. *)
Definition post_pedidos_upload (now : Z) (idPedido : string) (req_file : option file)
  : M response :=
  try_catch
    (match req_file with
     | None => ret (Response 400 (ErrorReply "Nenhum arquivo enviado" None))
     | Some f =>
         Item <- dynamo_get (VStr idPedido) ;;
         match Item with
         | None => ret (Response 404 (ErrorReply "Pedido não encontrado" None))
         | Some _ =>
             let fileKey := Z_to_string now ++ "-" ++ originalname f in
             fun w =>
               match env w !! "S3_BUCKET_NAME" with
               | None => (Throw missing_bucket, w)
               | Some BUCKET_NAME =>
                   (s3_put BUCKET_NAME fileKey
                      (S3Object (buffer f) (mimetype f)
                         (<["idPedido" := idPedido]>
                          (<["dataUpload" := toISOString now]> ∅))) ;;;
                    ret (Response 200
                           (UploadReply "Arquivo enviado com sucesso"
                                        fileKey idPedido BUCKET_NAME))) w
               end
         end
     end)
    (fun error =>
       ret (Response 500 (ErrorReply "Erro ao fazer upload" (Some (exn_message error))))).

End Api.

(** ** lambda-preparacao *)

Module LambdaPreparacao.

(** What [body] holds once the event is decoded (line 25 of the handler):
    [undefined] ([DNullish], an event without a body); [null] ([DNull]); an
    object, with its properties; or anything else (a boolean, a number, a
    string, an array), none of which has an [idPedido]. *)
Inductive decoded :=
| DNullish
| DNull
| DObject (o : gmap string value)
| DOther.

(** [event.body]: a value that is not a string; a string that [JSON.parse]
    turns into a value; or a string that [JSON.parse] rejects. *)
Inductive event_body :=
| BodyValue (d : decoded)
| BodyJson (d : decoded)
| BodyText.

(** Lines 18 to 23: a string is parsed, and kept as it is when parsing
    throws. *)
Definition decode (b : event_body) : decoded :=
  match b with
  | BodyValue d => d
  | BodyJson d => d
  | BodyText => DOther
  end.

Definition cannot_destructure : exn :=
  Exn "TypeError" "Cannot destructure property 'idPedido' of 'body' as it is undefined.".

Definition cannot_destructure_null : exn :=
  Exn "TypeError" "Cannot destructure property 'idPedido' of 'body' as it is null.".

(** [const { idPedido } = body] *)
Definition destructure_idPedido (d : decoded) : M value :=
  match d with
  | DNullish => throw cannot_destructure
  | DNull => throw cannot_destructure_null
  | DObject o => ret (prop o "idPedido")
  | DOther => ret VUndef
  end.

Definition handler (event_body : event_body) : M response :=
  try_catch
    (idPedido <- destructure_idPedido (decode event_body) ;;
     if falsy idPedido then
       ret (Response 400 (ErrorReply "idPedido é obrigatório" None))
     else
       Item <- dynamo_get idPedido ;;
       match Item with
       | None => ret (Response 404 (ErrorReply "Pedido não encontrado" None))
       | Some _ =>
           result <- dynamo_update idPedido [("status", VStr "PREPARACAO")] ;;
           ret (Response 200 (PedidoReply "Pedido atualizado para PREPARACAO" result))
       end)
    (fun error =>
       ret (Response 500
              (ErrorReply "Erro ao processar pedido" (Some (exn_message error))))).

End LambdaPreparacao.

(** ** lambda-envio *)

Module LambdaEnvio.

(** [(agora - dataPedido) / (1000 * 60)] *)
Definition diferencaMinutos (agora : Z) (pedido : item) : number :=
  num_div (num_sub (num_of_Z agora) (Date_of (prop pedido "data")))
          (num_of_Z (1000 * 60)).

(** The predicate of the filter of lines 130 to 134. *)
Definition mais_de_4_minutos (agora : Z) (pedido : item) : bool :=
  num_gt (diferencaMinutos agora pedido) (num_of_Z 4).

(** [enviarParaAPI]: the request posted to [API_URL].  The promise rejects
    on a network error and on an answer outside 2xx; both are the
    endpoint's refusal of the request. *)
Definition enviarParaAPI (idPedido : value) : M unit := send (HttpPost idPedido).

(** The loop of lines 140 to 157, with the [resultados] gathered so far. *)
Fixpoint enviar_pendentes (pedidosPendentes : list item) (resultados : list resultado)
  : M (list resultado) :=
  match pedidosPendentes with
  | [] => ret resultados
  | pedido :: rest =>
      r <- try_catch
             (enviarParaAPI (prop pedido "idPedido") ;;;
              ret (Resultado (prop pedido "idPedido") true None))
             (fun error =>
                ret (Resultado (prop pedido "idPedido") false
                               (Some (exn_message error)))) ;;
      enviar_pendentes rest (resultados ++ [r])
  end.

(** Lines 112 to 134: the orders the sweep selects. *)
Definition selecionar (agora : Z) : M (list item * list item) :=
  pedidos <- dynamo_scan "RECEBIMENTO" ;;
  ret (pedidos, List.filter (mais_de_4_minutos agora) pedidos).

Definition handler (agora : Z) : M response :=
  try_catch
    (sel <- selecionar agora ;;
     let '(pedidos, pedidosPendentes) := sel in
     resultados <- enviar_pendentes pedidosPendentes [] ;;
     ret (Response 200
            (SweepReply "Processamento concluído"
                        (List.length pedidos) (List.length pedidosPendentes)
                        resultados)))
    (fun error => throw error).

End LambdaEnvio.

(** ** lambda-notificacao *)

Module LambdaNotificacao.

(** An attribute of a stream image, in DynamoDB JSON. *)
Inductive attribute :=
| AttrS (s : string)
| AttrN (n : string)
| AttrOther.

Abbreviation image := (gmap string attribute).

Record stream_record := StreamRecord {
  eventName : string;
  NewImage : option image;
  OldImage : option image
}.

(** [image?.[k]?.S] *)
Definition attr_S (img : option image) (k : string) : value :=
  match img with
  | Some i => match i !! k with Some (AttrS s) => VStr s | _ => VUndef end
  | None => VUndef
  end.

(** [image?.[k]?.N] *)
Definition attr_N (img : option image) (k : string) : value :=
  match img with
  | Some i => match i !! k with Some (AttrN n) => VStr n | _ => VUndef end
  | None => VUndef
  end.

(** [a === b], for the two statuses: each is a string or [undefined]. *)
Definition strict_eq (a b : value) : bool :=
  match a, b with
  | VStr x, VStr y => String.eqb x y
  | VUndef, VUndef => true
  | _, _ => false
  end.

Definition subject (t : template) : string :=
  match t with
  | RECEBIMENTO => "Pedido Recebido - Confirmação"
  | PREPARACAO => "Pedido em Preparação"
  | ENVIADO => "Pedido Enviado"
  end.

(** The names an object literal inherits from [Object.prototype].  Read
    from [emailTemplates], each gives a function (the prototype itself for
    [__proto__]): a truthy value with no [subject] and no [body]. *)
Definition Object_prototype_keys : list string :=
  ["constructor"; "__defineGetter__"; "__defineSetter__"; "hasOwnProperty";
   "__lookupGetter__"; "__lookupSetter__"; "isPrototypeOf";
   "propertyIsEnumerable"; "toString"; "valueOf"; "__proto__"; "toLocaleString"].

(** What reading a property of [emailTemplates] gives: one of the three
    templates the object is written with, something inherited, or
    [undefined]. *)
Inductive property :=
| Own (t : template)
| Inherited
| Missing.

Definition emailTemplates_key (s : string) : property :=
  if String.eqb s "RECEBIMENTO" then Own RECEBIMENTO
  else if String.eqb s "PREPARACAO" then Own PREPARACAO
  else if String.eqb s "ENVIADO" then Own ENVIADO
  else if existsb (String.eqb s) Object_prototype_keys then Inherited
  else Missing.

(** [emailTemplates[status]]; the status is a string or [undefined], and
    the key [undefined] is read under is the string ["undefined"]. *)
Definition emailTemplates (status : value) : property :=
  match status with
  | VStr s | VObj s => emailTemplates_key s
  | _ => Missing
  end.

(** What [template.body(pedido)] throws when [template] was inherited. *)
Definition body_not_a_function : exn :=
  Exn "TypeError" "template.body is not a function".

Definition cannot_read_image : exn :=
  Exn "TypeError" "Cannot read properties of undefined (reading 'idPedido')".

(** Lines 304 to 313. *)
Definition pedido_of_image (newImage : image) (newStatus : value) : pedido :=
  let img := Some newImage in
  Pedido (attr_S img "idPedido")
         (attr_S img "emailCliente")
         (attr_S img "nomeCliente")
         (parseFloat (js_or (attr_N img "valor") (VNum (Finite 0))))
         (attr_S img "data")
         newStatus
         (js_or (attr_S img "referenciaNota") VNull)
         (js_or (attr_S img "dataEnvio") VNull).

(** [process.env.SES_FROM_EMAIL || 'noreply@example.com'] *)
Definition from_address (w : world) : string :=
  match env w !! "SES_FROM_EMAIL" with
  | Some s => if String.eqb s "" then "noreply@example.com" else s
  | None => "noreply@example.com"
  end.

(** The body of the loop, lines 289 to 354: what is done for one record. *)
Definition processRecord (record : stream_record) : M unit :=
  if String.eqb (eventName record) "MODIFY" then
    let oldStatus := attr_S (OldImage record) "status" in
    let newStatus := attr_S (NewImage record) "status" in
    if strict_eq oldStatus newStatus then ret tt
    else
      match NewImage record with
      | None => throw cannot_read_image
      | Some newImage =>
          let pedido := pedido_of_image newImage newStatus in
          match emailTemplates (status pedido) with
          | Missing => ret tt
          | template =>
              if falsy (emailCliente pedido) then ret tt
              else
                match template with
                | Own template =>
                    fun w =>
                      ses_send (Email (from_address w) [emailCliente pedido]
                                      (subject template) (template, pedido)) w
                | _ => throw body_not_a_function
                end
          end
      end
  else ret tt.

Definition handler (Records : list stream_record) : M response :=
  try_catch
    (for_of Records processRecord ;;;
     ret (Response 200 (MessageReply "Notificações processadas com sucesso")))
    (fun error => throw error).

End LambdaNotificacao.

(** ** lambda-confirmacao *)

Module LambdaConfirmacao.

(** A record of the S3 event: [record.s3.bucket.name] and
    [record.s3.object.key]. *)
Record s3_record := S3Record {
  bucket_name : string;
  object_key : string
}.

Definition malformed_uri : exn := Exn "URIError" "URI malformed".

(** Line 22. *)
Definition decode_key (raw : string) : M string :=
  match decodeURIComponent (replace_plus raw) with
  | Some key => ret key
  | None => throw malformed_uri
  end.

(** [headResponse.Metadata?.[k]] *)
Definition meta (md : gmap string string) (k : string) : value :=
  match md !! k with
  | Some s => VStr s
  | None => VUndef
  end.

(** Line 39: the order the object is tagged with. *)
Definition idPedido_of (md : gmap string string) : value :=
  js_or (meta md "idpedido") (meta md "idPedido").

(** The [SET] of lines 55 to 63. *)
Definition sets_ENVIADO (now : Z) (nomeArquivo : string) : list (string * value) :=
  [("status", VStr "ENVIADO");
   ("dataEnvio", VStr (toISOString now));
   ("referenciaNota", VStr nomeArquivo)].

(** Lines 52 to 67: the update that marks the order as shipped, with the
    clock reading [now]. *)
Definition markShipped (now : Z) (idPedido : value) (nomeArquivo : string) : M item :=
  dynamo_update idPedido (sets_ENVIADO now nomeArquivo).

(** The body of the loop, lines 21 to 72: what is done for one record. *)
Definition processRecord (now : Z) (record : s3_record) : M unit :=
  let bucket := bucket_name record in
  key <- decode_key (object_key record) ;;
  if negb (endsWith (toLowerCase key) ".pdf") then ret tt
  else
    md <- s3_head bucket key ;;
    let idPedido := idPedido_of md in
    if falsy idPedido then ret tt
    else
      let nomeArquivo := split_pop key in
      markShipped now idPedido nomeArquivo ;;;
      ret tt.

Definition handler (now : Z) (Records : list s3_record) : M response :=
  try_catch
    (for_of Records (processRecord now) ;;;
     ret (Response 200 (MessageReply "Pedidos processados com sucesso")))
    (fun error => throw error).

End LambdaConfirmacao.

(** ** The API: the routes that read *)

Module ApiLeitura.

(** The commands of these routes that no other handler sends: a scan
    without a filter, with or without a limit, and the two listings of S3. *)
Inductive listing :=
| ScanAll (Limit : option nat)
| ListBucketsCommand
| ListObjectsV2Command (Bucket : string).

(** What these routes need of the services beyond the world: which of the
    commands above are refused, and with what error; and when S3 last saw
    each object written, by bucket and key, in milliseconds. *)
Record services := Services {
  refuses : listing -> option exn;
  modified_at : string -> string -> Z
}.

Definition ask (S : services) (c : listing) : M unit :=
  match refuses S c with
  | Some e => throw e
  | None => ret tt
  end.

(** An element of [response.Contents]. *)
Record content := Content {
  Key : string;
  Size : nat;
  LastModified : Z
}.

Fixpoint insert_by_key (x : string * s3object) (l : list (string * s3object))
  : list (string * s3object) :=
  match l with
  | [] => [x]
  | y :: rest =>
      if String.leb x.1 y.1 then x :: l else y :: insert_by_key x rest
  end.

Definition sort_by_key (l : list (string * s3object)) : list (string * s3object) :=
  fold_right insert_by_key [] l.

(** The objects of a bucket, by key, in the order of the bytes of the keys. *)
Definition bucket_contents (w : world) (Bucket : string) : list (string * s3object) :=
  sort_by_key
    (map (fun e : string * string * s3object => (e.1.2, e.2))
         (List.filter (fun e : string * string * s3object => String.eqb e.1.1 Bucket)
                      (map_to_list (objects w)))).

(** [ListObjectsV2Command] without a continuation: the first thousand
    objects of the bucket, in the order of their keys. *)
Definition list_objects (S : services) (Bucket : string) : M (list content) :=
  ask S (ListObjectsV2Command Bucket) ;;;
  fun w =>
    (Ok (map (fun e : string * s3object =>
                Content e.1 (String.length (Body e.2)) (modified_at S Bucket e.1))
             (firstn 1000 (bucket_contents w Bucket))), w).

(** [BUCKET_NAME], which a command cannot be sent without. *)
Definition bucket_name : M string :=
  fun w =>
    match env w !! "S3_BUCKET_NAME" with
    | Some BUCKET_NAME => (Ok BUCKET_NAME, w)
    | None => (Throw Api.missing_bucket, w)
    end.

(** A file as [GET /s3/arquivos] lists it; its [idPedido] is always [null]. *)
Record arquivo := Arquivo {
  key : string;
  size : nat;
  lastModified : Z;
  fileName : string
}.

(** A file as [GET /pedidos/:idPedido/arquivos] lists it. *)
Record arquivo_do_pedido := ArquivoDoPedido {
  arquivo_de : arquivo;
  url : string
}.

(** One of the checks of the diagnostics. *)
Record check := Check {
  check_status : string;
  check_message : string;
  errorType : option string
}.

(** The JSON bodies these routes answer with. *)
Inductive reply :=
| ErrorReply (error : string) (details : option string)
| PedidosReply (total : nat) (pedidos : list item)
| PedidoReply (Item : item)
| ArquivosReply (total : nat) (bucket : string) (arquivos : list arquivo)
| ArquivosDoPedidoReply (idPedido : string) (nomeCliente emailCliente : value)
                        (total : nat) (arquivos : list arquivo_do_pedido)
| DiagnosticsReply (timestamp region dynamodbTable s3Bucket : string)
                   (dynamodb s3 : check).

Record response := Response { statusCode : Z; body : reply }.

(** [GET /pedidos]: every item of the table, in the order the table yields
    them (a table that fits in one page of results). *)
Definition get_pedidos (S : services) : M response :=
  try_catch
    (ask S (ScanAll None) ;;;
     fun w =>
       let Items := (map_to_list (table w)).*2 in
       (Ok (Response 200 (PedidosReply (List.length Items) Items)), w))
    (fun error =>
       ret (Response 500 (ErrorReply "Erro ao listar pedidos" (Some (exn_message error))))).

(** [GET /pedidos/:id] *)
Definition get_pedido (id : string) : M response :=
  try_catch
    (Item <- dynamo_get (VStr id) ;;
     match Item with
     | None => ret (Response 404 (ErrorReply "Pedido não encontrado" None))
     | Some Item => ret (Response 200 (PedidoReply Item))
     end)
    (fun error =>
       ret (Response 500 (ErrorReply "Erro ao consultar pedido" (Some (exn_message error))))).

Definition arquivo_of (item : content) : arquivo :=
  Arquivo (Key item) (Size item) (LastModified item) (Key item).

(** [GET /s3/arquivos], with the [idPedido] of the query, which is read and
    then only logged. *)
Definition get_s3_arquivos (S : services) (idPedido : value) : M response :=
  try_catch
    (BUCKET_NAME <- bucket_name ;;
     Contents <- list_objects S BUCKET_NAME ;;
     let arquivos := map arquivo_of Contents in
     ret (Response 200 (ArquivosReply (List.length arquivos) BUCKET_NAME arquivos)))
    (fun error =>
       ret (Response 500 (ErrorReply "Erro ao listar arquivos" (Some (exn_message error))))).

(** [`${process.env.AWS_REGION}`] *)
Definition region_text (w : world) : string :=
  match env w !! "AWS_REGION" with
  | Some r => r
  | None => "undefined"
  end.

(** [headResponse.Metadata && headResponse.Metadata.idpedido === idPedido] *)
Definition tagged_with (idPedido : string) (md : gmap string string) : bool :=
  match md !! "idpedido" with
  | Some x => String.eqb x idPedido
  | None => false
  end.

(** Lines 640 to 664: what becomes of one object of the listing. *)
Definition verificar (BUCKET_NAME idPedido : string) (item : content)
  : M (option arquivo_do_pedido) :=
  try_catch
    (md <- s3_head BUCKET_NAME (Key item) ;;
     if tagged_with idPedido md then
       fun w =>
         (Ok (Some (ArquivoDoPedido
                      (arquivo_of item)
                      ("https://" ++ BUCKET_NAME ++ ".s3." ++ region_text w
                                  ++ ".amazonaws.com/" ++ Key item))), w)
     else ret None)
    (fun error => ret None).

(** [Promise.all(xs.map(f))] for an [f] that never rejects: the commands
    leave in the order of the list. *)
Fixpoint all_of {A B} (f : A -> M B) (xs : list A) : M (list B) :=
  match xs with
  | [] => ret []
  | x :: rest =>
      y <- f x ;;
      ys <- all_of f rest ;;
      ret (y :: ys)
  end.

(** [GET /pedidos/:idPedido/arquivos] *)
Definition get_pedido_arquivos (S : services) (idPedido : string) : M response :=
  try_catch
    (Item <- dynamo_get (VStr idPedido) ;;
     match Item with
     | None => ret (Response 404 (ErrorReply "Pedido não encontrado" None))
     | Some Item =>
         BUCKET_NAME <- bucket_name ;;
         Contents <- list_objects S BUCKET_NAME ;;
         arquivosResolvidos <- all_of (verificar BUCKET_NAME idPedido) Contents ;;
         let arquivos := omap id arquivosResolvidos in
         ret (Response 200
                (ArquivosDoPedidoReply idPedido (prop Item "nomeCliente")
                                       (prop Item "emailCliente")
                                       (List.length arquivos) arquivos))
     end)
    (fun error =>
       ret (Response 500 (ErrorReply "Erro ao listar arquivos" (Some (exn_message error))))).

(** [process.env[k] || fallback] *)
Definition env_or (w : world) (k fallback : string) : string :=
  match env w !! k with
  | Some v => if String.eqb v "" then fallback else v
  | None => fallback
  end.

(** One check of [GET /health/aws]: the command is tried, and what it
    throws is reported, not thrown. *)
Definition run_check (S : services) (c : listing) (ok : string) : M check :=
  try_catch
    (ask S c ;;; ret (Check "OK" ok None))
    (fun error => ret (Check "ERRO" (exn_message error) (Some (exn_name error)))).

(** [GET /health/aws], with the clock reading [now]. *)
Definition get_health_aws (S : services) (now : Z) : M response :=
  try_catch
    (dynamodb <- run_check S (ScanAll (Some 1%nat)) "Conexão com DynamoDB funcionando" ;;
     s3 <- run_check S ListBucketsCommand "Conexão com S3 funcionando" ;;
     let allOk :=
       String.eqb (check_status dynamodb) "OK" && String.eqb (check_status s3) "OK" in
     fun w =>
       (Ok (Response (if allOk then 200 else 503)
              (DiagnosticsReply (toISOString now)
                                (env_or w "AWS_REGION" "us-east-1")
                                (env_or w "DYNAMODB_TABLE_NAME" "NÃO DEFINIDA")
                                (env_or w "S3_BUCKET_NAME" "NÃO DEFINIDO")
                                dynamodb s3)), w))
    (fun error =>
       ret (Response 500
              (ErrorReply "Erro ao verificar saúde AWS" (Some (exn_message error))))).

End ApiLeitura.

(** * What the properties are stated with *)

(** The [idPedido] a payload carries, [undefined] when it has none. *)
Definition payload_idPedido (d : LambdaPreparacao.decoded) : value :=
  match d with
  | LambdaPreparacao.DObject o => prop o "idPedido"
  | LambdaPreparacao.DNullish | LambdaPreparacao.DNull | LambdaPreparacao.DOther => VUndef
  end.

(** The [SET] of lambda-preparacao. *)
Definition set_PREPARACAO : list (string * value) := [("status", VStr "PREPARACAO")].

(** One of the three required properties of a creation request is falsy. *)
Definition any_falsy (req_body : gmap string value) : bool :=
  falsy (prop req_body "emailCliente")
  || falsy (prop req_body "nomeCliente")
  || falsy (prop req_body "valor").

(** A number that is a valid positive amount. *)
Definition positive_number (v : value) : bool :=
  match v with
  | VNum (Finite q) => negb (Qle_bool q 0)
  | _ => false
  end.

(** *** Observations *)

(** The world a computation leaves. *)
Definition after {A} (m : M A) (w : world) : world := (m w).2.

(** An attribute of the order stored under [id]. *)
Definition attribute_of (w : world) (id attr : string) : option value :=
  table w !! id ≫= (.!! attr).

(** The addresses of the messages handed to SES so far. *)
Definition sent_to (w : world) : list value :=
  flat_map (fun c => match c with SendEmailCommand m => ToAddresses m | _ => [] end)
           (calls w).

(** The keys of the updates sent to the table so far. *)
Definition updated_keys (w : world) : list value :=
  flat_map (fun c => match c with UpdateCommand k _ => [k] | _ => [] end) (calls w).

(** Whether the age filter of the sweep keeps the order stored under [id]. *)
Definition old_enough (agora : Z) (w : world) (id : string) : option bool :=
  LambdaEnvio.mais_de_4_minutos agora <$> table w !! id.

(** The identifiers of the orders the sweep scans, and of those it selects. *)
Definition swept (agora : Z) (w : world) : option (list value * list value) :=
  match (LambdaEnvio.selecionar agora w).1 with
  | Ok (pedidos, pendentes) =>
      Some (map (fun pedido : item => prop pedido "idPedido") pedidos,
            map (fun pedido : item => prop pedido "idPedido") pendentes)
  | Throw _ => None
  end.

(** *** Scenarios *)

Definition no_fault : call -> option exn := fun _ => None.

(** Nothing stored, nothing refused, the bucket configured. *)
Definition empty_world : world :=
  World ∅ ∅ [] no_fault {[ "S3_BUCKET_NAME" := "notas-fiscais" ]}.

Definition t0 : Z := 1736937000123.

Definition minutes (n : Z) : Z := n * 60000.

Definition body_ana : gmap string value :=
  <["emailCliente" := VStr "ana@example.com"]>
  (<["nomeCliente" := VStr "Ana"]>
  (<["valor" := VNum (Finite (301 # 2))]> ∅)).

(** The world after Ana's order is created at [t0]. *)
Definition world_ana : world := (Api.post_pedidos t0 "p-ana" body_ana empty_world).2.

(** A creation request with a negative amount. *)
Definition body_negative : gmap string value :=
  <["emailCliente" := VStr "ana@example.com"]>
  (<["nomeCliente" := VStr "Ana"]>
  (<["valor" := VNum (Finite (-5))]> ∅)).

Definition nota : Api.file := Api.File "nota.pdf" "%PDF-1.4" "application/pdf".

(** *** The change detector *)

Definition old_status (r : LambdaNotificacao.stream_record) : value :=
  LambdaNotificacao.attr_S (LambdaNotificacao.OldImage r) "status".

Definition new_status (r : LambdaNotificacao.stream_record) : value :=
  LambdaNotificacao.attr_S (LambdaNotificacao.NewImage r) "status".

(** The [emailCliente] of the order as it is after the change. *)
Definition recipient (r : LambdaNotificacao.stream_record) : value :=
  LambdaNotificacao.attr_S (LambdaNotificacao.NewImage r) "emailCliente".

(** What the conditions of the change detector read of a snapshot: the
    string it holds under [k], if it holds one.  These conditions are
    written out here on their own, with nothing of the handler in them. *)
Definition string_attribute (img : option LambdaNotificacao.image) (k : string)
  : option string :=
  match img with
  | Some i =>
      match i !! k with
      | Some (LambdaNotificacao.AttrS s) => Some s
      | _ => None
      end
  | None => None
  end.

(** The template a status has, if it has one. *)
Definition template_named (s : string) : option template :=
  if decide (s = "RECEBIMENTO") then Some RECEBIMENTO
  else if decide (s = "PREPARACAO") then Some PREPARACAO
  else if decide (s = "ENVIADO") then Some ENVIADO
  else None.

Definition is_modification (r : LambdaNotificacao.stream_record) : bool :=
  bool_decide (LambdaNotificacao.eventName r = "MODIFY").

Definition status_changed (r : LambdaNotificacao.stream_record) : bool :=
  bool_decide (string_attribute (LambdaNotificacao.OldImage r) "status"
               <> string_attribute (LambdaNotificacao.NewImage r) "status").

Definition new_template (r : LambdaNotificacao.stream_record) : option template :=
  string_attribute (LambdaNotificacao.NewImage r) "status" ≫= template_named.

(** The address to write to: the [emailCliente] of the new snapshot, when
    it is a string that is not empty. *)
Definition customer_email (r : LambdaNotificacao.stream_record) : option string :=
  match string_attribute (LambdaNotificacao.NewImage r) "emailCliente" with
  | Some e => if decide (e = "") then None else Some e
  | None => None
  end.

(** The event is a modification, the status changed, there is a template
    for the new status, and there is someone to write to. *)
Definition notifiable (r : LambdaNotificacao.stream_record) : bool :=
  is_modification r
  && status_changed r
  && bool_decide (is_Some (new_template r))
  && bool_decide (is_Some (customer_email r)).

(** The event is a modification with someone to write to whose new status
    has no template but is the name of something every object inherits. *)
Definition names_inherited (r : LambdaNotificacao.stream_record) : bool :=
  is_modification r
  && status_changed r
  && match string_attribute (LambdaNotificacao.NewImage r) "status" with
     | Some s => bool_decide (s ∈ LambdaNotificacao.Object_prototype_keys)
     | None => false
     end
  && bool_decide (is_Some (customer_email r)).

(** The one message a notifiable event is answered with. *)
Definition notification (w : world) (r : LambdaNotificacao.stream_record)
           (newImage : LambdaNotificacao.image) (t : template) : email :=
  Email (LambdaNotificacao.from_address w) [recipient r] (LambdaNotificacao.subject t)
        (t, LambdaNotificacao.pedido_of_image newImage (new_status r)).

Definition image_of (id email status : string) : LambdaNotificacao.image :=
  <["idPedido" := LambdaNotificacao.AttrS id]>
  (<["emailCliente" := LambdaNotificacao.AttrS email]>
  (<["nomeCliente" := LambdaNotificacao.AttrS "Cliente"]>
  (<["valor" := LambdaNotificacao.AttrN "150.5"]>
  (<["data" := LambdaNotificacao.AttrS (toISOString t0)]>
  (<["status" := LambdaNotificacao.AttrS status]> ∅))))).

(** The change of an order from one status to another. *)
Definition modify (id email old new : string) : LambdaNotificacao.stream_record :=
  LambdaNotificacao.StreamRecord "MODIFY"
    (Some (image_of id email new)) (Some (image_of id email old)).

Definition modify_ana := modify "p-ana" "ana@example.com" "RECEBIMENTO" "PREPARACAO".
Definition modify_bia := modify "p-bia" "bia@example.com" "RECEBIMENTO" "PREPARACAO".
Definition rewrite_caio := modify "p-caio" "caio@example.com" "PREPARACAO" "PREPARACAO".

(** The order of Dora written with a status that names what every object
    inherits, and a status that names nothing. *)
Definition modify_dora := modify "p-dora" "dora@example.com" "RECEBIMENTO" "constructor".
Definition modify_eva := modify "p-eva" "eva@example.com" "RECEBIMENTO" "CANCELADO".

(** SES refuses the messages addressed to Ana. *)
Definition ses_refuses_ana (c : call) : option exn :=
  match c with
  | SendEmailCommand m =>
      match ToAddresses m with
      | [VStr a] =>
          if String.eqb a "ana@example.com"
          then Some (Exn "MessageRejected" "Email address is not verified.")
          else None
      | _ => None
      end
  | _ => None
  end.

Definition world_ses : world := World ∅ ∅ [] ses_refuses_ana ∅.

(** *** The document intake *)

Definition body_bia : gmap string value :=
  <["emailCliente" := VStr "bia@example.com"]>
  (<["nomeCliente" := VStr "Bia"]>
  (<["valor" := VNum (Finite 80)]> ∅)).

Definition nota_de (nome : string) : Api.file :=
  Api.File nome "%PDF-1.4" "application/pdf".

(** The orders of Ana and Bia, created at [t0], and an invoice uploaded for
    each a minute later, in a world with the faults [f]. *)
Definition world_two (f : call -> option exn) : world :=
  after (Api.post_pedidos_upload (t0 + minutes 1) "p-bia" (Some (nota_de "nota-bia.pdf")))
  (after (Api.post_pedidos_upload (t0 + minutes 1) "p-ana" (Some (nota_de "nota-ana.pdf")))
  (after (Api.post_pedidos t0 "p-bia" body_bia)
  (after (Api.post_pedidos t0 "p-ana" body_ana)
     (World ∅ ∅ [] f {[ "S3_BUCKET_NAME" := "notas-fiscais" ]})))).

Definition arrival (nome : string) : LambdaConfirmacao.s3_record :=
  LambdaConfirmacao.S3Record "notas-fiscais"
    (Z_to_string (t0 + minutes 1) ++ "-" ++ nome).

(** DynamoDB refuses the updates of Ana's order. *)
Definition dynamo_refuses_ana (c : call) : option exn :=
  match c with
  | UpdateCommand (VStr k) _ =>
      if String.eqb k "p-ana"
      then Some (Exn "ProvisionedThroughputExceededException" "Rate exceeded")
      else None
  | _ => None
  end.

(** An invoice put in the bucket by hand, tagged with an identifier under
    which no order is stored. *)
Definition world_orphan : world :=
  World ∅
        {[ ("notas-fiscais", "avulsas/nota-avulsa.pdf")
           := S3Object "%PDF-1.4" "application/pdf" {[ "idpedido" := "p-fantasma" ]} ]}
        [] no_fault {[ "S3_BUCKET_NAME" := "notas-fiscais" ]}.

Definition orphan_arrival : LambdaConfirmacao.s3_record :=
  LambdaConfirmacao.S3Record "notas-fiscais" "avulsas/nota-avulsa.pdf".

(** The invoice of Ana as the upload stored it. *)
Definition key_ana : string := "1736937060123-nota-ana.pdf".


(** *** The sweep *)

(** Three orders created from the same request 10, 5 and 2 minutes before
    [t0]. *)
Definition three_orders (req_body : gmap string value) : world :=
  after (Api.post_pedidos (t0 - minutes 2) "p-2" req_body)
  (after (Api.post_pedidos (t0 - minutes 5) "p-5" req_body)
  (after (Api.post_pedidos (t0 - minutes 10) "p-10" req_body) empty_world)).

(** The request of Ana with the status the sweep looks for. *)
Definition body_RECEBIMENTO : gmap string value :=
  <["status" := VStr "RECEBIMENTO"]> body_ana.

(** *** What a computation keeps *)

(** Whatever [m] answers, the world it leaves is related by [R] to the one
    it started in. *)
Definition keeps {A} (R : world -> world -> Prop) (m : M A) : Prop :=
  forall (w : world) (r : result A) (w' : world), m w = (r, w') -> R w w'.

(** A relation that holds of a world and itself, composes, and is blind to
    the record of the commands sent. *)
Class Frame (R : world -> world -> Prop) : Prop := {
  frame_refl : forall w, R w w;
  frame_trans : forall w1 w2 w3, R w1 w2 -> R w2 w3 -> R w1 w3;
  frame_log : forall c w, R w (log_call c w)
}.

(** The table and the bucket are as they were. *)
Definition same_stores (w w' : world) : Prop :=
  table w' = table w /\ objects w' = objects w.

Definition same_table (w w' : world) : Prop := table w' = table w.

Definition same_objects (w w' : world) : Prop := objects w' = objects w.

(** Every order that was stored still is, with every attribute outside
    [attrs] as it was. *)
Definition orders_kept (attrs : list string) (w w' : world) : Prop :=
  forall (k : string) (pedido : item),
    table w !! k = Some pedido ->
    exists pedido' : item,
      table w' !! k = Some pedido'
      /\ forall a : string, ~ In a attrs -> pedido' !! a = pedido !! a.

(** Every stored order carries the key it is stored under as its
    [idPedido]. *)
Definition well_keyed (w : world) : Prop :=
  forall (k : string) (pedido : item),
    table w !! k = Some pedido -> pedido !! "idPedido" = Some (VStr k).

Definition keyed_after (w w' : world) : Prop := well_keyed w -> well_keyed w'.

(** No order appears and none goes. *)
Definition same_orders (w w' : world) : Prop :=
  forall k : string, is_Some (table w' !! k) <-> is_Some (table w !! k).

(** The services refuse nothing. *)
Definition answers (w : world) : Prop := forall c : call, fault w c = None.

(** The attributes lambda-confirmacao writes. *)
Definition shipping_attributes : list string := ["status"; "dataEnvio"; "referenciaNota"].

(** The bucket is as it was, and so is every order but the one under
    [uuid]. *)
Definition others_kept (uuid : string) (w w' : world) : Prop :=
  objects w' = objects w
  /\ forall k : string, k <> uuid -> table w' !! k = table w !! k.

(** What a check of the diagnostics reports of a command. *)
Definition check_of (S : ApiLeitura.services) (c : ApiLeitura.listing) (ok : string)
  : ApiLeitura.check :=
  match ApiLeitura.refuses S c with
  | None => ApiLeitura.Check "OK" ok None
  | Some e => ApiLeitura.Check "ERRO" (exn_message e) (Some (exn_name e))
  end.

(** Services that refuse nothing, every object last written at [t0]. *)
Definition services_ok : ApiLeitura.services :=
  ApiLeitura.Services (fun _ => None) (fun _ _ => t0).

(** S3 refuses its listings; DynamoDB answers. *)
Definition services_s3_down : ApiLeitura.services :=
  ApiLeitura.Services
    (fun c => match c with
              | ApiLeitura.ScanAll _ => None
              | _ => Some (Exn "AccessDenied" "Access Denied")
              end)
    (fun _ _ => t0).

(** What the listing of the files of an order makes of one object of the
    bucket: it is kept when its metadata could be read and carry the
    identifier of the order. *)
Definition listed (w : world) (BUCKET_NAME idPedido : string) (item : ApiLeitura.content)
  : option ApiLeitura.arquivo_do_pedido :=
  match fault w (HeadObjectCommand BUCKET_NAME (ApiLeitura.Key item)) with
  | Some _ => None
  | None =>
      match objects w !! (BUCKET_NAME, ApiLeitura.Key item) with
      | Some o =>
          if ApiLeitura.tagged_with idPedido (Metadata o) then
            Some (ApiLeitura.ArquivoDoPedido
                    (ApiLeitura.arquivo_of item)
                    ("https://" ++ BUCKET_NAME ++ ".s3." ++ ApiLeitura.region_text w
                                ++ ".amazonaws.com/" ++ ApiLeitura.Key item))
          else None
      | None => None
      end
  end.

(** The keys of the files a listing answered with. *)
Definition keys_of (arquivos : list ApiLeitura.arquivo_do_pedido) : list string :=
  map (fun a => ApiLeitura.key (ApiLeitura.arquivo_de a)) arquivos.

(** The files in the answer of [GET /pedidos/:idPedido/arquivos], when it is
    a listing. *)
Definition files_listed (answer : result ApiLeitura.response) : list string :=
  match answer with
  | Ok (ApiLeitura.Response _ (ApiLeitura.ArquivosDoPedidoReply _ _ _ _ arquivos)) =>
      keys_of arquivos
  | _ => []
  end.

(** The key the upload route stores a file under. *)
Definition upload_key (now : Z) (f : Api.file) : string :=
  Z_to_string now ++ "-" ++ Api.originalname f.

(** The object the upload route leaves in the bucket. *)
Definition uploaded_object (now : Z) (idPedido : string) (f : Api.file) : s3object :=
  S3Object (Api.buffer f) (Api.mimetype f)
           (<["idpedido" := idPedido]> (<["dataupload" := toISOString now]> ∅)).

(** What the sweep reports of one selected order: whether the endpoint took
    the request, and the message of the error when it did not. *)
Definition outcome (w : world) (pedido : item) : resultado :=
  match fault w (HttpPost (prop pedido "idPedido")) with
  | Some e => Resultado (prop pedido "idPedido") false (Some (exn_message e))
  | None => Resultado (prop pedido "idPedido") true None
  end.

(** The requests the sweep posts for the orders it selected. *)
Definition posts (pedidosPendentes : list item) : list call :=
  map (fun pedido : item => HttpPost (prop pedido "idPedido")) pedidosPendentes.

(** The addresses a batch of change events is answered to, in order. *)
Definition notified (Records : list LambdaNotificacao.stream_record) : list value :=
  flat_map (fun r => if notifiable r
                     then match customer_email r with
                          | Some e => [VStr e]
                          | None => []
                          end
                     else []) Records.

(** A change event that says MODIFY and has lost the new image. *)
Definition modify_without_image : LambdaNotificacao.stream_record :=
  LambdaNotificacao.StreamRecord "MODIFY" None
    (Some (image_of "p-ana" "ana@example.com" "RECEBIMENTO")).

(** The endpoint refuses the request for the order of five minutes. *)
Definition endpoint_refuses_p5 (c : call) : option exn :=
  match c with
  | HttpPost (VStr k) =>
      if String.eqb k "p-5" then Some (Exn "Error" "API retornou status 500: ") else None
  | _ => None
  end.

(** The three orders of the sweep, with the status it looks for, in a world
    with the faults [f]. *)
Definition three_due (f : call -> option exn) : world :=
  after (Api.post_pedidos (t0 - minutes 2) "p-2" body_RECEBIMENTO)
  (after (Api.post_pedidos (t0 - minutes 5) "p-5" body_RECEBIMENTO)
  (after (Api.post_pedidos (t0 - minutes 10) "p-10" body_RECEBIMENTO)
     (World ∅ ∅ [] f ∅))).

(** Whatever [m] returns, when it returns, is a [P]. *)
Definition yields {A} (P : A -> Prop) (m : M A) : Prop :=
  forall (w : world) (r : A) (w' : world), m w = (Ok r, w') -> P r.

(** [m] never throws: in every world it returns a response, with one of
    the status codes [codes]. *)
Definition always_answers {R} (code : R -> Z) (codes : list Z) (m : M R) : Prop :=
  forall w : world, exists r : R, (m w).1 = Ok r /\ In (code r) codes.

(** The string holds no occurrence of the character [c]. *)
Fixpoint lacks (c : ascii) (s : string) : bool :=
  match s with
  | String c' r => negb (Ascii.eqb c' c) && lacks c r
  | EmptyString => true
  end.







(** Every stored order with the status RECEBIMENTO carries a date as
    [toISOString] writes it, which is how [POST /pedidos] dates an order. *)
Definition received_dated (w : world) : Prop :=
  forall (k : string) (pedido : item),
    table w !! k = Some pedido ->
    pedido !! "status" = Some (VStr "RECEBIMENTO") ->
    exists t : Z,
      - 8640000000000000 <= t <= 8640000000000000
      /\ pedido !! "data" = Some (VStr (toISOString t)).

(** The order of Ana, created at [t0] with the status the sweep looks for. *)
Definition world_due : world :=
  after (Api.post_pedidos t0 "p-ana" body_RECEBIMENTO) empty_world.

(** DynamoDB refuses the scan of the sweep. *)
Definition dynamo_refuses_scan (c : call) : option exn :=
  match c with
  | ScanCommand _ =>
      Some (Exn "ProvisionedThroughputExceededException" "Rate exceeded")
  | _ => None
  end.

(** * Properties *)

(** ** The built-ins on examples *)

Example parseFloat_decimal : parseFloat_str "150.50" = Finite (301 # 2).
Proof. reflexivity. Qed.

Example parseFloat_prefix : parseFloat_str "  -5e-1abc" = Finite (-1 # 2).
Proof. reflexivity. Qed.

(** One tenth is not a binary64 number: the nearest one is read. *)
Example parseFloat_tenth :
  parseFloat_str "0.1" = Finite (3602879701896397 # 36028797018963968).
Proof. vm_compute. reflexivity. Qed.

Example parseFloat_huge : parseFloat_str "-1e400" = Infinity true.
Proof. vm_compute. reflexivity. Qed.

(** A no-break space before the digits is trimmed like a space. *)
Example parseFloat_nbsp :
  parseFloat_str (String (ascii_of_nat 194) (String (ascii_of_nat 160) "5")) = Finite 5.
Proof. vm_compute. reflexivity. Qed.

Example parseFloat_word : parseFloat_str "abc" = NaN.
Proof. reflexivity. Qed.

Example parseFloat_dot : parseFloat_str "." = NaN.
Proof. reflexivity. Qed.

Example toISOString_epoch : toISOString 0 = "1970-01-01T00:00:00.000Z".
Proof. reflexivity. Qed.

Example toISOString_t0 : toISOString t0 = "2025-01-15T10:30:00.123Z".
Proof. vm_compute. reflexivity. Qed.

Example toISOString_leap_day : toISOString 951782400000 = "2000-02-29T00:00:00.000Z".
Proof. vm_compute. reflexivity. Qed.

Example Date_parse_t0 : Date_parse "2025-01-15T10:30:00.123Z" = num_of_Z t0.
Proof. vm_compute. reflexivity. Qed.

Example Date_parse_no_such_day : Date_parse "2025-02-30T00:00:00.000Z" = NaN.
Proof. vm_compute. reflexivity. Qed.

Example decodeURIComponent_key :
  decodeURIComponent (replace_plus "notas+de+maio/n%C2%BA+7.PDF")
  = Some "notas de maio/nº 7.PDF".
Proof. vm_compute. reflexivity. Qed.

Example decodeURIComponent_malformed : decodeURIComponent "100%" = None.
Proof. reflexivity. Qed.

Example split_pop_path : split_pop "notas de maio/nº 7.PDF" = "nº 7.PDF".
Proof. reflexivity. Qed.

Example endsWith_pdf : endsWith (toLowerCase "notas de maio/nº 7.PDF") ".pdf" = true.
Proof. reflexivity. Qed.

Example endsWith_short : endsWith "pdf" ".pdf" = false.
Proof. reflexivity. Qed.

(** ** The services, when they answer *)

Lemma falsy_VStr (s : string) : falsy (VStr s) = false <-> s <> "".
Proof.
  simpl. split.
  - intros H ->. discriminate.
  - intros H. now apply String.eqb_neq.
Qed.

Lemma send_ok (c : call) (w : world) :
  fault w c = None -> send c w = (Ok tt, log_call c w).
Proof. intros H. unfold send. now rewrite H. Qed.

Lemma send_refused (c : call) (e : exn) (w : world) :
  fault w c = Some e -> send c w = (Throw e, log_call c w).
Proof. intros H. unfold send. now rewrite H. Qed.

Lemma dynamo_get_ok (k : string) (w : world) :
  fault w (GetCommand (VStr k)) = None ->
  dynamo_get (VStr k) w = (Ok (table w !! k), log_call (GetCommand (VStr k)) w).
Proof.
  intros H. unfold dynamo_get, bind. simpl. now rewrite (send_ok _ _ H).
Qed.

Lemma dynamo_update_ok (k : string) (sets : list (string * value)) (w : world) :
  existsb special_numeric sets.*2 = false ->
  fault w (UpdateCommand (VStr k) sets) = None ->
  dynamo_update (VStr k) sets w =
    let new := apply_sets sets (default {[ "idPedido" := VStr k ]} (table w !! k)) in
    (Ok new,
     set_table (<[k := new]> (table w)) (log_call (UpdateCommand (VStr k) sets) w)).
Proof.
  intros Hm H. unfold dynamo_update, bind, marshall. simpl.
  rewrite Hm. simpl. now rewrite (send_ok _ _ H).
Qed.

Lemma dynamo_update_refused (k : string) (sets : list (string * value)) (e : exn)
      (w : world) :
  existsb special_numeric sets.*2 = false ->
  fault w (UpdateCommand (VStr k) sets) = Some e ->
  dynamo_update (VStr k) sets w = (Throw e, log_call (UpdateCommand (VStr k) sets) w).
Proof.
  intros Hm H. unfold dynamo_update, bind, marshall. simpl.
  rewrite Hm. simpl. now rewrite (send_refused _ _ _ H).
Qed.

Lemma s3_head_ok (b k : string) (o : s3object) (w : world) :
  fault w (HeadObjectCommand b k) = None ->
  objects w !! (b, k) = Some o ->
  s3_head b k w = (Ok (Metadata o), log_call (HeadObjectCommand b k) w).
Proof.
  intros H Ho. unfold s3_head, bind. rewrite (send_ok _ _ H). simpl. now rewrite Ho.
Qed.

Lemma run_eq {A} (m : M A) (w : world) (r : result A) :
  (m w).1 = r -> m w = (r, after m w).
Proof. intros <-. unfold after. apply surjective_pairing. Qed.

(** ** Loops *)

Lemma for_of_app {A} (xs ys : list A) (body : A -> M unit) (w : world) :
  for_of (xs ++ ys) body w =
    match for_of xs body w with
    | (Ok _, w') => for_of ys body w'
    | (Throw e, w') => (Throw e, w')
    end.
Proof.
  revert w. induction xs as [|x xs IH]; intros w; simpl.
  - reflexivity.
  - unfold bind. destruct (body x w) as [[[]|e] w1]; [apply IH | reflexivity].
Qed.

(** A loop stops at the first element whose body throws: what follows it is
    not run. *)
Lemma for_of_stops {A} (pre post : list A) (x : A) (body : A -> M unit)
      (w w1 w2 : world) (e : exn) :
  for_of pre body w = (Ok tt, w1) ->
  body x w1 = (Throw e, w2) ->
  for_of (pre ++ x :: post) body w = (Throw e, w2).
Proof.
  intros Hpre Hx. rewrite for_of_app, Hpre. simpl. unfold bind. now rewrite Hx.
Qed.

(** ** lambda-preparacao *)

(** C7.  [advanceToPreparation]: the handler of lambda-preparacao, called
    with the identifier [id] of an order, while the table answers.  When no
    order is stored under [id], it answers 404 (not found) and the table is
    as it was.  When an order is stored under [id], it answers 200 with the
    order updated; the table holds the updated order under [id] and every
    other order as before; the updated order has status PREPARACAO and
    every other attribute (idPedido, emailCliente, nomeCliente, valor, data,
    referenciaNota, dataEnvio) as before. *)
Theorem advanceToPreparation_spec (ev : LambdaPreparacao.event_body) (id : string)
        (w : world) :
  payload_idPedido (LambdaPreparacao.decode ev) = VStr id ->
  id <> "" ->
  fault w (GetCommand (VStr id)) = None ->
  (table w !! id = None ->
   exists w',
     LambdaPreparacao.handler ev w
     = (Ok (Response 404 (ErrorReply "Pedido não encontrado" None)), w')
     /\ table w' = table w /\ objects w' = objects w)
  /\
  (forall pedido : item,
     table w !! id = Some pedido ->
     fault w (UpdateCommand (VStr id) set_PREPARACAO) = None ->
     exists (pedido' : item) (w' : world),
       LambdaPreparacao.handler ev w
       = (Ok (Response 200 (PedidoReply "Pedido atualizado para PREPARACAO" pedido')), w')
       /\ table w' = <[id := pedido']> (table w)
       /\ objects w' = objects w
       /\ pedido' !! "status" = Some (VStr "PREPARACAO")
       /\ (forall a : string, a <> "status" -> pedido' !! a = pedido !! a)).
Proof.
  intros Hid Hne Hget.
  assert (Hrun : LambdaPreparacao.handler ev w =
                 try_catch
                   (Item <- dynamo_get (VStr id) ;;
                    match Item with
                    | None => ret (Response 404 (ErrorReply "Pedido não encontrado" None))
                    | Some _ =>
                        result <- dynamo_update (VStr id) set_PREPARACAO ;;
                        ret (Response 200
                               (PedidoReply "Pedido atualizado para PREPARACAO" result))
                    end)
                   (fun error =>
                      ret (Response 500
                             (ErrorReply "Erro ao processar pedido"
                                         (Some (exn_message error))))) w).
  { unfold LambdaPreparacao.handler, try_catch, bind,
      LambdaPreparacao.destructure_idPedido.
    destruct (LambdaPreparacao.decode ev) as [| |o|]; simpl in Hid; try discriminate.
    unfold ret at 1. rewrite Hid.
    replace (falsy (VStr id)) with false by (symmetry; now apply falsy_VStr).
    reflexivity. }
  rewrite Hrun. unfold try_catch, bind. rewrite (dynamo_get_ok _ _ Hget).
  split.
  - intros Hnone. rewrite Hnone. eexists. split; [reflexivity|]. now split.
  - intros pedido Hsome Hupd. rewrite Hsome.
    rewrite dynamo_update_ok by (reflexivity || exact Hupd).
    simpl. rewrite Hsome. simpl.
    eexists _, _. split; [reflexivity|]. simpl.
    repeat split.
    + apply lookup_insert_eq.
    + intros a Ha. now apply lookup_insert_ne.
Qed.

Lemma advanceToPreparation_witness :
  exists (pedido' : item) (w' : world),
    LambdaPreparacao.handler
      (LambdaPreparacao.BodyJson (LambdaPreparacao.DObject {[ "idPedido" := VStr "p-ana" ]}))
      world_ana
    = (Ok (Response 200 (PedidoReply "Pedido atualizado para PREPARACAO" pedido')), w')
    /\ pedido' !! "status" = Some (VStr "PREPARACAO")
    /\ pedido' !! "emailCliente" = Some (VStr "ana@example.com").
Proof.
  destruct (advanceToPreparation_spec
              (LambdaPreparacao.BodyJson
                 (LambdaPreparacao.DObject {[ "idPedido" := VStr "p-ana" ]}))
              "p-ana" world_ana) as [_ H].
  - vm_compute. reflexivity.
  - discriminate.
  - vm_compute. reflexivity.
  - destruct (H (Api.novo_pedido t0 "p-ana" body_ana)) as (p & w' & Hrun & _ & _ & Hs & Hframe).
    + vm_compute. reflexivity.
    + vm_compute. reflexivity.
    + exists p, w'. split; [exact Hrun|]. split; [exact Hs|].
      rewrite Hframe by discriminate. vm_compute. reflexivity.
Defined.

(** A payload whose [idPedido] is absent or falsy is answered before any
    command is sent: with 400 when the body is there (an object without a
    truthy [idPedido], or a value that is not an object), and with 500 when
    the body itself is [null] or [undefined], the destructuring having
    thrown.  Either way the world is as it was: no read, no write. *)
Lemma malformed_payload_rejected (ev : LambdaPreparacao.event_body) (w : world) :
  falsy (payload_idPedido (LambdaPreparacao.decode ev)) = true ->
  LambdaPreparacao.handler ev w =
    (Ok (match LambdaPreparacao.decode ev with
         | LambdaPreparacao.DNullish =>
             Response 500
               (ErrorReply "Erro ao processar pedido"
                  (Some (exn_message LambdaPreparacao.cannot_destructure)))
         | LambdaPreparacao.DNull =>
             Response 500
               (ErrorReply "Erro ao processar pedido"
                  (Some (exn_message LambdaPreparacao.cannot_destructure_null)))
         | _ => Response 400 (ErrorReply "idPedido é obrigatório" None)
         end), w).
Proof.
  intros H. unfold LambdaPreparacao.handler, try_catch, bind,
    LambdaPreparacao.destructure_idPedido.
  destruct (LambdaPreparacao.decode ev) as [| |o|]; simpl in *.
  - reflexivity.
  - reflexivity.
  - now rewrite H.
  - reflexivity.
Qed.

(** The same for a body that is [null], as the string [null] parses to. *)
Example payload_null :
  LambdaPreparacao.handler (LambdaPreparacao.BodyJson LambdaPreparacao.DNull) empty_world
  = (Ok (Response 500
           (ErrorReply "Erro ao processar pedido"
              (Some "Cannot destructure property 'idPedido' of 'body' as it is null."))),
     empty_world).
Proof. reflexivity. Qed.

(** A payload that is there and has no [idPedido] is answered with 400. *)
Example payload_without_idPedido :
  LambdaPreparacao.handler
    (LambdaPreparacao.BodyJson (LambdaPreparacao.DObject {[ "pedido" := VStr "p-ana" ]}))
    world_ana
  = (Ok (Response 400 (ErrorReply "idPedido é obrigatório" None)), world_ana).
Proof.
  apply (malformed_payload_rejected
           (LambdaPreparacao.BodyJson
              (LambdaPreparacao.DObject {[ "pedido" := VStr "p-ana" ]}))
           world_ana).
  vm_compute. reflexivity.
Qed.

(** C10: the code at an event without a body.  Such a payload has no
    [idPedido]; the destructuring of line 25 throws, the outer catch
    answers, and the answer is 500 with the message of the TypeError, not
    the 400 of the validation.  Nothing is read or written. *)
Theorem missing_body_is_not_400 :
  falsy (payload_idPedido (LambdaPreparacao.decode
                             (LambdaPreparacao.BodyValue LambdaPreparacao.DNullish)))
  = true
  /\ LambdaPreparacao.handler
       (LambdaPreparacao.BodyValue LambdaPreparacao.DNullish) empty_world
     = (Ok (Response 500
              (ErrorReply "Erro ao processar pedido"
                 (Some "Cannot destructure property 'idPedido' of 'body' as it is undefined."))),
        empty_world).
Proof.
  split; reflexivity.
Qed.


(** ** The API *)

(** C9.  The upload route looks the order up before it writes to the
    bucket.  Without a file it answers 400 and sends no command at all.
    With a file and an identifier under which no order is stored, it
    answers 404 having sent the GetCommand and nothing else: no
    PutObjectCommand, and the objects of the bucket are as they were. *)
Theorem upload_checks_order_first (now : Z) (id : string) (f : Api.file) (w : world) :
  table w !! id = None ->
  fault w (GetCommand (VStr id)) = None ->
  Api.post_pedidos_upload now id None w
    = (Ok (Response 400 (ErrorReply "Nenhum arquivo enviado" None)), w)
  /\ exists w',
       Api.post_pedidos_upload now id (Some f) w
         = (Ok (Response 404 (ErrorReply "Pedido não encontrado" None)), w')
       /\ calls w' = (calls w ++ [GetCommand (VStr id)])%list
       /\ objects w' = objects w
       /\ table w' = table w.
Proof.
  intros Hnone Hget. split; [reflexivity|].
  unfold Api.post_pedidos_upload, try_catch, bind.
  rewrite (dynamo_get_ok _ _ Hget), Hnone.
  eexists. split; [reflexivity|]. simpl. auto.
Qed.

Lemma upload_checks_order_first_witness :
  exists w',
    Api.post_pedidos_upload t0 "p-bia" (Some nota) world_ana
      = (Ok (Response 404 (ErrorReply "Pedido não encontrado" None)), w')
    /\ objects w' = objects world_ana.
Proof.
  destruct (upload_checks_order_first t0 "p-bia" nota world_ana)
    as (_ & w' & Hrun & _ & Hobj & _).
  - vm_compute. reflexivity.
  - vm_compute. reflexivity.
  - exists w'. split; [exact Hrun | exact Hobj].
Defined.

Lemma novo_pedido_idPedido (now : Z) (uuid : string) (req_body : gmap string value) :
  prop (Api.novo_pedido now uuid req_body) "idPedido" = VStr uuid.
Proof. unfold prop, Api.novo_pedido. now rewrite lookup_insert_eq. Qed.

Lemma novo_pedido_valor (now : Z) (uuid : string) (req_body : gmap string value) :
  Api.novo_pedido now uuid req_body !! "valor"
  = Some (VNum (parseFloat (prop req_body "valor"))).
Proof.
  unfold Api.novo_pedido.
  rewrite !lookup_insert_ne by discriminate. now rewrite lookup_insert_eq.
Qed.

(** C5, as the code has it.  [POST /pedidos] answers 400, and leaves the
    world as it was (nothing sent, nothing stored), whenever emailCliente,
    nomeCliente or valor is absent or falsy.  Otherwise it either stores
    the new order, whose [valor] is [parseFloat] of the one supplied, and
    answers 201, or answers 500 with the table as it was.  So every stored
    creation has the three fields truthy; that the amount is positive is
    not checked. *)
Theorem createOrder_validation (now : Z) (uuid : string)
        (req_body : gmap string value) (w : world) :
  (any_falsy req_body = true ->
   Api.post_pedidos now uuid req_body w
   = (Ok (Response 400
            (ErrorReply "emailCliente, nomeCliente e valor são obrigatórios" None)), w))
  /\
  (any_falsy req_body = false ->
   let pedido := Api.novo_pedido now uuid req_body in
   (Api.post_pedidos now uuid req_body w
    = (Ok (Response 201 (PedidoReply "Pedido criado com sucesso" pedido)),
       set_table (<[uuid := pedido]> (table w)) (log_call (PutCommand pedido) w))
    /\ pedido !! "valor" = Some (VNum (parseFloat (prop req_body "valor"))))
   \/
   (exists (details : option string) (w' : world),
      Api.post_pedidos now uuid req_body w
      = (Ok (Response 500 (ErrorReply "Erro ao criar pedido" details)), w')
      /\ table w' = table w /\ objects w' = objects w)).
Proof.
  unfold any_falsy. split; intros H.
  - unfold Api.post_pedidos, try_catch. now rewrite H.
  - unfold Api.post_pedidos, try_catch. rewrite H.
    set (pedido := Api.novo_pedido now uuid req_body).
    unfold dynamo_put, bind, marshall.
    destruct (existsb special_numeric (map_to_list pedido).*2).
    + right. simpl. eexists _, _. split; [reflexivity|]. now split.
    + simpl. unfold send. destruct (fault w (PutCommand pedido)) as [e|] eqn:Hf.
      * right. eexists _, _. split; [reflexivity|]. now split.
      * left. subst pedido. rewrite novo_pedido_idPedido. simpl.
        split; [reflexivity | apply novo_pedido_valor].
Qed.

Lemma createOrder_validation_witness :
  Api.post_pedidos t0 "p-x" (delete "valor" body_ana) world_ana
  = (Ok (Response 400
           (ErrorReply "emailCliente, nomeCliente e valor são obrigatórios" None)),
     world_ana).
Proof.
  apply (createOrder_validation t0 "p-x" (delete "valor" body_ana) world_ana).
  vm_compute. reflexivity.
Defined.

(** C5, as stated, fails: a negative amount is not a valid positive number,
    and yet the order is created and stored with it. *)
Lemma negative_amount_is_stored :
  positive_number (prop body_negative "valor") = false
  /\ (Api.post_pedidos t0 "p-neg" body_negative empty_world).1
     = Ok (Response 201
             (PedidoReply "Pedido criado com sucesso"
                          (Api.novo_pedido t0 "p-neg" body_negative)))
  /\ attribute_of (after (Api.post_pedidos t0 "p-neg" body_negative) empty_world)
                  "p-neg" "valor"
     = Some (VNum (Finite (-5))).
Proof.
  split; [vm_compute; reflexivity|]. split; vm_compute; reflexivity.
Qed.

(** ** lambda-notificacao *)

(** The conditions of the change detector, as the handler computes them. *)
Lemma attr_S_string (img : option LambdaNotificacao.image) (k : string) :
  LambdaNotificacao.attr_S img k
  = match string_attribute img k with Some s => VStr s | None => VUndef end.
Proof.
  destruct img as [i|]; [|reflexivity]. simpl.
  destruct (i !! k) as [[| |]|]; reflexivity.
Qed.

Lemma strict_eq_strings (a b : option string) :
  LambdaNotificacao.strict_eq
    (match a with Some s => VStr s | None => VUndef end)
    (match b with Some s => VStr s | None => VUndef end)
  = bool_decide (a = b).
Proof.
  destruct a as [x|], b as [y|]; cbn [LambdaNotificacao.strict_eq]; symmetry.
  - destruct (String.eqb_spec x y) as [->|Hne].
    + now apply bool_decide_eq_true_2.
    + apply bool_decide_eq_false_2. congruence.
  - now apply bool_decide_eq_false_2.
  - now apply bool_decide_eq_false_2.
  - now apply bool_decide_eq_true_2.
Qed.

Lemma existsb_eqb_elem_of (s : string) (l : list string) :
  existsb (String.eqb s) l = bool_decide (s ∈ l).
Proof.
  induction l as [|x l IH]; cbn [existsb].
  - symmetry. apply bool_decide_eq_false_2, not_elem_of_nil.
  - rewrite IH. destruct (String.eqb_spec s x) as [->|Hne]; cbn [orb].
    + symmetry. apply bool_decide_eq_true_2. constructor.
    + apply bool_decide_ext. rewrite elem_of_cons. tauto.
Qed.

Lemma emailTemplates_key_spec (s : string) :
  LambdaNotificacao.emailTemplates_key s
  = match template_named s with
    | Some t => LambdaNotificacao.Own t
    | None =>
        if bool_decide (s ∈ LambdaNotificacao.Object_prototype_keys)
        then LambdaNotificacao.Inherited
        else LambdaNotificacao.Missing
    end.
Proof.
  unfold LambdaNotificacao.emailTemplates_key, template_named.
  destruct (String.eqb_spec s "RECEBIMENTO") as [->|H1]; [reflexivity|].
  rewrite decide_False by exact H1.
  destruct (String.eqb_spec s "PREPARACAO") as [->|H2]; [reflexivity|].
  rewrite decide_False by exact H2.
  destruct (String.eqb_spec s "ENVIADO") as [->|H3]; [reflexivity|].
  rewrite decide_False by exact H3.
  now rewrite existsb_eqb_elem_of.
Qed.

(** What the handler does with one change event that carries the new
    snapshot, by the conditions above. *)
Lemma processRecord_run (r : LambdaNotificacao.stream_record)
      (newImage : LambdaNotificacao.image) (w : world) :
  LambdaNotificacao.NewImage r = Some newImage ->
  LambdaNotificacao.processRecord r w
  = if notifiable r then
      match new_template r, customer_email r with
      | Some t, Some e =>
          send (SendEmailCommand
                  (Email (LambdaNotificacao.from_address w) [VStr e]
                         (LambdaNotificacao.subject t)
                         (t, LambdaNotificacao.pedido_of_image newImage (new_status r)))) w
      | _, _ => (Ok tt, w)
      end
    else if names_inherited r then (Throw LambdaNotificacao.body_not_a_function, w)
    else (Ok tt, w).
Proof.
  intros Himg.
  unfold notifiable, names_inherited, is_modification, status_changed, new_template,
    customer_email, new_status, LambdaNotificacao.processRecord.
  destruct (String.eqb_spec (LambdaNotificacao.eventName r) "MODIFY") as [Hev|Hev].
  2:{ rewrite bool_decide_eq_false_2 by exact Hev. reflexivity. }
  rewrite bool_decide_eq_true_2 by exact Hev.
  rewrite !attr_S_string, strict_eq_strings, bool_decide_not. rewrite Himg.
  destruct (bool_decide (string_attribute (LambdaNotificacao.OldImage r) "status"
                         = string_attribute (Some newImage) "status")); [reflexivity|].
  cbn [negb andb LambdaNotificacao.pedido_of_image status emailCliente].
  rewrite attr_S_string.
  destruct (string_attribute (Some newImage) "status") as [s|];
    cbn [LambdaNotificacao.emailTemplates mbind option_bind].
  2:{ rewrite bool_decide_eq_false_2 by (intros [? ?]; discriminate). reflexivity. }
  rewrite emailTemplates_key_spec.
  destruct (template_named s) as [t|].
  - rewrite bool_decide_eq_true_2 by eauto. cbn [andb].
    destruct (string_attribute (Some newImage) "emailCliente") as [e|]; cbn [falsy].
    + destruct (String.eqb_spec e "") as [->|He].
      * rewrite decide_True by reflexivity.
        rewrite bool_decide_eq_false_2 by (intros [? ?]; discriminate).
        cbn [andb]. now destruct (bool_decide _).
      * rewrite decide_False by exact He. rewrite bool_decide_eq_true_2 by eauto.
        reflexivity.
    + rewrite bool_decide_eq_false_2 by (intros [? ?]; discriminate).
      cbn [andb]. now destruct (bool_decide _).
  - rewrite (bool_decide_eq_false_2 (is_Some None)) by (intros [? ?]; discriminate).
    cbn [andb].
    destruct (bool_decide (s ∈ LambdaNotificacao.Object_prototype_keys)); cbn [andb].
    + destruct (string_attribute (Some newImage) "emailCliente") as [e|]; cbn [falsy].
      * destruct (String.eqb_spec e "") as [->|He].
        -- rewrite decide_True by reflexivity.
           now rewrite bool_decide_eq_false_2 by (intros [? ?]; discriminate).
        -- rewrite decide_False by exact He.
           now rewrite bool_decide_eq_true_2 by eauto.
      * now rewrite bool_decide_eq_false_2 by (intros [? ?]; discriminate).
    + reflexivity.
Qed.

(** C6: the code at a change to a status that has no template.  The spec
    passes such an event over.  The handler reads the template as
    [emailTemplates[status]], and for a status that names what every object
    inherits ([constructor], [toString], ...) the reading is not
    [undefined]: the test for a missing template lets it through and
    [template.body(pedido)] throws a TypeError out of the handler.  A status
    that names nothing is passed over, as the spec says. *)
Theorem inherited_status_is_fatal :
  template_named "constructor" = None
  /\ notifiable modify_dora = false
  /\ LambdaNotificacao.handler [modify_dora] empty_world
     = (Throw (Exn "TypeError" "template.body is not a function"), empty_world)
  /\ LambdaNotificacao.handler [modify_eva] empty_world
     = (Ok (Response 200 (MessageReply "Notificações processadas com sucesso")),
        empty_world).
Proof.
  split; [reflexivity|]. split; [vm_compute; reflexivity|].
  split; vm_compute; reflexivity.
Qed.

(** X30.  What the change detector does with one change event that carries
    the order as it is after the change.  When the event is a MODIFY, the
    old and the new status differ, the new status is one of RECEBIMENTO,
    PREPARACAO and ENVIADO, and emailCliente is a string that is not empty,
    exactly one SendEmailCommand is sent, addressed to that emailCliente and
    made from the template of that status.  When instead the new status is
    the name of something every object inherits, and the other conditions
    hold, a TypeError is thrown and nothing is sent.  In every other case (a
    creation, the same status written again, a status that names nothing,
    no recipient) nothing is sent and the record is passed over without an
    error. *)
Theorem change_detector_notifies (r : LambdaNotificacao.stream_record)
        (newImage : LambdaNotificacao.image) (w : world) :
  LambdaNotificacao.NewImage r = Some newImage ->
  if notifiable r then
    exists (s e : string) (t : template),
      string_attribute (Some newImage) "status" = Some s
      /\ template_named s = Some t
      /\ string_attribute (Some newImage) "emailCliente" = Some e
      /\ LambdaNotificacao.processRecord r w
         = send (SendEmailCommand (notification w r newImage t)) w
      /\ calls (LambdaNotificacao.processRecord r w).2
         = (calls w ++ [SendEmailCommand (notification w r newImage t)])%list
      /\ ToAddresses (notification w r newImage t) = [VStr e]
  else if names_inherited r then
    LambdaNotificacao.processRecord r w
    = (Throw (Exn "TypeError" "template.body is not a function"), w)
  else LambdaNotificacao.processRecord r w = (Ok tt, w).
Proof.
  intros Himg. rewrite (processRecord_run r newImage w Himg).
  destruct (notifiable r) eqn:Hn; [|destruct (names_inherited r); reflexivity].
  unfold notifiable in Hn. rewrite !andb_true_iff in Hn.
  destruct Hn as [[_ Ht] He].
  apply bool_decide_eq_true_1 in Ht. apply bool_decide_eq_true_1 in He.
  destruct Ht as [t Ht], He as [e He]. rewrite Ht, He.
  unfold new_template in Ht. unfold customer_email in He. rewrite Himg in Ht, He.
  destruct (string_attribute (Some newImage) "status") as [s|] eqn:Hs; [|discriminate].
  destruct (string_attribute (Some newImage) "emailCliente") as [e'|] eqn:Hm;
    [|discriminate].
  destruct (decide (e' = "")); [discriminate|]. injection He as ->.
  cbn [mbind option_bind] in Ht.
  assert (Hrec : recipient r = VStr e).
  { unfold recipient. now rewrite attr_S_string, Himg, Hm. }
  assert (Hmsg : Email (LambdaNotificacao.from_address w) [VStr e]
                       (LambdaNotificacao.subject t)
                       (t, LambdaNotificacao.pedido_of_image newImage (new_status r))
                 = notification w r newImage t).
  { unfold notification. now rewrite Hrec. }
  rewrite Hmsg. exists s, e, t.
  split; [reflexivity|]. split; [exact Ht|]. split; [reflexivity|].
  split; [reflexivity|]. split.
  - unfold send. now destruct (fault w _).
  - unfold notification. cbn [ToAddresses]. now rewrite Hrec.
Qed.

Lemma change_detector_notifies_witness :
  exists (s e : string) (t : template),
    string_attribute (Some (image_of "p-bia" "bia@example.com" "PREPARACAO")) "status"
    = Some s
    /\ template_named s = Some t
    /\ string_attribute (Some (image_of "p-bia" "bia@example.com" "PREPARACAO"))
                        "emailCliente" = Some e
    /\ calls (LambdaNotificacao.processRecord modify_bia world_ses).2
       = (calls world_ses
          ++ [SendEmailCommand
                (notification world_ses modify_bia
                              (image_of "p-bia" "bia@example.com" "PREPARACAO") t)])%list
    /\ ToAddresses (notification world_ses modify_bia
                                 (image_of "p-bia" "bia@example.com" "PREPARACAO") t)
       = [VStr e].
Proof.
  pose proof (change_detector_notifies modify_bia
                (image_of "p-bia" "bia@example.com" "PREPARACAO") world_ses eq_refl) as H.
  assert (Hn : notifiable modify_bia = true) by (vm_compute; reflexivity).
  rewrite Hn in H. destruct H as (s & e & t & Hs & Ht & He & _ & Hcalls & Hto).
  exists s, e, t. auto.
Defined.

(** Without the order as it is after the change, nothing is ever sent. *)
Lemma no_image_nothing_sent (r : LambdaNotificacao.stream_record) (w : world) :
  LambdaNotificacao.NewImage r = None ->
  notifiable r = false /\ calls (LambdaNotificacao.processRecord r w).2 = calls w.
Proof.
  intros Himg. unfold notifiable, new_template, LambdaNotificacao.processRecord.
  rewrite Himg. cbn [string_attribute mbind option_bind]. split.
  - rewrite (bool_decide_eq_false_2 (is_Some None)) by (intros [? ?]; discriminate).
    now rewrite andb_false_r.
  - destruct (String.eqb _ _); [|reflexivity].
    now destruct (LambdaNotificacao.strict_eq _ _).
Qed.

(** What the handler makes of a batch that goes through. *)
Lemma notificacao_batch_ok (Records : list LambdaNotificacao.stream_record)
      (w w' : world) :
  for_of Records LambdaNotificacao.processRecord w = (Ok tt, w') ->
  LambdaNotificacao.handler Records w
  = (Ok (Response 200 (MessageReply "Notificações processadas com sucesso")), w').
Proof.
  intros H. unfold LambdaNotificacao.handler, try_catch, bind. now rewrite H.
Qed.

(** C3, as the code has it.  The records of a batch are handled in order.
    When the notification of one of them fails, the error is thrown again
    out of the handler with the world as that record left it: the records
    after it in the batch are not handled at all. *)
Theorem notification_failure_ends_batch
        (pre post : list LambdaNotificacao.stream_record)
        (r : LambdaNotificacao.stream_record) (w w1 w2 : world) (e : exn) :
  for_of pre LambdaNotificacao.processRecord w = (Ok tt, w1) ->
  LambdaNotificacao.processRecord r w1 = (Throw e, w2) ->
  LambdaNotificacao.handler (pre ++ r :: post) w = (Throw e, w2).
Proof.
  intros Hpre Hr. unfold LambdaNotificacao.handler, try_catch, bind.
  now rewrite (for_of_stops pre post r _ w w1 w2 e Hpre Hr).
Qed.

Lemma notification_failure_ends_batch_witness :
  LambdaNotificacao.handler ([rewrite_caio] ++ modify_ana :: [modify_bia]) world_ses
  = (Throw (Exn "MessageRejected" "Email address is not verified."),
     after (LambdaNotificacao.processRecord modify_ana) world_ses).
Proof.
  apply (notification_failure_ends_batch [rewrite_caio] [modify_bia] modify_ana
           world_ses world_ses).
  - vm_compute. reflexivity.
  - apply run_eq. vm_compute. reflexivity.
Defined.

(** C3, as stated, fails: Bia's record, which is notified when it comes
    alone, is never notified when it comes after Ana's, whose notification
    SES refuses. *)
Lemma failure_blocks_later_records :
  (LambdaNotificacao.processRecord modify_bia world_ses).1 = Ok tt
  /\ sent_to (after (LambdaNotificacao.processRecord modify_bia) world_ses)
     = [VStr "bia@example.com"]
  /\ (LambdaNotificacao.handler [modify_ana; modify_bia] world_ses).1
     = Throw (Exn "MessageRejected" "Email address is not verified.")
  /\ sent_to (after (LambdaNotificacao.handler [modify_ana; modify_bia]) world_ses)
     = [VStr "ana@example.com"].
Proof.
  repeat split; vm_compute; reflexivity.
Qed.

(** ** lambda-confirmacao *)

Lemma tagged_is_string (md : gmap string string) :
  falsy (LambdaConfirmacao.idPedido_of md) = false ->
  exists id : string, LambdaConfirmacao.idPedido_of md = VStr id /\ id <> "".
Proof.
  unfold LambdaConfirmacao.idPedido_of, js_or, LambdaConfirmacao.meta.
  destruct (md !! "idpedido") as [a|]; destruct (md !! "idPedido") as [b|]; simpl;
    try (destruct (String.eqb a "") eqn:Ha);
    try (destruct (String.eqb b "") eqn:Hb);
    simpl; rewrite ?Ha, ?Hb; try discriminate; intros _;
    eexists; (split; [reflexivity|]); now apply String.eqb_neq.
Qed.

(** X29.  The order a document is tagged with: the tag is read under the
    name S3 gives it, [idpedido], and, when that one is absent or empty,
    under [idPedido]; an empty tag counts as none. *)
Lemma idPedido_of_spec (md : gmap string string) (id : string) :
  LambdaConfirmacao.idPedido_of md = VStr id /\ id <> ""
  <-> (md !! "idpedido" = Some id /\ id <> "")
      \/ ((md !! "idpedido" = None \/ md !! "idpedido" = Some "")
          /\ md !! "idPedido" = Some id /\ id <> "").
Proof.
  unfold LambdaConfirmacao.idPedido_of, js_or, LambdaConfirmacao.meta.
  destruct (md !! "idpedido") as [a|]; simpl.
  - destruct (String.eqb a "") eqn:Ha.
    + apply String.eqb_eq in Ha. subst a.
      destruct (md !! "idPedido") as [b|]; split.
      * intros [[= ->] Hne]. right. auto.
      * intros [[[= <-] Hne] | (_ & [= ->] & Hne)]; [now destruct Hne | auto].
      * intros [[=] _].
      * intros [[[= <-] Hne] | (_ & [=] & _)]. now destruct Hne.
    + apply String.eqb_neq in Ha. split.
      * intros [[= ->] Hne]. left. auto.
      * intros [[[= ->] Hne] | ([[=] | [= ->]] & _)]; [auto | now destruct Ha].
  - destruct (md !! "idPedido") as [b|]; split.
    + intros [[= ->] Hne]. right. auto.
    + intros [[[=] _] | (_ & [= ->] & Hne)]. auto.
    + intros [[=] _].
    + intros [[[=] _] | (_ & [=] & _)].
Qed.

















(** The update of an order that is not there makes one. *)
Lemma update_of_missing_order_creates (now : Z) (id nomeArquivo : string) (w : world) :
  table w !! id = None ->
  fault w (UpdateCommand (VStr id) (LambdaConfirmacao.sets_ENVIADO now nomeArquivo)) = None ->
  exists (novo : item) (w' : world),
    LambdaConfirmacao.markShipped now (VStr id) nomeArquivo w = (Ok novo, w')
    /\ table w' !! id = Some novo
    /\ novo = <["referenciaNota" := VStr nomeArquivo]>
              (<["dataEnvio" := VStr (toISOString now)]>
              (<["status" := VStr "ENVIADO"]> {[ "idPedido" := VStr id ]})).
Proof.
  intros Hnone Hf. unfold LambdaConfirmacao.markShipped.
  rewrite dynamo_update_ok by (reflexivity || exact Hf).
  rewrite Hnone. simpl. eexists _, _. split; [reflexivity|].
  split; [apply lookup_insert_eq | reflexivity].
Qed.

(** C1: the code at an identifier that has no order.  The handler does not
    fail: it answers 200, and the table, which had nothing under the
    identifier, now holds under it a record of four attributes. *)
Theorem markShipped_unknown_id_creates_record :
  table world_orphan !! "p-fantasma" = None
  /\ (LambdaConfirmacao.handler t0 [orphan_arrival] world_orphan).1
     = Ok (Response 200 (MessageReply "Pedidos processados com sucesso"))
  /\ table (after (LambdaConfirmacao.handler t0 [orphan_arrival]) world_orphan)
       !! "p-fantasma"
     = Some (<["referenciaNota" := VStr "nota-avulsa.pdf"]>
             (<["dataEnvio" := VStr "2025-01-15T10:30:00.123Z"]>
             (<["status" := VStr "ENVIADO"]> {[ "idPedido" := VStr "p-fantasma" ]}))).
Proof.
  repeat split; vm_compute; reflexivity.
Qed.

(** C4, as the code has it.  The records of a batch are handled in order.
    When handling one of them fails, the error is thrown again out of the
    handler with the world as that record left it: the records after it in
    the batch are not handled at all. *)
Theorem intake_failure_ends_batch (now : Z)
        (pre post : list LambdaConfirmacao.s3_record)
        (record : LambdaConfirmacao.s3_record) (w w1 w2 : world) (e : exn) :
  for_of pre (LambdaConfirmacao.processRecord now) w = (Ok tt, w1) ->
  LambdaConfirmacao.processRecord now record w1 = (Throw e, w2) ->
  LambdaConfirmacao.handler now (pre ++ record :: post) w = (Throw e, w2).
Proof.
  intros Hpre Hr. unfold LambdaConfirmacao.handler, try_catch, bind.
  now rewrite (for_of_stops pre post record _ w w1 w2 e Hpre Hr).
Qed.

Lemma intake_failure_ends_batch_witness :
  LambdaConfirmacao.handler (t0 + minutes 2)
    ([] ++ arrival "nota-ana.pdf" :: [arrival "nota-bia.pdf"])
    (world_two dynamo_refuses_ana)
  = (Throw (Exn "ProvisionedThroughputExceededException" "Rate exceeded"),
     after (LambdaConfirmacao.processRecord (t0 + minutes 2) (arrival "nota-ana.pdf"))
           (world_two dynamo_refuses_ana)).
Proof.
  apply (intake_failure_ends_batch (t0 + minutes 2) [] [arrival "nota-bia.pdf"]
           (arrival "nota-ana.pdf")
           (world_two dynamo_refuses_ana) (world_two dynamo_refuses_ana)).
  - reflexivity.
  - apply run_eq. vm_compute. reflexivity.
Defined.

(** C4, as stated, fails: the arrival of Bia's invoice, which marks her
    order as shipped when it comes alone, leaves it as it was when it comes
    after the arrival of Ana's, whose update DynamoDB refuses. *)
Lemma failure_blocks_later_arrivals :
  let w := world_two dynamo_refuses_ana in
  let now := t0 + minutes 2 in
  let alone := LambdaConfirmacao.processRecord now (arrival "nota-bia.pdf") in
  let batch :=
    LambdaConfirmacao.handler now [arrival "nota-ana.pdf"; arrival "nota-bia.pdf"] in
  attribute_of w "p-bia" "status" = Some (VStr "RECEBIDO")
  /\ (alone w).1 = Ok tt
  /\ attribute_of (after alone w) "p-bia" "status" = Some (VStr "ENVIADO")
  /\ (batch w).1 = Throw (Exn "ProvisionedThroughputExceededException" "Rate exceeded")
  /\ attribute_of (after batch w) "p-bia" "status" = Some (VStr "RECEBIDO")
  /\ updated_keys (after batch w) = [VStr "p-ana"].
Proof.
  repeat split; vm_compute; reflexivity.
Qed.

(** ** lambda-envio *)

(** An order created without a status is stored as RECEBIDO. *)
Lemma default_status_is_RECEBIDO (now : Z) (uuid : string) (req_body : gmap string value) :
  prop req_body "status" = VUndef ->
  Api.novo_pedido now uuid req_body !! "status" = Some (VStr "RECEBIDO").
Proof.
  intros H. unfold Api.novo_pedido. rewrite H.
  rewrite !lookup_insert_ne by discriminate. apply lookup_insert_eq.
Qed.

(** The scan of the sweep asks for RECEBIMENTO, and passes such an order
    over. *)
Lemma default_status_not_scanned (now : Z) (uuid : string) (req_body : gmap string value) :
  prop req_body "status" = VUndef ->
  status_is "RECEBIMENTO" (Api.novo_pedido now uuid req_body) = false.
Proof.
  intros H. unfold status_is. now rewrite (default_status_is_RECEBIDO _ _ _ H).
Qed.

(** The time value of a date is an integer number of milliseconds, or the
    date is invalid. *)
Lemma Date_of_integer (v : value) :
  Date_of v = NaN \/ exists t : Z, Date_of v = num_of_Z t.
Proof.
  assert (Hclip : forall n, TimeClip n = NaN \/ exists t : Z, TimeClip n = num_of_Z t).
  { intros [| |q]; simpl; auto. destruct (Qle_bool _ _); eauto. }
  assert (Hparse : forall s, Date_parse s = NaN \/ exists t : Z, Date_parse s = num_of_Z t).
  { intros s. unfold Date_parse. destruct (read_iso_fields s); auto.
    destruct (String.eqb _ _); auto. }
  destruct v as [| |[]|n|s|s]; simpl; eauto.
Qed.

(** The filter of the sweep: the order is kept when its date is valid and
    more than 240000 milliseconds (four minutes) before the clock. *)
Lemma mais_de_4_minutos_spec (agora : Z) (pedido : item) :
  LambdaEnvio.mais_de_4_minutos agora pedido = true
  <-> exists t : Z, Date_of (prop pedido "data") = num_of_Z t /\ 240000 < agora - t.
Proof.
  unfold LambdaEnvio.mais_de_4_minutos, LambdaEnvio.diferencaMinutos.
  destruct (Date_of_integer (prop pedido "data")) as [H | [t H]]; rewrite H.
  - simpl. split; [discriminate|]. intros (t & Ht & _). discriminate.
  - assert (Hgt : num_gt (num_div (num_sub (num_of_Z agora) (num_of_Z t))
                                  (num_of_Z (1000 * 60))) (num_of_Z 4) = true
                  <-> 240000 < agora - t).
    { unfold num_of_Z, num_sub, num_div, num_gt.
      change (Qeq_bool (inject_Z (1000 * 60)) 0) with false. cbv iota.
      rewrite negb_true_iff, <- not_true_iff_false, Qle_bool_iff.
      rewrite Qred_correct, Qred_correct.
      rewrite <- Z.nle_gt.
      change (inject_Z (1000 * 60)) with (inject_Z 60000).
      assert (Heq : ((inject_Z agora - inject_Z t) / inject_Z 60000 <= inject_Z 4)%Q
                    <-> agora - t <= 240000).
      { unfold Qle, Qdiv, Qmult, Qminus, Qplus, Qopp, Qinv, inject_Z. simpl. lia. }
      now rewrite Heq. }
    rewrite Hgt. split.
    + intros Hlt. exists t. auto.
    + intros (t' & Ht' & Hlt). unfold num_of_Z, inject_Z in Ht'.
      now inversion Ht'.
Qed.

(** What the sweep selects: the stored orders whose status is RECEBIMENTO
    and whose date is more than four minutes old. *)
Lemma selecionar_spec (agora : Z) (w : world) :
  fault w (ScanCommand "RECEBIMENTO") = None ->
  exists pedidos pendentes : list item,
    LambdaEnvio.selecionar agora w
    = (Ok (pedidos, pendentes), log_call (ScanCommand "RECEBIMENTO") w)
    /\ forall pedido : item,
         In pedido pendentes
         <-> (exists k : string, table w !! k = Some pedido)
             /\ status_is "RECEBIMENTO" pedido = true
             /\ LambdaEnvio.mais_de_4_minutos agora pedido = true.
Proof.
  intros Hf. unfold LambdaEnvio.selecionar, dynamo_scan, bind.
  rewrite (send_ok _ _ Hf). eexists _, _. split; [reflexivity|].
  intros pedido. rewrite !filter_In. simpl.
  rewrite <- list_elem_of_In, list_elem_of_fmap.
  split.
  - intros [[([k p] & -> & Hin) Hs] Ha]. apply elem_of_map_to_list in Hin. eauto.
  - intros ([k Hk] & Hs & Ha). repeat split; auto.
    exists (k, pedido). split; [reflexivity|]. now apply elem_of_map_to_list.
Qed.

(** Whatever the clock and whatever else is stored, the sweep never selects
    an order as [POST /pedidos] stores it when the status is left out. *)
Lemma created_order_never_selected (agora now : Z) (uuid : string)
      (req_body : gmap string value) (w w' : world) (pedidos pendentes : list item) :
  prop req_body "status" = VUndef ->
  LambdaEnvio.selecionar agora w = (Ok (pedidos, pendentes), w') ->
  ~ In (Api.novo_pedido now uuid req_body) pendentes.
Proof.
  intros Hst Hsel Hin.
  destruct (fault w (ScanCommand "RECEBIMENTO")) as [e|] eqn:Hf.
  - unfold LambdaEnvio.selecionar, dynamo_scan, bind in Hsel.
    rewrite (send_refused _ _ _ Hf) in Hsel. discriminate.
  - destruct (selecionar_spec agora w Hf) as (ps & pend & Hrun & Hspec).
    rewrite Hrun in Hsel. injection Hsel as -> -> _.
    apply Hspec in Hin. destruct Hin as (_ & Hs & _).
    now rewrite (default_status_not_scanned _ _ _ Hst) in Hs.
Qed.

(** C2: the code at three orders created without a status, 10, 5 and 2
    minutes old.  Two of them are more than four minutes old; all three are
    stored as RECEBIDO; the sweep, which scans for RECEBIMENTO, finds none
    and selects none. *)
Theorem default_status_orders_not_swept :
  let w := three_orders body_ana in
  attribute_of w "p-10" "status" = Some (VStr "RECEBIDO")
  /\ attribute_of w "p-5" "status" = Some (VStr "RECEBIDO")
  /\ attribute_of w "p-2" "status" = Some (VStr "RECEBIDO")
  /\ old_enough t0 w "p-10" = Some true
  /\ old_enough t0 w "p-5" = Some true
  /\ old_enough t0 w "p-2" = Some false
  /\ swept t0 w = Some ([], [])
  /\ (LambdaEnvio.handler t0 w).1
     = Ok (Response 200 (SweepReply "Processamento concluído" 0 0 []))
  /\ calls (after (LambdaEnvio.handler t0) w)
     = (calls w ++ [ScanCommand "RECEBIMENTO"])%list.
Proof.
  repeat split; vm_compute; reflexivity.
Qed.

(** The same three orders, created with the status RECEBIMENTO: the sweep
    finds the three and selects the two older ones. *)
Lemma sweep_selects_by_age :
  exists pedidos pendentes : list value,
    swept t0 (three_orders body_RECEBIMENTO) = Some (pedidos, pendentes)
    /\ List.length pedidos = 3%nat
    /\ List.length pendentes = 2%nat
    /\ forall id : value, In id pendentes <-> id = VStr "p-5" \/ id = VStr "p-10".
Proof.
  eexists _, _. split; [vm_compute; reflexivity|].
  split; [reflexivity|]. split; [reflexivity|].
  intros id. simpl. intuition.
Qed.

(** * More of the code *)

(** A closed equation, settled by evaluation. *)
Ltac by_vm :=
  lazymatch goal with
  | |- ?a = ?b => vm_cast_no_check (@eq_refl _ b)
  end.

(** ** What the handlers keep *)

Lemma keeps_ret {A} (R : world -> world -> Prop) `{!Frame R} (a : A) : keeps R (ret a).
Proof. intros w r w' [= _ <-]. apply frame_refl. Qed.

Lemma keeps_throw {A} (R : world -> world -> Prop) `{!Frame R} (e : exn) :
  keeps R (@throw A e).
Proof. intros w r w' [= _ <-]. apply frame_refl. Qed.

Lemma keeps_bind {A B} (R : world -> world -> Prop) `{!Frame R}
      (m : M A) (k : A -> M B) :
  keeps R m -> (forall a, keeps R (k a)) -> keeps R (bind m k).
Proof.
  intros Hm Hk w r w' H. unfold bind in H.
  destruct (m w) as [[a|e] w1] eqn:E.
  - eapply frame_trans; [exact (Hm _ _ _ E) | exact (Hk _ _ _ _ H)].
  - injection H as _ <-. exact (Hm _ _ _ E).
Qed.

Lemma keeps_try_catch {A} (R : world -> world -> Prop) `{!Frame R}
      (m : M A) (h : exn -> M A) :
  keeps R m -> (forall e, keeps R (h e)) -> keeps R (try_catch m h).
Proof.
  intros Hm Hh w r w' H. unfold try_catch in H.
  destruct (m w) as [[a|e] w1] eqn:E.
  - injection H as _ <-. exact (Hm _ _ _ E).
  - eapply frame_trans; [exact (Hm _ _ _ E) | exact (Hh _ _ _ _ H)].
Qed.

Lemma keeps_for_of {A} (R : world -> world -> Prop) `{!Frame R}
      (xs : list A) (body : A -> M unit) :
  (forall x, keeps R (body x)) -> keeps R (for_of xs body).
Proof.
  intros Hb. induction xs as [|x xs IH]; simpl.
  - now apply keeps_ret.
  - apply keeps_bind; auto.
Qed.

Lemma keeps_send (R : world -> world -> Prop) `{!Frame R} (c : call) : keeps R (send c).
Proof.
  intros w r w' H. unfold send in H.
  destruct (fault w c); injection H as _ <-; apply frame_log.
Qed.

(** A step that reads the world and leaves it alone. *)
Lemma keeps_read {A} (R : world -> world -> Prop) `{!Frame R} (f : world -> result A) :
  keeps R (fun w => (f w, w)).
Proof. intros w r w' [= _ <-]. apply frame_refl. Qed.

(** A step that starts by looking at the world. *)
Lemma keeps_peek {A} (R : world -> world -> Prop) (f : world -> M A) :
  (forall w0, keeps R (f w0)) -> keeps R (fun w => f w w).
Proof. intros H w r w' E. exact (H w w r w' E). Qed.

Lemma keeps_weaken {A} (R R' : world -> world -> Prop) (m : M A) :
  (forall w w', R w w' -> R' w w') -> keeps R m -> keeps R' m.
Proof. intros HR Hm w r w' E. apply HR. exact (Hm w r w' E). Qed.

#[local] Instance same_stores_frame : Frame same_stores.
Proof.
  split; unfold same_stores.
  - auto.
  - intros w1 w2 w3 [H1 H2] [H3 H4]. split; congruence.
  - intros c w. auto.
Qed.

#[local] Instance same_table_frame : Frame same_table.
Proof.
  split; unfold same_table; [reflexivity | intros; congruence | reflexivity].
Qed.

#[local] Instance same_objects_frame : Frame same_objects.
Proof.
  split; unfold same_objects; [reflexivity | intros; congruence | reflexivity].
Qed.

#[local] Instance orders_kept_frame (attrs : list string) : Frame (orders_kept attrs).
Proof.
  split; unfold orders_kept.
  - intros w k pedido H. eauto.
  - intros w1 w2 w3 H12 H23 k pedido H.
    destruct (H12 _ _ H) as (p2 & H2 & Ha).
    destruct (H23 _ _ H2) as (p3 & H3 & Hb).
    exists p3. split; [exact H3|]. intros a Hin. now rewrite Hb, Ha.
  - intros c w k pedido H. simpl. eauto.
Qed.

#[local] Instance keyed_after_frame : Frame keyed_after.
Proof.
  split; unfold keyed_after.
  - auto.
  - auto.
  - intros c w H. exact H.
Qed.

#[local] Instance same_orders_frame : Frame same_orders.
Proof.
  split; unfold same_orders.
  - reflexivity.
  - intros w1 w2 w3 H12 H23 k. now rewrite H23, H12.
  - reflexivity.
Qed.

#[local] Instance and_frame (R1 R2 : world -> world -> Prop) `{!Frame R1} `{!Frame R2} :
  Frame (fun w w' => R1 w w' /\ R2 w w').
Proof.
  split.
  - intros w. split; apply frame_refl.
  - intros w1 w2 w3 [H1 H2] [H3 H4]. split; eapply frame_trans; eauto.
  - intros c w. split; apply frame_log.
Qed.

Lemma keeps_marshall (R : world -> world -> Prop) `{!Frame R} (vs : list value) :
  keeps R (marshall vs).
Proof.
  unfold marshall. destruct (existsb special_numeric vs);
    [now apply keeps_throw | now apply keeps_ret].
Qed.

(** Taking a computation apart, one construct at a time. *)
Ltac keeps_step :=
  lazymatch goal with
  | |- keeps _ (bind _ _) => apply keeps_bind; [try exact _ | | intros ?]
  | |- keeps _ (try_catch _ _) => apply keeps_try_catch; [try exact _ | | intros ?]
  | |- keeps _ (ret _) => apply keeps_ret; try exact _
  | |- keeps _ (throw _) => apply keeps_throw; try exact _
  | |- keeps _ (for_of _ _) => apply keeps_for_of; [try exact _ | intros ?]
  | |- keeps _ (send _) => apply keeps_send; try exact _
  | |- keeps _ (ses_send _) => apply keeps_send; try exact _
  | |- keeps _ (marshall _) => apply keeps_marshall; try exact _
  | |- keeps _ (if ?b then _ else _) => destruct b
  | |- keeps _ (match ?x with _ => _ end) => destruct x
  end.

Lemma keeps_dynamo_get (R : world -> world -> Prop) `{!Frame R} (Key : value) :
  keeps R (dynamo_get Key).
Proof.
  unfold dynamo_get. repeat keeps_step. apply (keeps_read R (fun w => Ok (table w !! s))).
Qed.

Lemma keeps_dynamo_scan (R : world -> world -> Prop) `{!Frame R} (statusFilter : string) :
  keeps R (dynamo_scan statusFilter).
Proof.
  unfold dynamo_scan. repeat keeps_step.
  apply (keeps_read R (fun w => Ok (List.filter (status_is statusFilter)
                                                (map_to_list (table w)).*2))).
Qed.

Lemma keeps_s3_head (R : world -> world -> Prop) `{!Frame R} (Bucket Key : string) :
  keeps R (s3_head Bucket Key).
Proof.
  unfold s3_head. keeps_step; [keeps_step|].
  intros w r w' H. destruct (objects w !! (Bucket, Key)); injection H as _ <-;
    apply frame_refl.
Qed.

Lemma keeps_after {A} (R : world -> world -> Prop) (m : M A) :
  keeps R m -> forall w, R w (after m w).
Proof.
  intros H w. unfold after. destruct (m w) as [r w'] eqn:E. exact (H w r w' E).
Qed.

Lemma keeps_and {A} (R1 R2 : world -> world -> Prop) (m : M A) :
  keeps R1 m -> keeps R2 m -> keeps (fun w w' => R1 w w' /\ R2 w w') m.
Proof. intros H1 H2 w r w' E. split; eauto. Qed.

Lemma keeps_processRecord_notificacao (r : LambdaNotificacao.stream_record) :
  keeps same_stores (LambdaNotificacao.processRecord r).
Proof.
  unfold LambdaNotificacao.processRecord. repeat keeps_step.
  intros w r' w' H. unfold ses_send in H.
  exact (keeps_send same_stores _ w r' w' H).
Qed.

(** X1.  Lambda-notificacao never touches the table or the bucket: whatever
    the batch and whatever SES refuses, both are as they were when the
    handler ends, by return or by throw. *)
Theorem notificacao_touches_no_store
        (Records : list LambdaNotificacao.stream_record) (w : world) :
  table (after (LambdaNotificacao.handler Records) w) = table w
  /\ objects (after (LambdaNotificacao.handler Records) w) = objects w.
Proof.
  apply (keeps_after same_stores). unfold LambdaNotificacao.handler.
  repeat keeps_step. apply keeps_processRecord_notificacao.
Qed.

Lemma keeps_enviar_pendentes (R : world -> world -> Prop) `{!Frame R}
      (pedidosPendentes : list item) (resultados : list resultado) :
  keeps R (LambdaEnvio.enviar_pendentes pedidosPendentes resultados).
Proof.
  revert resultados. induction pedidosPendentes as [|pedido rest IH]; intros resultados;
    simpl.
  - now apply keeps_ret.
  - unfold LambdaEnvio.enviarParaAPI. repeat keeps_step. apply IH.
Qed.

(** X2.  Lambda-envio never touches the table or the bucket: all it does
    with the orders it selects is post their identifiers. *)
Theorem envio_touches_no_store (agora : Z) (w : world) :
  table (after (LambdaEnvio.handler agora) w) = table w
  /\ objects (after (LambdaEnvio.handler agora) w) = objects w.
Proof.
  apply (keeps_after same_stores). unfold LambdaEnvio.handler, LambdaEnvio.selecionar.
  keeps_step; [|keeps_step].
  keeps_step.
  - keeps_step; [apply keeps_dynamo_scan; exact _ | keeps_step].
  - destruct a as [pedidos pedidosPendentes].
    keeps_step; [apply keeps_enviar_pendentes; exact _ | keeps_step].
Qed.

Lemma apply_sets_other (sets : list (string * value)) (it : item) (a : string) :
  ~ In a sets.*1 -> apply_sets sets it !! a = it !! a.
Proof.
  unfold apply_sets. revert it. induction sets as [|[b v] sets IH]; intros it Hin; simpl.
  - reflexivity.
  - rewrite IH by (intros H; apply Hin; now right).
    apply lookup_insert_ne. intros ->. apply Hin. now left.
Qed.

(** What a [GetCommand] can have done and answered. *)
Lemma dynamo_get_inv (Key : value) (w w' : world) (r : result (option item)) :
  dynamo_get Key w = (r, w') ->
  table w' = table w /\ objects w' = objects w
  /\ forall it, r = Ok (Some it) -> exists k, Key = VStr k /\ table w !! k = Some it.
Proof.
  unfold dynamo_get, bind, marshall, send. intros H.
  destruct (existsb special_numeric [Key]); simpl in H.
  { injection H as <- <-. repeat split; auto. discriminate. }
  destruct (fault w (GetCommand Key)).
  { injection H as <- <-. repeat split; auto. discriminate. }
  destruct Key; simpl in H; injection H as <- <-; repeat split; auto; try discriminate.
  intros it [= Hit]. eauto.
Qed.

(** What an [UpdateCommand] can have done. *)
Lemma dynamo_update_inv (Key : value) (sets : list (string * value)) (w w' : world)
      (r : result item) :
  dynamo_update Key sets w = (r, w') ->
  objects w' = objects w
  /\ (table w' = table w
      \/ exists k, Key = VStr k
           /\ table w' = <[k := apply_sets sets (default {[ "idPedido" := Key ]}
                                                         (table w !! k))]> (table w)).
Proof.
  unfold dynamo_update, bind, marshall, send. intros H.
  destruct (existsb special_numeric (Key :: sets.*2)); simpl in H.
  { injection H as <- <-. auto. }
  destruct (fault w (UpdateCommand Key sets)).
  { injection H as <- <-. auto. }
  destruct Key; simpl in H; injection H as <- <-; simpl; split; auto.
  right. eauto.
Qed.

(** What a [PutCommand] can have done. *)
Lemma dynamo_put_inv (Item : item) (w w' : world) (r : result unit) :
  dynamo_put Item w = (r, w') ->
  objects w' = objects w
  /\ (table w' = table w
      \/ exists k, Item !! "idPedido" = Some (VStr k)
           /\ table w' = <[k := Item]> (table w)).
Proof.
  unfold dynamo_put, bind, marshall, send. intros H.
  destruct (existsb special_numeric (map_to_list Item).*2); simpl in H.
  { injection H as <- <-. auto. }
  destruct (fault w (PutCommand Item)).
  { injection H as <- <-. auto. }
  unfold prop in H.
  destruct (Item !! "idPedido") as [[]|] eqn:E; simpl in H; injection H as <- <-;
    simpl; split; auto.
  right. eauto.
Qed.

Lemma keeps_dynamo_update_objects (Key : value) (sets : list (string * value)) :
  keeps same_objects (dynamo_update Key sets).
Proof. intros w r w' H. now destruct (dynamo_update_inv _ _ _ _ _ H). Qed.

Lemma keeps_dynamo_update_orders (attrs : list string) (Key : value)
      (sets : list (string * value)) :
  (forall a, In a sets.*1 -> In a attrs) ->
  keeps (orders_kept attrs) (dynamo_update Key sets).
Proof.
  intros Hsub w r w' H.
  destruct (dynamo_update_inv _ _ _ _ _ H) as [_ [Ht | (k & -> & Ht)]];
    intros k0 pedido Hp; rewrite Ht.
  - eauto.
  - destruct (decide (k = k0)) as [->|Hne].
    + rewrite lookup_insert_eq, Hp. simpl. eexists. split; [reflexivity|].
      intros a Ha. apply apply_sets_other. auto.
    + rewrite lookup_insert_ne by exact Hne. eauto.
Qed.

Lemma keeps_dynamo_update_keyed (Key : value) (sets : list (string * value)) :
  ~ In "idPedido" sets.*1 ->
  keeps keyed_after (dynamo_update Key sets).
Proof.
  intros Hnot w r w' H Hw.
  destruct (dynamo_update_inv _ _ _ _ _ H) as [_ [Ht | (k & -> & Ht)]];
    intros k0 pedido; rewrite Ht.
  - apply Hw.
  - destruct (decide (k = k0)) as [->|Hne].
    + rewrite lookup_insert_eq. intros [= <-].
      rewrite apply_sets_other by exact Hnot.
      destruct (table w !! k0) as [old|] eqn:E; simpl.
      * exact (Hw _ _ E).
      * apply lookup_singleton_eq.
    + rewrite lookup_insert_ne by exact Hne. apply Hw.
Qed.

Lemma keeps_dynamo_put_keyed (Item : item) : keeps keyed_after (dynamo_put Item).
Proof.
  intros w r w' H Hw.
  destruct (dynamo_put_inv _ _ _ _ H) as [_ [Ht | (k & Hk & Ht)]];
    intros k0 pedido; rewrite Ht.
  - apply Hw.
  - destruct (decide (k = k0)) as [->|Hne].
    + rewrite lookup_insert_eq. now intros [= <-].
    + rewrite lookup_insert_ne by exact Hne. apply Hw.
Qed.

Lemma keeps_markShipped (now : Z) (idPedido : value) (nomeArquivo : string) :
  keeps (fun w w' => same_objects w w'
                     /\ orders_kept shipping_attributes w w' /\ keyed_after w w')
        (LambdaConfirmacao.markShipped now idPedido nomeArquivo).
Proof.
  unfold LambdaConfirmacao.markShipped. apply keeps_and; [|apply keeps_and].
  - apply keeps_dynamo_update_objects.
  - apply keeps_dynamo_update_orders. intros a Ha. exact Ha.
  - apply keeps_dynamo_update_keyed. simpl. intuition discriminate.
Qed.

Lemma keeps_processRecord_confirmacao (now : Z) (record : LambdaConfirmacao.s3_record) :
  keeps (fun w w' => same_objects w w'
                     /\ orders_kept shipping_attributes w w' /\ keyed_after w w')
        (LambdaConfirmacao.processRecord now record).
Proof.
  unfold LambdaConfirmacao.processRecord, LambdaConfirmacao.decode_key.
  keeps_step; [repeat keeps_step|].
  keeps_step; [keeps_step|].
  keeps_step; [apply keeps_s3_head; exact _|].
  keeps_step; [keeps_step|].
  keeps_step; [apply keeps_markShipped | keeps_step].
Qed.

(** X3.  Lambda-confirmacao, on any batch and whatever is refused, leaves
    the bucket as it was and removes no order; of the orders that were
    stored, it changes at most status, dataEnvio and referenciaNota: the
    identifier, the customer, the amount and the date of every order are as
    they were. *)
Theorem confirmacao_writes_shipping_only (now : Z)
        (Records : list LambdaConfirmacao.s3_record) (w : world) :
  objects (after (LambdaConfirmacao.handler now Records) w) = objects w
  /\ orders_kept shipping_attributes w (after (LambdaConfirmacao.handler now Records) w).
Proof.
  assert (H : keeps (fun w w' => same_objects w w'
                                 /\ orders_kept shipping_attributes w w'
                                 /\ keyed_after w w')
                    (LambdaConfirmacao.handler now Records)).
  { unfold LambdaConfirmacao.handler. repeat keeps_step.
    apply keeps_processRecord_confirmacao. }
  destruct (keeps_after _ _ H w) as (Ho & Hk & _). split; assumption.
Qed.

(** X4.  Lambda-preparacao, whatever the event and whatever is refused,
    leaves the bucket as it was and either leaves the table as it was or
    rewrites one order that was already stored, changing its status to
    PREPARACAO and nothing else.  It never adds an order and never removes
    one. *)
Theorem preparacao_rewrites_one_status (ev : LambdaPreparacao.event_body) (w : world) :
  let w' := after (LambdaPreparacao.handler ev) w in
  objects w' = objects w
  /\ (table w' = table w
      \/ exists (id : string) (pedido : item),
           table w !! id = Some pedido
           /\ table w' = <[id := <["status" := VStr "PREPARACAO"]> pedido]> (table w)).
Proof.
  unfold after, LambdaPreparacao.handler, try_catch, bind.
  destruct (LambdaPreparacao.destructure_idPedido (LambdaPreparacao.decode ev) w)
    as [[idPedido|e] w0] eqn:Hd.
  2:{ unfold LambdaPreparacao.destructure_idPedido in Hd.
      destruct (LambdaPreparacao.decode ev); injection Hd as _ <-; simpl; auto. }
  assert (w0 = w) as ->.
  { unfold LambdaPreparacao.destructure_idPedido in Hd.
    destruct (LambdaPreparacao.decode ev); now injection Hd. }
  destruct (falsy idPedido); [simpl; auto|].
  destruct (dynamo_get idPedido w) as [[[pedido|]|e] w1] eqn:Hg;
    destruct (dynamo_get_inv _ _ _ _ Hg) as (Ht & Ho & Hsome); simpl; auto.
  destruct (Hsome pedido eq_refl) as (id & -> & Hid).
  destruct (dynamo_update (VStr id) [("status", VStr "PREPARACAO")] w1)
    as [[novo|e] w2] eqn:Hu;
    destruct (dynamo_update_inv _ _ _ _ _ Hu) as (Ho2 & [Ht2 | (k & [= <-] & Ht2)]);
    simpl; (split; [congruence|]); try (left; congruence);
    right; exists id, pedido; (split; [exact Hid|]);
    rewrite Ht2, Ht, Hid; reflexivity.
Qed.

#[local] Instance others_kept_frame (uuid : string) : Frame (others_kept uuid).
Proof.
  split; unfold others_kept.
  - auto.
  - intros w1 w2 w3 [H1 H2] [H3 H4]. split; [congruence|].
    intros k Hk. now rewrite H4, H2.
  - intros c w. auto.
Qed.

Lemma keeps_post_pedidos_keyed (now : Z) (uuid : string) (req_body : gmap string value) :
  keeps keyed_after (Api.post_pedidos now uuid req_body).
Proof.
  unfold Api.post_pedidos. repeat keeps_step. apply keeps_dynamo_put_keyed.
Qed.

Lemma keeps_preparacao_keyed (ev : LambdaPreparacao.event_body) :
  keeps keyed_after (LambdaPreparacao.handler ev).
Proof.
  unfold LambdaPreparacao.handler, LambdaPreparacao.destructure_idPedido.
  keeps_step; [|keeps_step].
  keeps_step; [repeat keeps_step|].
  keeps_step; [keeps_step|].
  keeps_step; [apply keeps_dynamo_get; exact _|].
  keeps_step; [|keeps_step].
  keeps_step; [|keeps_step].
  apply keeps_dynamo_update_keyed. simpl. intuition discriminate.
Qed.

(** X5.  An invariant of the table: when every stored order carries the key
    it is stored under as its idPedido, it is still so after POST /pedidos,
    after lambda-preparacao and after lambda-confirmacao, whatever they
    were given and whatever was refused.  (The other handlers do not write
    to the table.) *)
Theorem handlers_keep_orders_keyed (w : world) :
  well_keyed w ->
  (forall now uuid req_body, well_keyed (after (Api.post_pedidos now uuid req_body) w))
  /\ (forall ev, well_keyed (after (LambdaPreparacao.handler ev) w))
  /\ (forall now Records, well_keyed (after (LambdaConfirmacao.handler now Records) w)).
Proof.
  intros Hw. repeat split.
  - intros now uuid req_body.
    exact (keeps_after keyed_after _ (keeps_post_pedidos_keyed now uuid req_body) w Hw).
  - intros ev. exact (keeps_after keyed_after _ (keeps_preparacao_keyed ev) w Hw).
  - intros now Records.
    assert (H : keeps (fun w w' => same_objects w w'
                                   /\ orders_kept shipping_attributes w w'
                                   /\ keyed_after w w')
                      (LambdaConfirmacao.handler now Records)).
    { unfold LambdaConfirmacao.handler. repeat keeps_step.
      apply keeps_processRecord_confirmacao. }
    destruct (keeps_after _ _ H w) as (_ & _ & Hk). exact (Hk Hw).
Qed.

Lemma world_ana_well_keyed : well_keyed world_ana.
Proof.
  apply (keeps_after keyed_after _ (keeps_post_pedidos_keyed t0 "p-ana" body_ana)
                     empty_world).
  intros k pedido H. cbn [table empty_world] in H. rewrite lookup_empty in H.
  discriminate.
Qed.

Lemma handlers_keep_orders_keyed_witness :
  well_keyed (after (LambdaConfirmacao.handler (t0 + minutes 2) [orphan_arrival]) world_ana).
Proof.
  destruct (handlers_keep_orders_keyed world_ana world_ana_well_keyed) as (_ & _ & H).
  apply H.
Defined.

Lemma keeps_post_pedidos_others (now : Z) (uuid : string) (req_body : gmap string value) :
  keeps (others_kept uuid) (Api.post_pedidos now uuid req_body).
Proof.
  unfold Api.post_pedidos. repeat keeps_step.
  intros w r w' H.
  destruct (dynamo_put_inv _ _ _ _ H) as [Ho [Ht | (k & Hk & Ht)]]; split; auto;
    intros k0 Hne; rewrite Ht; [reflexivity|].
  assert (k = uuid) as ->.
  { unfold Api.novo_pedido in Hk. rewrite lookup_insert_eq in Hk. congruence. }
  now apply lookup_insert_ne.
Qed.

Lemma keeps_s3_put_table (Bucket Key : string) (o : s3object) :
  keeps same_table (s3_put Bucket Key o).
Proof.
  unfold s3_put. keeps_step; [keeps_step|].
  intros w r w' [= _ <-]. reflexivity.
Qed.

Lemma keeps_upload_table (now : Z) (idPedido : string) (req_file : option Api.file) :
  keeps same_table (Api.post_pedidos_upload now idPedido req_file).
Proof.
  unfold Api.post_pedidos_upload.
  keeps_step; [|keeps_step].
  keeps_step; [|keeps_step].
  keeps_step; [apply keeps_dynamo_get; exact _|].
  keeps_step; [|keeps_step].
  intros w r w' H. destruct (env w !! "S3_BUCKET_NAME") as [B|].
  - revert H. apply (keeps_bind same_table).
    + apply keeps_s3_put_table.
    + intros _. keeps_step.
  - injection H as _ <-. reflexivity.
Qed.

(** X6.  What the two writing routes leave alone.  POST /pedidos never
    touches the bucket, nor any order but the one under the identifier it
    drew; the upload route never touches the table. *)
Theorem api_writes_are_local (now : Z) (w : world) :
  (forall uuid req_body,
     let w' := after (Api.post_pedidos now uuid req_body) w in
     objects w' = objects w
     /\ forall k : string, k <> uuid -> table w' !! k = table w !! k)
  /\ (forall idPedido req_file,
        table (after (Api.post_pedidos_upload now idPedido req_file) w) = table w).
Proof.
  split.
  - intros uuid req_body.
    exact (keeps_after (others_kept uuid) _ (keeps_post_pedidos_others now uuid req_body) w).
  - intros idPedido req_file.
    exact (keeps_after same_table _ (keeps_upload_table now idPedido req_file) w).
Qed.

(** ** The routes that read *)

Lemma keeps_ask (R : world -> world -> Prop) `{!Frame R}
      (S : ApiLeitura.services) (c : ApiLeitura.listing) :
  keeps R (ApiLeitura.ask S c).
Proof. unfold ApiLeitura.ask. repeat keeps_step. Qed.

Lemma keeps_list_objects (R : world -> world -> Prop) `{!Frame R}
      (S : ApiLeitura.services) (Bucket : string) :
  keeps R (ApiLeitura.list_objects S Bucket).
Proof.
  unfold ApiLeitura.list_objects. keeps_step; [apply keeps_ask; exact _|].
  intros w r w' [= _ <-]. apply frame_refl.
Qed.

Lemma keeps_bucket_name (R : world -> world -> Prop) `{!Frame R} :
  keeps R ApiLeitura.bucket_name.
Proof.
  intros w r w' H. unfold ApiLeitura.bucket_name in H.
  destruct (env w !! "S3_BUCKET_NAME"); injection H as _ <-; apply frame_refl.
Qed.

Lemma keeps_verificar (R : world -> world -> Prop) `{!Frame R}
      (BUCKET_NAME idPedido : string) (item : ApiLeitura.content) :
  keeps R (ApiLeitura.verificar BUCKET_NAME idPedido item).
Proof.
  unfold ApiLeitura.verificar.
  keeps_step; [|keeps_step].
  keeps_step; [apply keeps_s3_head; exact _|].
  keeps_step; [|keeps_step].
  intros w r w' [= _ <-]. apply frame_refl.
Qed.

Lemma keeps_all_of {A B} (R : world -> world -> Prop) `{!Frame R}
      (f : A -> M B) (xs : list A) :
  (forall x, keeps R (f x)) -> keeps R (ApiLeitura.all_of f xs).
Proof.
  intros Hf. induction xs as [|x xs IH]; simpl.
  - now apply keeps_ret.
  - keeps_step; [apply Hf|]. keeps_step; [apply IH | keeps_step].
Qed.

Lemma keeps_run_check (R : world -> world -> Prop) `{!Frame R}
      (S : ApiLeitura.services) (c : ApiLeitura.listing) (ok : string) :
  keeps R (ApiLeitura.run_check S c ok).
Proof.
  unfold ApiLeitura.run_check.
  keeps_step; [|keeps_step]. keeps_step; [apply keeps_ask; exact _ | keeps_step].
Qed.

(** X7.  The five routes that read never change what is stored: after any
    of them, answered or refused, the table and the bucket are as they
    were. *)
Theorem read_routes_touch_no_store (S : ApiLeitura.services) (w : world) :
  same_stores w (after (ApiLeitura.get_pedidos S) w)
  /\ (forall id, same_stores w (after (ApiLeitura.get_pedido id) w))
  /\ (forall idPedido, same_stores w (after (ApiLeitura.get_s3_arquivos S idPedido) w))
  /\ (forall idPedido, same_stores w (after (ApiLeitura.get_pedido_arquivos S idPedido) w))
  /\ (forall now, same_stores w (after (ApiLeitura.get_health_aws S now) w)).
Proof.
  split; [|split; [|split; [|split]]]; intros; apply (keeps_after same_stores).
  - unfold ApiLeitura.get_pedidos.
    keeps_step; [|keeps_step]. keeps_step; [apply keeps_ask; exact _|].
    intros w1 r w' [= _ <-]. apply frame_refl.
  - unfold ApiLeitura.get_pedido.
    keeps_step; [|keeps_step].
    keeps_step; [apply keeps_dynamo_get; exact _ | repeat keeps_step].
  - unfold ApiLeitura.get_s3_arquivos.
    keeps_step; [|keeps_step].
    keeps_step; [apply keeps_bucket_name; exact _|].
    keeps_step; [apply keeps_list_objects; exact _ | keeps_step].
  - unfold ApiLeitura.get_pedido_arquivos.
    keeps_step; [|keeps_step].
    keeps_step; [apply keeps_dynamo_get; exact _|].
    keeps_step; [|keeps_step].
    keeps_step; [apply keeps_bucket_name; exact _|].
    keeps_step; [apply keeps_list_objects; exact _|].
    keeps_step; [|keeps_step].
    apply keeps_all_of; [exact _|]. intros x. apply keeps_verificar. exact _.
  - unfold ApiLeitura.get_health_aws.
    keeps_step; [|keeps_step].
    keeps_step; [apply keeps_run_check; exact _|].
    keeps_step; [apply keeps_run_check; exact _|].
    intros w1 r w' [= _ <-]. apply frame_refl.
Qed.

(** X8.  [GET /pedidos/:id], while the table answers: 404 when no order is
    stored under the identifier, 200 with the stored order, whole, when one
    is.  The only command sent is the GetCommand. *)
Theorem get_pedido_spec (id : string) (w : world) :
  fault w (GetCommand (VStr id)) = None ->
  ApiLeitura.get_pedido id w
  = (Ok (match table w !! id with
         | None => ApiLeitura.Response 404 (ApiLeitura.ErrorReply "Pedido não encontrado" None)
         | Some pedido => ApiLeitura.Response 200 (ApiLeitura.PedidoReply pedido)
         end),
     log_call (GetCommand (VStr id)) w).
Proof.
  intros Hf. unfold ApiLeitura.get_pedido, try_catch, bind.
  rewrite (dynamo_get_ok _ _ Hf). now destruct (table w !! id).
Qed.

Lemma get_pedido_spec_witness :
  ApiLeitura.get_pedido "p-bia" world_ana
  = (Ok (match table world_ana !! "p-bia" with
         | None => ApiLeitura.Response 404 (ApiLeitura.ErrorReply "Pedido não encontrado" None)
         | Some pedido => ApiLeitura.Response 200 (ApiLeitura.PedidoReply pedido)
         end),
     log_call (GetCommand (VStr "p-bia")) world_ana).
Proof.
  apply (get_pedido_spec "p-bia" world_ana). vm_compute. reflexivity.
Defined.

(** What a creation that was answered 201 has done. *)
Lemma post_pedidos_created (now : Z) (uuid : string) (req_body : gmap string value)
      (w w' : world) (answer : reply) :
  Api.post_pedidos now uuid req_body w = (Ok (Response 201 answer), w') ->
  answer = PedidoReply "Pedido criado com sucesso" (Api.novo_pedido now uuid req_body)
  /\ w' = set_table (<[uuid := Api.novo_pedido now uuid req_body]> (table w))
                    (log_call (PutCommand (Api.novo_pedido now uuid req_body)) w).
Proof.
  unfold Api.post_pedidos, try_catch.
  destruct (falsy _ || falsy _ || falsy _); [intros [=]|].
  unfold bind at 1. unfold dynamo_put, bind, marshall.
  destruct (existsb special_numeric _); simpl; [intros [=]|].
  unfold send. destruct (fault w _); [intros [=]|].
  rewrite novo_pedido_idPedido. simpl. intros [= <- <-]. auto.
Qed.

(** X9.  An order that POST /pedidos answered with 201 is found again: a
    GET of its identifier, on the world the creation left, answers 200 with
    the very order the creation answered with. *)
Theorem created_order_is_found (now : Z) (uuid : string)
        (req_body : gmap string value) (w w' : world) (answer : reply) :
  Api.post_pedidos now uuid req_body w = (Ok (Response 201 answer), w') ->
  fault w (GetCommand (VStr uuid)) = None ->
  exists pedido : item,
    answer = PedidoReply "Pedido criado com sucesso" pedido
    /\ (ApiLeitura.get_pedido uuid w').1
       = Ok (ApiLeitura.Response 200 (ApiLeitura.PedidoReply pedido)).
Proof.
  intros Hpost Hf. destruct (post_pedidos_created _ _ _ _ _ _ Hpost) as [-> ->].
  eexists. split; [reflexivity|].
  unfold ApiLeitura.get_pedido, try_catch, bind.
  rewrite dynamo_get_ok by exact Hf. simpl. now rewrite lookup_insert_eq.
Qed.

Lemma created_order_is_found_witness :
  exists pedido : item,
    PedidoReply "Pedido criado com sucesso" (Api.novo_pedido t0 "p-ana" body_ana)
    = PedidoReply "Pedido criado com sucesso" pedido
    /\ (ApiLeitura.get_pedido "p-ana" world_ana).1
       = Ok (ApiLeitura.Response 200 (ApiLeitura.PedidoReply pedido)).
Proof.
  apply (created_order_is_found t0 "p-ana" body_ana empty_world world_ana).
  - apply run_eq. by_vm.
  - by_vm.
Defined.

(** X10.  [GET /pedidos], while DynamoDB answers the scan: 200, with as
    total the number of orders stored, and as orders exactly the stored
    ones.  Nothing is sent to the other services and the world is as it
    was. *)
Theorem get_pedidos_spec (S : ApiLeitura.services) (w : world) :
  ApiLeitura.refuses S (ApiLeitura.ScanAll None) = None ->
  exists pedidos : list item,
    ApiLeitura.get_pedidos S w
    = (Ok (ApiLeitura.Response 200 (ApiLeitura.PedidosReply (size (table w)) pedidos)), w)
    /\ List.length pedidos = size (table w)
    /\ forall pedido : item,
         In pedido pedidos <-> exists k : string, table w !! k = Some pedido.
Proof.
  intros Hf. unfold ApiLeitura.get_pedidos, try_catch, bind, ApiLeitura.ask.
  rewrite Hf. simpl.
  assert (Hlen : List.length (map_to_list (table w)).*2 = size (table w))
    by (now rewrite length_fmap, length_map_to_list).
  rewrite Hlen. eexists. split; [reflexivity|]. split; [exact Hlen|].
  intros pedido. rewrite <- list_elem_of_In, list_elem_of_fmap. split.
  - intros ([k p] & -> & Hin). apply elem_of_map_to_list in Hin. eauto.
  - intros [k Hk]. exists (k, pedido). split; [reflexivity|].
    now apply elem_of_map_to_list.
Qed.

Lemma get_pedidos_spec_witness :
  exists pedidos : list item,
    ApiLeitura.get_pedidos services_s3_down (three_orders body_ana)
    = (Ok (ApiLeitura.Response 200
             (ApiLeitura.PedidosReply (size (table (three_orders body_ana))) pedidos)),
       three_orders body_ana)
    /\ List.length pedidos = size (table (three_orders body_ana))
    /\ forall pedido : item,
         In pedido pedidos
         <-> exists k : string, table (three_orders body_ana) !! k = Some pedido.
Proof.
  apply (get_pedidos_spec services_s3_down (three_orders body_ana)). reflexivity.
Defined.

(** The scan refused: 500 with the message of the error. *)
Lemma get_pedidos_refused (S : ApiLeitura.services) (e : exn) (w : world) :
  ApiLeitura.refuses S (ApiLeitura.ScanAll None) = Some e ->
  ApiLeitura.get_pedidos S w
  = (Ok (ApiLeitura.Response 500
           (ApiLeitura.ErrorReply "Erro ao listar pedidos" (Some (exn_message e)))), w).
Proof.
  intros Hf. unfold ApiLeitura.get_pedidos, try_catch, bind, ApiLeitura.ask.
  now rewrite Hf.
Qed.

(** X11.  [GET /health/aws] always answers, never with 500, and leaves the
    world as it was.  Each of the two checks is tried and reported on its
    own, the S3 one also when the DynamoDB one failed; the status is 200
    when both commands were answered and 503 as soon as one was refused. *)
Theorem health_reports_each_check (S : ApiLeitura.services) (now : Z) (w : world) :
  let dynamodb :=
    check_of S (ApiLeitura.ScanAll (Some 1%nat)) "Conexão com DynamoDB funcionando" in
  let s3 := check_of S ApiLeitura.ListBucketsCommand "Conexão com S3 funcionando" in
  let answered :=
    bool_decide (ApiLeitura.refuses S (ApiLeitura.ScanAll (Some 1%nat)) = None
                 /\ ApiLeitura.refuses S ApiLeitura.ListBucketsCommand = None) in
  ApiLeitura.get_health_aws S now w
  = (Ok (ApiLeitura.Response
           (if answered then 200 else 503)
           (ApiLeitura.DiagnosticsReply
              (toISOString now)
              (ApiLeitura.env_or w "AWS_REGION" "us-east-1")
              (ApiLeitura.env_or w "DYNAMODB_TABLE_NAME" "NÃO DEFINIDA")
              (ApiLeitura.env_or w "S3_BUCKET_NAME" "NÃO DEFINIDO")
              dynamodb s3)), w).
Proof.
  unfold ApiLeitura.get_health_aws, ApiLeitura.run_check, check_of, try_catch, bind,
    ApiLeitura.ask.
  destruct (ApiLeitura.refuses S (ApiLeitura.ScanAll (Some 1%nat))) as [e1|];
    destruct (ApiLeitura.refuses S ApiLeitura.ListBucketsCommand) as [e2|]; simpl;
    try (rewrite bool_decide_eq_false_2 by (intros [? ?]; discriminate));
    try (rewrite bool_decide_eq_true_2 by auto); reflexivity.
Qed.

(** ** The files of an order *)

Lemma In_insert_by_key (x y : string * s3object) (l : list (string * s3object)) :
  In x (ApiLeitura.insert_by_key y l) <-> x = y \/ In x l.
Proof.
  induction l as [|z l IH]; simpl.
  - intuition.
  - destruct (String.leb y.1 z.1); simpl; [intuition|].
    rewrite IH. intuition.
Qed.

Lemma In_sort_by_key (x : string * s3object) (l : list (string * s3object)) :
  In x (ApiLeitura.sort_by_key l) <-> In x l.
Proof.
  unfold ApiLeitura.sort_by_key. induction l as [|y l IH]; simpl.
  - reflexivity.
  - rewrite In_insert_by_key, IH. intuition.
Qed.

Lemma length_insert_by_key (y : string * s3object) (l : list (string * s3object)) :
  List.length (ApiLeitura.insert_by_key y l) = Datatypes.S (List.length l).
Proof.
  induction l as [|z l IH]; simpl; [reflexivity|].
  destruct (String.leb y.1 z.1); simpl; [reflexivity | now rewrite IH].
Qed.

Lemma length_sort_by_key (l : list (string * s3object)) :
  List.length (ApiLeitura.sort_by_key l) = List.length l.
Proof.
  unfold ApiLeitura.sort_by_key. induction l as [|y l IH]; simpl; [reflexivity|].
  now rewrite length_insert_by_key, IH.
Qed.

(** The listing of a bucket holds its objects, each under its key. *)
Lemma In_bucket_contents (w : world) (Bucket k : string) (o : s3object) :
  In (k, o) (ApiLeitura.bucket_contents w Bucket) <-> objects w !! (Bucket, k) = Some o.
Proof.
  unfold ApiLeitura.bucket_contents. rewrite In_sort_by_key, in_map_iff. split.
  - intros ([[b k'] o'] & [= <- <-] & Hin). apply filter_In in Hin as [Hin Hb].
    simpl in Hb. apply String.eqb_eq in Hb. subst b.
    apply list_elem_of_In, elem_of_map_to_list in Hin. exact Hin.
  - intros H. exists (Bucket, k, o). split; [reflexivity|].
    apply filter_In. split.
    + apply list_elem_of_In, elem_of_map_to_list. exact H.
    + simpl. apply String.eqb_refl.
Qed.

Lemma length_bucket_contents (w : world) (Bucket : string) :
  (List.length (ApiLeitura.bucket_contents w Bucket) <= size (objects w))%nat.
Proof.
  unfold ApiLeitura.bucket_contents.
  rewrite length_sort_by_key, length_map, <- length_map_to_list.
  apply List.filter_length_le.
Qed.

Lemma listed_log (c : call) (w : world) (B id : string) (item : ApiLeitura.content) :
  listed (log_call c w) B id item = listed w B id item.
Proof. reflexivity. Qed.

Lemma verificar_run (B id : string) (item : ApiLeitura.content) (w : world) :
  ApiLeitura.verificar B id item w
  = (Ok (listed w B id item), log_call (HeadObjectCommand B (ApiLeitura.Key item)) w).
Proof.
  cbv beta delta [ApiLeitura.verificar listed try_catch bind s3_head send ret].
  destruct (fault w (HeadObjectCommand B (ApiLeitura.Key item))); [reflexivity|].
  cbn [objects log_call].
  destruct (objects w !! (B, ApiLeitura.Key item)) as [o|]; [|reflexivity].
  now destruct (ApiLeitura.tagged_with id (Metadata o)).
Qed.

(** Every object of the listing is looked at, in order, whatever became of
    the ones before it. *)
Lemma all_of_verificar (B id : string) (items : list ApiLeitura.content) (w : world) :
  ApiLeitura.all_of (ApiLeitura.verificar B id) items w
  = (Ok (map (listed w B id) items),
     foldl (fun w item => log_call (HeadObjectCommand B (ApiLeitura.Key item)) w) w items).
Proof.
  revert w. induction items as [|item items IH]; intros w; simpl; [reflexivity|].
  unfold bind at 1. rewrite verificar_run. unfold bind at 1. rewrite IH.
  reflexivity.
Qed.

(** The answer of the route, when the order is there and the services
    answer the first two commands. *)
Lemma order_listing_run (S : ApiLeitura.services) (idPedido B : string) (pedido : item)
      (w : world) :
  fault w (GetCommand (VStr idPedido)) = None ->
  table w !! idPedido = Some pedido ->
  env w !! "S3_BUCKET_NAME" = Some B ->
  ApiLeitura.refuses S (ApiLeitura.ListObjectsV2Command B) = None ->
  (size (objects w) <= 1000)%nat ->
  exists Contents : list ApiLeitura.content,
    (forall k, In k (map ApiLeitura.Key Contents) <-> is_Some (objects w !! (B, k)))
    /\ let arquivos := omap id (map (listed w B idPedido) Contents) in
       (ApiLeitura.get_pedido_arquivos S idPedido w).1
       = Ok (ApiLeitura.Response 200
               (ApiLeitura.ArquivosDoPedidoReply
                  idPedido (prop pedido "nomeCliente") (prop pedido "emailCliente")
                  (List.length arquivos) arquivos)).
Proof.
  intros Hget Hp Henv Hlist Hsize.
  set (Contents :=
         map (fun e : string * s3object =>
                ApiLeitura.Content e.1 (String.length (Body e.2))
                                   (ApiLeitura.modified_at S B e.1))
             (ApiLeitura.bucket_contents w B)).
  exists Contents. split.
  - intros k. unfold Contents. rewrite map_map. simpl. rewrite in_map_iff. split.
    + intros ([k' o] & <- & Hin). apply In_bucket_contents in Hin. eauto.
    + intros [o Ho]. exists (k, o). split; [reflexivity|]. now apply In_bucket_contents.
  - unfold ApiLeitura.get_pedido_arquivos, try_catch.
    unfold bind at 1. rewrite (dynamo_get_ok _ _ Hget), Hp.
    unfold bind at 1. unfold ApiLeitura.bucket_name. simpl. rewrite Henv.
    unfold bind at 1. unfold ApiLeitura.list_objects, bind at 1, ApiLeitura.ask.
    rewrite Hlist. simpl.
    rewrite firstn_all2
      by (etransitivity; [apply (length_bucket_contents w B) | exact Hsize]).
    fold Contents. unfold bind at 1. rewrite all_of_verificar. reflexivity.
Qed.

Lemma In_keys_listed (w : world) (B idPedido k : string) (Contents : list ApiLeitura.content) :
  (forall k, In k (map ApiLeitura.Key Contents) <-> is_Some (objects w !! (B, k))) ->
  In k (keys_of (omap id (map (listed w B idPedido) Contents)))
  <-> exists o : s3object,
        objects w !! (B, k) = Some o
        /\ fault w (HeadObjectCommand B k) = None
        /\ Metadata o !! "idpedido" = Some idPedido.
Proof.
  intros Hkeys. unfold keys_of. rewrite in_map_iff. split.
  - intros (a & <- & Hin).
    apply list_elem_of_In, list_elem_of_omap in Hin as (oa & Hoa & Hsome).
    unfold id in Hsome. subst oa.
    apply list_elem_of_In, in_map_iff in Hoa as (item & Hid & _).
    unfold listed in Hid.
    destruct (fault w _) eqn:Hf; [discriminate|].
    destruct (objects w !! _) as [o|] eqn:Ho; [|discriminate].
    unfold ApiLeitura.tagged_with in Hid.
    destruct (Metadata o !! "idpedido") as [x|] eqn:Hm; [|discriminate].
    destruct (String.eqb x idPedido) eqn:Hx; [|discriminate].
    apply String.eqb_eq in Hx. subst x. injection Hid as <-. simpl. eauto.
  - intros (o & Ho & Hf & Hm).
    assert (Hin : In k (map ApiLeitura.Key Contents)) by (apply Hkeys; eauto).
    apply in_map_iff in Hin as (item & <- & Hin).
    assert (Hl : exists a, listed w B idPedido item = Some a
                           /\ ApiLeitura.key (ApiLeitura.arquivo_de a)
                              = ApiLeitura.Key item).
    { unfold listed. rewrite Hf, Ho. unfold ApiLeitura.tagged_with.
      rewrite Hm, String.eqb_refl. eexists. split; reflexivity. }
    destruct Hl as (a & Hl & Hk). exists a. split; [exact Hk|].
    apply list_elem_of_In, list_elem_of_omap. exists (Some a). split; [|reflexivity].
    apply list_elem_of_In, in_map_iff. exists item. auto.
Qed.

(** X12.  [GET /pedidos/:idPedido/arquivos], for an order that is stored,
    while the table and the listing answer and the bucket holds at most a
    thousand objects: 200, with exactly the objects of the bucket whose
    metadata could be read and carry the identifier of the order under
    [idpedido].  An object whose HeadObjectCommand is refused is left out
    and the others are still listed; an object tagged for another order is
    never listed. *)
Theorem order_listing_spec (S : ApiLeitura.services) (idPedido B : string)
        (pedido : item) (w : world) :
  fault w (GetCommand (VStr idPedido)) = None ->
  table w !! idPedido = Some pedido ->
  env w !! "S3_BUCKET_NAME" = Some B ->
  ApiLeitura.refuses S (ApiLeitura.ListObjectsV2Command B) = None ->
  (size (objects w) <= 1000)%nat ->
  let answer := (ApiLeitura.get_pedido_arquivos S idPedido w).1 in
  (exists arquivos : list ApiLeitura.arquivo_do_pedido,
     answer = Ok (ApiLeitura.Response 200
                    (ApiLeitura.ArquivosDoPedidoReply
                       idPedido (prop pedido "nomeCliente") (prop pedido "emailCliente")
                       (List.length arquivos) arquivos)))
  /\ forall k : string,
       In k (files_listed answer)
       <-> exists o : s3object,
             objects w !! (B, k) = Some o
             /\ fault w (HeadObjectCommand B k) = None
             /\ Metadata o !! "idpedido" = Some idPedido.
Proof.
  intros Hget Hp Henv Hlist Hsize.
  destruct (order_listing_run S idPedido B pedido w Hget Hp Henv Hlist Hsize)
    as (Contents & Hkeys & Hrun).
  simpl in Hrun. cbv zeta. rewrite Hrun. split; [eauto|].
  intros k. apply In_keys_listed. exact Hkeys.
Qed.

Lemma order_listing_spec_witness :
  (size (objects (world_two no_fault)) <= 1000)%nat
  /\ forall k : string,
       In k (files_listed (ApiLeitura.get_pedido_arquivos services_ok "p-ana"
                                                          (world_two no_fault)).1)
       <-> exists o : s3object,
             objects (world_two no_fault) !! ("notas-fiscais", k) = Some o
             /\ fault (world_two no_fault) (HeadObjectCommand "notas-fiscais" k) = None
             /\ Metadata o !! "idpedido" = Some "p-ana".
Proof.
  split; [vm_compute; lia|].
  apply (order_listing_spec services_ok "p-ana" "notas-fiscais"
           (Api.novo_pedido t0 "p-ana" body_ana) (world_two no_fault)).
  - by_vm.
  - by_vm.
  - by_vm.
  - reflexivity.
  - vm_compute. lia.
Defined.



Lemma lower_keys_upload (idPedido dataUpload : string) :
  lower_keys (<["idPedido" := idPedido]> (<["dataUpload" := dataUpload]> ∅))
  = <["idpedido" := idPedido]> (<["dataupload" := dataUpload]> ∅).
Proof. vm_compute. reflexivity. Qed.

(** What an upload does when the order is there and nothing is refused. *)
Lemma upload_stored (now : Z) (idPedido B : string) (f : Api.file) (pedido : item)
      (w : world) :
  answers w ->
  table w !! idPedido = Some pedido ->
  env w !! "S3_BUCKET_NAME" = Some B ->
  exists w1 : world,
    Api.post_pedidos_upload now idPedido (Some f) w
    = (Ok (Response 200 (UploadReply "Arquivo enviado com sucesso"
                                     (upload_key now f) idPedido B)), w1)
    /\ objects w1 = <[(B, upload_key now f) := uploaded_object now idPedido f]> (objects w)
    /\ table w1 = table w /\ fault w1 = fault w /\ env w1 = env w.
Proof.
  intros Hans Hp Henv. unfold Api.post_pedidos_upload, try_catch.
  unfold bind at 1. rewrite (dynamo_get_ok _ _ (Hans _)), Hp.
  cbn [env log_call]. rewrite Henv.
  unfold s3_put, bind. rewrite send_ok by (cbn [fault log_call]; apply Hans). cbn [ret].
  eexists. split; [reflexivity|].
  cbn [objects table fault env set_objects log_call Body ContentType Metadata].
  rewrite lower_keys_upload. auto.
Qed.

(** X14.  An uploaded file is listed with its order and with no other.
    When an upload for a stored order goes through (nothing refused, fewer
    than a thousand objects in the bucket), the listing of the files of
    that order, on the world the upload left, holds the key the file was
    stored under; the listing of any other order does not. *)
Theorem uploaded_file_is_listed (S : ApiLeitura.services) (now : Z)
        (idPedido B : string) (f : Api.file) (pedido : item) (w : world) :
  answers w ->
  table w !! idPedido = Some pedido ->
  env w !! "S3_BUCKET_NAME" = Some B ->
  ApiLeitura.refuses S (ApiLeitura.ListObjectsV2Command B) = None ->
  (size (objects w) < 1000)%nat ->
  let w1 := after (Api.post_pedidos_upload now idPedido (Some f)) w in
  In (upload_key now f)
     (files_listed (ApiLeitura.get_pedido_arquivos S idPedido w1).1)
  /\ forall other : string,
       other <> idPedido ->
       ~ In (upload_key now f)
            (files_listed (ApiLeitura.get_pedido_arquivos S other w1).1).
Proof.
  intros Hans Hp Henv Hlist Hsize.
  destruct (upload_stored now idPedido B f pedido w Hans Hp Henv)
    as (w1 & Hrun & Hobj & Htab & Hfault & Henv1).
  unfold after. rewrite Hrun. cbn [snd].
  assert (Hans1 : answers w1) by (intros c; rewrite Hfault; apply Hans).
  assert (Hsize1 : (size (objects w1) <= 1000)%nat).
  { rewrite Hobj, map_size_insert. destruct (objects w !! _); simpl; lia. }
  assert (Hstored : objects w1 !! (B, upload_key now f)
                    = Some (uploaded_object now idPedido f))
    by (rewrite Hobj; apply lookup_insert_eq).
  assert (Henv1' : env w1 !! "S3_BUCKET_NAME" = Some B) by (now rewrite Henv1).
  split.
  - assert (Hp1 : table w1 !! idPedido = Some pedido) by (now rewrite Htab).
    destruct (order_listing_run S idPedido B pedido w1 (Hans1 _) Hp1 Henv1' Hlist Hsize1)
      as (Contents & Hkeys & Hr).
    simpl in Hr. rewrite Hr. cbn [files_listed].
    apply (In_keys_listed w1 B idPedido _ Contents Hkeys).
    exists (uploaded_object now idPedido f). split; [exact Hstored|].
    split; [apply Hans1|]. apply lookup_insert_eq.
  - intros other Hother Hin.
    destruct (table w1 !! other) as [outro|] eqn:Ho.
    + destruct (order_listing_run S other B outro w1 (Hans1 _) Ho Henv1' Hlist Hsize1)
        as (Contents & Hkeys & Hr).
      simpl in Hr. rewrite Hr in Hin. cbn [files_listed] in Hin.
      apply (In_keys_listed w1 B other _ Contents Hkeys) in Hin
        as (o & Hobj' & _ & Hm).
      rewrite Hstored in Hobj'. injection Hobj' as <-.
      unfold uploaded_object in Hm. cbn [Metadata] in Hm.
      rewrite lookup_insert_eq in Hm. congruence.
    + unfold ApiLeitura.get_pedido_arquivos, try_catch, bind in Hin.
      rewrite (dynamo_get_ok _ _ (Hans1 _)), Ho in Hin. exact Hin.
Qed.

Lemma uploaded_file_is_listed_witness :
  In (upload_key (t0 + minutes 3) (nota_de "segunda-via.pdf"))
     (files_listed
        (ApiLeitura.get_pedido_arquivos services_ok "p-ana"
           (after (Api.post_pedidos_upload (t0 + minutes 3) "p-ana"
                                           (Some (nota_de "segunda-via.pdf")))
                  (world_two no_fault))).1).
Proof.
  refine (proj1 (uploaded_file_is_listed services_ok (t0 + minutes 3) "p-ana"
                  "notas-fiscais" (nota_de "segunda-via.pdf")
                  (Api.novo_pedido t0 "p-ana" body_ana) (world_two no_fault) _ _ _ _ _)).
  - intros c. by_vm.
  - by_vm.
  - by_vm.
  - reflexivity.
  - vm_compute. lia.
Defined.

(** X15.  From the upload to the shipment.  When an upload for a stored
    order goes through, and the arrival of the object it stored (a key
    ending in [.pdf]) reaches lambda-confirmacao with nothing refused, the
    handler answers 200 and the table holds that order with status ENVIADO,
    dataEnvio the time of the handler, referenciaNota the last segment of
    the key, and every other attribute as it was; every other order is as
    it was. *)
Theorem uploaded_invoice_ships_order (now later : Z) (idPedido B raw : string)
        (f : Api.file) (pedido : item) (w : world) :
  answers w ->
  table w !! idPedido = Some pedido ->
  idPedido <> "" ->
  env w !! "S3_BUCKET_NAME" = Some B ->
  decodeURIComponent (replace_plus raw) = Some (upload_key now f) ->
  endsWith (toLowerCase (upload_key now f)) ".pdf" = true ->
  let w1 := after (Api.post_pedidos_upload now idPedido (Some f)) w in
  let arrival := LambdaConfirmacao.S3Record B raw in
  (LambdaConfirmacao.handler later [arrival] w1).1
  = Ok (Response 200 (MessageReply "Pedidos processados com sucesso"))
  /\ table (after (LambdaConfirmacao.handler later [arrival]) w1)
     = <[idPedido := <["referenciaNota" := VStr (split_pop (upload_key now f))]>
                     (<["dataEnvio" := VStr (toISOString later)]>
                     (<["status" := VStr "ENVIADO"]> pedido))]> (table w).
Proof.
  intros Hans Hp Hne Henv Hraw Hpdf.
  destruct (upload_stored now idPedido B f pedido w Hans Hp Henv)
    as (w1 & Hrun & Hobj & Htab & Hfault & _).
  unfold after at 1 2. rewrite Hrun. cbn [snd].
  assert (Hans1 : answers w1) by (intros c; rewrite Hfault; apply Hans).
  assert (Hrec : LambdaConfirmacao.processRecord later (LambdaConfirmacao.S3Record B raw) w1
                 = (LambdaConfirmacao.markShipped later (VStr idPedido)
                                                  (split_pop (upload_key now f)) ;;;
                    ret tt)
                     (log_call (HeadObjectCommand B (upload_key now f)) w1)).
  { unfold LambdaConfirmacao.processRecord, LambdaConfirmacao.decode_key.
    cbn [LambdaConfirmacao.object_key LambdaConfirmacao.bucket_name].
    rewrite Hraw. unfold bind at 1. cbn [ret]. rewrite Hpdf. cbn [negb].
    unfold bind at 1.
    rewrite (s3_head_ok B (upload_key now f) (uploaded_object now idPedido f) w1)
      by (apply Hans1 || (rewrite Hobj; apply lookup_insert_eq)).
    assert (Htag : LambdaConfirmacao.idPedido_of
                     (Metadata (uploaded_object now idPedido f)) = VStr idPedido).
    { unfold LambdaConfirmacao.idPedido_of, LambdaConfirmacao.meta, uploaded_object.
      cbn [Metadata]. rewrite lookup_insert_eq. unfold js_or.
      now rewrite (proj2 (falsy_VStr idPedido) Hne). }
    rewrite Htag, (proj2 (falsy_VStr idPedido) Hne). reflexivity. }
  set (sets := LambdaConfirmacao.sets_ENVIADO later (split_pop (upload_key now f))).
  set (w2 := log_call (HeadObjectCommand B (upload_key now f)) w1).
  assert (Hh : LambdaConfirmacao.handler later [LambdaConfirmacao.S3Record B raw] w1
               = (Ok (Response 200 (MessageReply "Pedidos processados com sucesso")),
                  set_table (<[idPedido := apply_sets sets pedido]> (table w))
                            (log_call (UpdateCommand (VStr idPedido) sets) w2))).
  { unfold LambdaConfirmacao.handler, try_catch. cbn [for_of]. unfold bind.
    rewrite Hrec. fold w2. unfold bind, LambdaConfirmacao.markShipped. fold sets.
    rewrite dynamo_update_ok by (reflexivity || (cbn [fault log_call]; apply Hans1)).
    cbn [table log_call w2]. rewrite Htab, Hp. reflexivity. }
  unfold after. rewrite Hh. split; reflexivity.
Qed.

Lemma uploaded_invoice_ships_order_witness :
  table (after (LambdaConfirmacao.handler (t0 + minutes 2)
                  [LambdaConfirmacao.S3Record "notas-fiscais" key_ana])
               (after (Api.post_pedidos_upload (t0 + minutes 1) "p-ana"
                                               (Some (nota_de "nota-ana.pdf")))
                      world_ana))
  = <["p-ana" := <["referenciaNota" :=
                     VStr (split_pop (upload_key (t0 + minutes 1) (nota_de "nota-ana.pdf")))]>
                 (<["dataEnvio" := VStr (toISOString (t0 + minutes 2))]>
                 (<["status" := VStr "ENVIADO"]> (Api.novo_pedido t0 "p-ana" body_ana)))]>
      (table world_ana).
Proof.
  apply (uploaded_invoice_ships_order (t0 + minutes 1) (t0 + minutes 2) "p-ana"
           "notas-fiscais" key_ana (nota_de "nota-ana.pdf")
           (Api.novo_pedido t0 "p-ana" body_ana) world_ana).
  - intros c. by_vm.
  - by_vm.
  - discriminate.
  - by_vm.
  - by_vm.
  - by_vm.
Defined.

(** X16.  [GET /s3/arquivos] does not filter.  While the listing answers
    and the bucket holds at most a thousand objects, whatever [idPedido] the
    query carries, none included, the answer is 200 with one file for each
    object of the configured bucket, the objects tagged for other orders
    too, and the world is left as it was. *)
Theorem listing_ignores_filter (S : ApiLeitura.services) (idPedido : value)
        (B : string) (w : world) :
  env w !! "S3_BUCKET_NAME" = Some B ->
  ApiLeitura.refuses S (ApiLeitura.ListObjectsV2Command B) = None ->
  (size (objects w) <= 1000)%nat ->
  exists arquivos : list ApiLeitura.arquivo,
    ApiLeitura.get_s3_arquivos S idPedido w
    = (Ok (ApiLeitura.Response 200
             (ApiLeitura.ArquivosReply (List.length arquivos) B arquivos)), w)
    /\ (forall k : string,
          In k (map ApiLeitura.key arquivos) <-> is_Some (objects w !! (B, k)))
    /\ forall a : ApiLeitura.arquivo, In a arquivos -> ApiLeitura.fileName a = ApiLeitura.key a.
Proof.
  intros Henv Hlist Hsize.
  unfold ApiLeitura.get_s3_arquivos, try_catch.
  unfold bind at 1. unfold ApiLeitura.bucket_name. rewrite Henv.
  unfold bind at 1. unfold ApiLeitura.list_objects, bind at 1, ApiLeitura.ask.
  rewrite Hlist. cbn [ret].
  rewrite firstn_all2
    by (etransitivity; [apply (length_bucket_contents w B) | exact Hsize]).
  eexists. split; [reflexivity|]. split.
  - intros k. rewrite !map_map. cbn [ApiLeitura.arquivo_of ApiLeitura.key ApiLeitura.Key].
    rewrite in_map_iff. split.
    + intros ([k' o] & <- & Hin). apply In_bucket_contents in Hin. eauto.
    + intros [o Ho]. exists (k, o). split; [reflexivity|]. now apply In_bucket_contents.
  - intros a Hin. apply in_map_iff in Hin as (item & <- & _). reflexivity.
Qed.

Lemma listing_ignores_filter_witness :
  exists arquivos : list ApiLeitura.arquivo,
    ApiLeitura.get_s3_arquivos services_ok (VStr "p-ana") (world_two no_fault)
    = (Ok (ApiLeitura.Response 200
             (ApiLeitura.ArquivosReply (List.length arquivos) "notas-fiscais" arquivos)),
       world_two no_fault)
    /\ (forall k : string,
          In k (map ApiLeitura.key arquivos)
          <-> is_Some (objects (world_two no_fault) !! ("notas-fiscais", k)))
    /\ forall a : ApiLeitura.arquivo, In a arquivos -> ApiLeitura.fileName a = ApiLeitura.key a.
Proof.
  apply (listing_ignores_filter services_ok (VStr "p-ana") "notas-fiscais"
           (world_two no_fault)).
  - by_vm.
  - reflexivity.
  - vm_compute. lia.
Defined.

(** ** The sweep, past the selection *)

Lemma enviar_pendentes_run (pedidosPendentes : list item) (resultados : list resultado)
      (w : world) :
  exists w' : world,
    LambdaEnvio.enviar_pendentes pedidosPendentes resultados w
    = (Ok (resultados ++ map (outcome w) pedidosPendentes)%list, w')
    /\ calls w' = (calls w ++ posts pedidosPendentes)%list.
Proof.
  revert resultados w.
  induction pedidosPendentes as [|pedido rest IH]; intros resultados w.
  - exists w. simpl. now rewrite !app_nil_r.
  - cbn [LambdaEnvio.enviar_pendentes].
    set (id := prop pedido "idPedido").
    assert (Hone : try_catch
                     (LambdaEnvio.enviarParaAPI id ;;; ret (Resultado id true None))
                     (fun error => ret (Resultado id false (Some (exn_message error)))) w
                   = (Ok (outcome w pedido), log_call (HttpPost id) w)).
    { unfold try_catch, bind, LambdaEnvio.enviarParaAPI, send, outcome. fold id.
      now destruct (fault w (HttpPost id)). }
    unfold bind at 1. rewrite Hone.
    destruct (IH (resultados ++ [outcome w pedido])%list (log_call (HttpPost id) w))
      as (w' & Hrun & Hcalls).
    exists w'. rewrite Hrun. split.
    + rewrite <- app_assoc. reflexivity.
    + rewrite Hcalls. cbn [calls log_call posts map]. fold id.
      now rewrite <- app_assoc.
Qed.

(** X17.  The sweep, once the scan is answered, reports every order it
    selected: the handler answers 200 with the number of orders scanned,
    the number selected, and one result for each selected order, in order,
    saying whether the endpoint took the request; it has posted exactly one
    request for each, in that order.  A request the endpoint refuses is
    reported as a failure and the orders after it are still posted. *)
Theorem sweep_reports_every_order (agora : Z) (w : world) :
  fault w (ScanCommand "RECEBIMENTO") = None ->
  exists (pedidos pedidosPendentes : list item) (w' : world),
    (LambdaEnvio.selecionar agora w).1 = Ok (pedidos, pedidosPendentes)
    /\ LambdaEnvio.handler agora w
       = (Ok (Response 200
                (SweepReply "Processamento concluído"
                            (List.length pedidos) (List.length pedidosPendentes)
                            (map (outcome w) pedidosPendentes))), w')
    /\ calls w'
       = (calls w ++ ScanCommand "RECEBIMENTO" :: posts pedidosPendentes)%list.
Proof.
  intros Hf.
  assert (Hsel : exists pedidos pendentes,
             LambdaEnvio.selecionar agora w
             = (Ok (pedidos, pendentes), log_call (ScanCommand "RECEBIMENTO") w)).
  { unfold LambdaEnvio.selecionar, dynamo_scan, bind. rewrite (send_ok _ _ Hf).
    eexists _, _. reflexivity. }
  destruct Hsel as (pedidos & pendentes & Hsel).
  destruct (enviar_pendentes_run pendentes [] (log_call (ScanCommand "RECEBIMENTO") w))
    as (w' & Hrun & Hcalls).
  exists pedidos, pendentes, w'. split; [now rewrite Hsel|]. split.
  - unfold LambdaEnvio.handler, try_catch. unfold bind at 1. rewrite Hsel.
    unfold bind at 1. rewrite Hrun. reflexivity.
  - rewrite Hcalls. cbn [calls log_call]. now rewrite <- app_assoc.
Qed.

Lemma sweep_reports_every_order_witness :
  exists (pedidos pedidosPendentes : list item) (w' : world),
    (LambdaEnvio.selecionar t0 (three_due endpoint_refuses_p5)).1
    = Ok (pedidos, pedidosPendentes)
    /\ LambdaEnvio.handler t0 (three_due endpoint_refuses_p5)
       = (Ok (Response 200
                (SweepReply "Processamento concluído"
                            (List.length pedidos) (List.length pedidosPendentes)
                            (map (outcome (three_due endpoint_refuses_p5))
                                 pedidosPendentes))), w')
    /\ calls w'
       = (calls (three_due endpoint_refuses_p5)
          ++ ScanCommand "RECEBIMENTO" :: posts pedidosPendentes)%list.
Proof.
  apply (sweep_reports_every_order t0 (three_due endpoint_refuses_p5)).
  vm_compute. reflexivity.
Defined.

(** One refusal among the selected orders: the other order is still posted
    and reported as a success. *)
Example sweep_goes_on_after_a_refusal :
  match (LambdaEnvio.handler t0 (three_due endpoint_refuses_p5)).1 with
  | Ok (Response 200 (SweepReply _ 3 2 resultados)) =>
      forall r, In r resultados ->
                (resultado_idPedido r = VStr "p-5" /\ sucesso r = false)
                \/ (resultado_idPedido r = VStr "p-10" /\ sucesso r = true)
  | _ => False
  end.
Proof. vm_compute. intuition (subst; auto). Qed.

(** X18.  The sweep, when the scan is refused: the error is thrown again
    out of the handler and nothing is posted. *)
Theorem sweep_scan_refused (agora : Z) (e : exn) (w : world) :
  fault w (ScanCommand "RECEBIMENTO") = Some e ->
  LambdaEnvio.handler agora w = (Throw e, log_call (ScanCommand "RECEBIMENTO") w).
Proof.
  intros Hf. unfold LambdaEnvio.handler, try_catch, bind, LambdaEnvio.selecionar,
    dynamo_scan, bind. now rewrite (send_refused _ _ _ Hf).
Qed.

Lemma sweep_scan_refused_witness :
  LambdaEnvio.handler t0 (three_due dynamo_refuses_scan)
  = (Throw (Exn "ProvisionedThroughputExceededException" "Rate exceeded"),
     log_call (ScanCommand "RECEBIMENTO") (three_due dynamo_refuses_scan)).
Proof.
  apply (sweep_scan_refused t0
           (Exn "ProvisionedThroughputExceededException" "Rate exceeded")
           (three_due dynamo_refuses_scan)).
  vm_compute. reflexivity.
Defined.

(** ** lambda-notificacao, over a batch *)

Lemma sent_to_log_call (c : call) (w : world) :
  sent_to (log_call c w)
  = (sent_to w
     ++ match c with SendEmailCommand m => ToAddresses m | _ => [] end)%list.
Proof.
  unfold sent_to. cbn [calls log_call]. rewrite flat_map_app. simpl.
  now rewrite app_nil_r.
Qed.

Lemma processRecord_answered (r : LambdaNotificacao.stream_record) (w : world) :
  answers w ->
  is_Some (LambdaNotificacao.NewImage r) ->
  names_inherited r = false ->
  exists w' : world,
    LambdaNotificacao.processRecord r w = (Ok tt, w')
    /\ answers w'
    /\ sent_to w' = (sent_to w ++ notified [r])%list.
Proof.
  intros Hans [newImage Himg] Hinh.
  rewrite (processRecord_run r newImage w Himg), Hinh.
  unfold notified. cbn [flat_map]. rewrite app_nil_r.
  destruct (notifiable r) eqn:Hn; [|exists w; now rewrite app_nil_r].
  unfold notifiable in Hn. rewrite !andb_true_iff in Hn.
  destruct Hn as [[_ Ht] He].
  apply bool_decide_eq_true_1 in Ht. apply bool_decide_eq_true_1 in He.
  destruct Ht as [t Ht], He as [e He]. rewrite Ht, He.
  rewrite (send_ok _ _ (Hans _)).
  eexists. split; [reflexivity|]. split; [exact Hans|].
  now rewrite sent_to_log_call.
Qed.

(** X19.  A batch of change events, each carrying the order as it is after
    the change and none with a new status that names what every object
    inherits, while SES answers: the handler answers 200 and the messages
    it has sent are addressed, in the order of the batch, to the emailCliente
    of exactly the events that are a MODIFY with a changed status, a new
    status among RECEBIMENTO, PREPARACAO and ENVIADO, and a recipient. *)
Theorem batch_notifies_in_order (Records : list LambdaNotificacao.stream_record)
        (w : world) :
  answers w ->
  Forall (fun r => is_Some (LambdaNotificacao.NewImage r)) Records ->
  Forall (fun r => names_inherited r = false) Records ->
  (LambdaNotificacao.handler Records w).1
  = Ok (Response 200 (MessageReply "Notificações processadas com sucesso"))
  /\ sent_to (after (LambdaNotificacao.handler Records) w)
     = (sent_to w ++ notified Records)%list.
Proof.
  intros Hans Hall Hinh.
  assert (Hloop : exists w', for_of Records LambdaNotificacao.processRecord w = (Ok tt, w')
                             /\ sent_to w' = (sent_to w ++ notified Records)%list).
  { revert w Hans Hinh. induction Hall as [|r rest Hr _ IH]; intros w Hans Hinh.
    - exists w. simpl. now rewrite app_nil_r.
    - inversion Hinh as [|? ? Hr' Hrest']; subst.
      destruct (processRecord_answered r w Hans Hr Hr') as (w1 & Hrun & Hans1 & Hsent).
      destruct (IH w1 Hans1 Hrest') as (w' & Hrest & Hsent').
      exists w'. cbn [for_of]. unfold bind. rewrite Hrun. split; [exact Hrest|].
      rewrite Hsent', Hsent. unfold notified. cbn [flat_map].
      now rewrite app_nil_r, <- app_assoc. }
  destruct Hloop as (w' & Hrun & Hsent).
  unfold after. rewrite (notificacao_batch_ok _ _ _ Hrun). split; [reflexivity|exact Hsent].
Qed.

Lemma batch_notifies_in_order_witness :
  (LambdaNotificacao.handler [modify_ana; modify_eva; rewrite_caio; modify_bia]
                             empty_world).1
  = Ok (Response 200 (MessageReply "Notificações processadas com sucesso"))
  /\ sent_to (after (LambdaNotificacao.handler
                       [modify_ana; modify_eva; rewrite_caio; modify_bia])
                    empty_world)
     = (sent_to empty_world
        ++ notified [modify_ana; modify_eva; rewrite_caio; modify_bia])%list.
Proof.
  apply (batch_notifies_in_order [modify_ana; modify_eva; rewrite_caio; modify_bia]
                                 empty_world).
  - intros c. reflexivity.
  - repeat (constructor; [eexists; reflexivity|]). constructor.
  - repeat (constructor; [vm_compute; reflexivity|]). constructor.
Defined.

(** The addresses of that batch. *)
Example notified_ana_bia :
  notified [modify_ana; modify_eva; rewrite_caio; modify_bia]
  = [VStr "ana@example.com"; VStr "bia@example.com"].
Proof. vm_compute. reflexivity. Qed.

(** X20.  A change event without the order as it is after the change: when
    it is a MODIFY whose old image has a status, reading the new image
    throws a TypeError before anything is sent; in every other case the
    event is passed over. *)
Theorem missing_image_throws (r : LambdaNotificacao.stream_record) (w : world) :
  LambdaNotificacao.NewImage r = None ->
  LambdaNotificacao.processRecord r w
  = if String.eqb (LambdaNotificacao.eventName r) "MODIFY"
       && negb (LambdaNotificacao.strict_eq (old_status r) VUndef)
    then (Throw LambdaNotificacao.cannot_read_image, w)
    else (Ok tt, w).
Proof.
  intros Himg. unfold LambdaNotificacao.processRecord. fold (old_status r).
  rewrite Himg. cbn [LambdaNotificacao.attr_S].
  destruct (String.eqb _ _); [|reflexivity].
  now destruct (LambdaNotificacao.strict_eq _ _).
Qed.

Lemma missing_image_throws_witness :
  LambdaNotificacao.processRecord modify_without_image empty_world
  = (Throw LambdaNotificacao.cannot_read_image, empty_world).
Proof.
  apply (missing_image_throws modify_without_image empty_world). reflexivity.
Defined.

(** ** Handlers that never throw *)

Lemma yields_ret {A} (P : A -> Prop) (a : A) : P a -> yields P (ret a).
Proof. intros H w r w' E. inversion E; subst. exact H. Qed.

Lemma yields_throw {A} (P : A -> Prop) (e : exn) : yields P (throw e).
Proof. intros w r w' E. inversion E. Qed.

Lemma yields_bind {A B} (P : B -> Prop) (m : M A) (k : A -> M B) :
  (forall a, yields P (k a)) -> yields P (bind m k).
Proof.
  intros H w r w' E. unfold bind in E.
  destruct (m w) as [[a|e] w1]; [exact (H a _ _ _ E) | inversion E].
Qed.

Lemma yields_try_catch {A} (P : A -> Prop) (m : M A) (h : exn -> M A) :
  yields P m -> (forall e, yields P (h e)) -> yields P (try_catch m h).
Proof.
  intros Hm Hh w r w' E. unfold try_catch in E.
  destruct (m w) as [[a|e] w1] eqn:Em.
  - inversion E; subst. exact (Hm _ _ _ Em).
  - exact (Hh e _ _ _ E).
Qed.

(** A [try] whose [catch] answers never throws. *)
Lemma caught_answers {R} (code : R -> Z) (codes : list Z) (m : M R) (h : exn -> R) :
  yields (fun r => In (code r) codes) m ->
  (forall e, In (code (h e)) codes) ->
  always_answers code codes (try_catch m (fun e => ret (h e))).
Proof.
  intros Hm Hh w. unfold try_catch. destruct (m w) as [[r|e] w1] eqn:Em.
  - exists r. split; [reflexivity|exact (Hm _ _ _ Em)].
  - exists (h e). split; [reflexivity|apply Hh].
Qed.

Ltac yields_step :=
  lazymatch goal with
  | |- yields _ (bind _ _) => apply yields_bind; intros
  | |- yields _ (ret _) => apply yields_ret; simpl; tauto
  | |- yields _ (throw _) => apply yields_throw
  | |- yields _ (if ?b then _ else _) => destruct b
  | |- yields _ (match ?x with _ => _ end) => destruct x
  end.

(** X21.  lambda-preparacao and the routes of the API that are modelled
    with their own [catch] never throw: whatever the request and whatever
    the services do, each returns a response, with one of the status codes
    its source writes.  (The other three lambdas throw what they catch.) *)
Theorem http_handlers_always_answer :
  (forall ev, always_answers statusCode [200; 400; 404; 500] (LambdaPreparacao.handler ev))
  /\ (forall now uuid req_body,
        always_answers statusCode [201; 400; 500] (Api.post_pedidos now uuid req_body))
  /\ (forall now idPedido req_file,
        always_answers statusCode [200; 400; 404; 500]
                       (Api.post_pedidos_upload now idPedido req_file))
  /\ (forall S, always_answers ApiLeitura.statusCode [200; 500] (ApiLeitura.get_pedidos S))
  /\ (forall id, always_answers ApiLeitura.statusCode [200; 404; 500]
                                (ApiLeitura.get_pedido id))
  /\ (forall S idPedido,
        always_answers ApiLeitura.statusCode [200; 500]
                       (ApiLeitura.get_s3_arquivos S idPedido))
  /\ (forall S idPedido,
        always_answers ApiLeitura.statusCode [200; 404; 500]
                       (ApiLeitura.get_pedido_arquivos S idPedido)).
Proof.
  split; [|split; [|split; [|split; [|split; [|split]]]]].
  - intros ev. unfold LambdaPreparacao.handler.
    apply caught_answers; [|intros e; simpl; tauto].
    repeat yields_step.
  - intros now uuid req_body. unfold Api.post_pedidos.
    apply (caught_answers statusCode [201; 400; 500] _
             (fun error =>
                Response 500
                  (ErrorReply "Erro ao criar pedido"
                     (Some (if String.eqb (exn_name error) "UnrecognizedClientException"
                               || includes (exn_message error) "security token"
                            then Api.credentials_hint
                            else exn_message error))))); [|intros e; simpl; tauto].
    repeat yields_step.
  - intros now idPedido req_file. unfold Api.post_pedidos_upload.
    apply caught_answers; [|intros e; simpl; tauto].
    repeat yields_step.
    intros w r w' E. destruct (env w !! "S3_BUCKET_NAME") as [B|]; [|inversion E].
    revert w r w' E. change (yields (fun r => In (statusCode r) [200; 400; 404; 500])
      (s3_put B (Z_to_string now ++ "-" ++ Api.originalname f)
         (S3Object (Api.buffer f) (Api.mimetype f)
            (<["idPedido" := idPedido]> (<["dataUpload" := toISOString now]> ∅))) ;;;
       ret (Response 200
              (UploadReply "Arquivo enviado com sucesso"
                 (Z_to_string now ++ "-" ++ Api.originalname f) idPedido B)))%js).
    repeat yields_step.
  - intros S. unfold ApiLeitura.get_pedidos.
    apply caught_answers; [|intros e; simpl; tauto].
    yields_step. intros w r w' E. inversion E; subst. simpl. tauto.
  - intros id. unfold ApiLeitura.get_pedido.
    apply caught_answers; [|intros e; simpl; tauto].
    repeat yields_step.
  - intros S idPedido. unfold ApiLeitura.get_s3_arquivos.
    apply caught_answers; [|intros e; simpl; tauto].
    repeat yields_step.
  - intros S idPedido. unfold ApiLeitura.get_pedido_arquivos.
    apply caught_answers; [|intros e; simpl; tauto].
    repeat yields_step.
Qed.

(** ** lambda-preparacao, called again *)

Lemma preparacao_run (ev : LambdaPreparacao.event_body) (id : string) (w : world) :
  payload_idPedido (LambdaPreparacao.decode ev) = VStr id ->
  id <> "" ->
  answers w ->
  LambdaPreparacao.handler ev w
  = match table w !! id with
    | None =>
        (Ok (Response 404 (ErrorReply "Pedido não encontrado" None)),
         log_call (GetCommand (VStr id)) w)
    | Some pedido =>
        (Ok (Response 200
               (PedidoReply "Pedido atualizado para PREPARACAO"
                            (<["status" := VStr "PREPARACAO"]> pedido))),
         set_table (<[id := <["status" := VStr "PREPARACAO"]> pedido]> (table w))
                   (log_call (UpdateCommand (VStr id) set_PREPARACAO)
                             (log_call (GetCommand (VStr id)) w)))
    end.
Proof.
  intros Hid Hne Hans.
  unfold LambdaPreparacao.handler, try_catch, bind,
    LambdaPreparacao.destructure_idPedido.
  destruct (LambdaPreparacao.decode ev) as [| |o|]; simpl in Hid; try discriminate.
  unfold ret at 1. rewrite Hid.
  replace (falsy (VStr id)) with false by (symmetry; now apply falsy_VStr).
  rewrite (dynamo_get_ok _ _ (Hans _)).
  destruct (table w !! id) as [pedido|] eqn:Hp; [|reflexivity].
  fold set_PREPARACAO.
  rewrite dynamo_update_ok; [|reflexivity|apply Hans].
  cbn [table log_call]. rewrite Hp. reflexivity.
Qed.

(** X22.  lambda-preparacao is idempotent: while the table answers, calling
    the handler a second time with the same order identifier gives the same
    response as the first call and leaves the table as the first call left
    it. *)
Theorem preparacao_twice (ev : LambdaPreparacao.event_body) (id : string) (w : world) :
  payload_idPedido (LambdaPreparacao.decode ev) = VStr id ->
  id <> "" ->
  answers w ->
  (LambdaPreparacao.handler ev (after (LambdaPreparacao.handler ev) w)).1
  = (LambdaPreparacao.handler ev w).1
  /\ table (after (LambdaPreparacao.handler ev) (after (LambdaPreparacao.handler ev) w))
     = table (after (LambdaPreparacao.handler ev) w).
Proof.
  intros Hid Hne Hans. unfold after.
  rewrite (preparacao_run ev id w Hid Hne Hans).
  destruct (table w !! id) as [pedido|] eqn:Hp; cbn [fst snd].
  - set (pedido' := <["status" := VStr "PREPARACAO"]> pedido).
    set (w1 := set_table _ _).
    assert (Hans1 : answers w1) by (intros c; apply Hans).
    rewrite (preparacao_run ev id w1 Hid Hne Hans1).
    assert (Hp1 : table w1 !! id = Some pedido')
      by (subst w1; cbn [table set_table]; apply lookup_insert_eq).
    rewrite Hp1. cbn [fst snd table set_table log_call].
    assert (Hsame : <["status" := VStr "PREPARACAO"]> pedido' = pedido')
      by (subst pedido'; apply insert_insert_eq).
    rewrite Hsame. split; [reflexivity|].
    subst w1. cbn [table set_table]. apply insert_insert_eq.
  - set (w1 := log_call _ w).
    assert (Hans1 : answers w1) by (intros c; apply Hans).
    rewrite (preparacao_run ev id w1 Hid Hne Hans1).
    assert (Hp1 : table w1 !! id = None) by exact Hp.
    rewrite Hp1. split; reflexivity.
Qed.

Lemma preparacao_twice_witness :
  (LambdaPreparacao.handler (LambdaPreparacao.BodyJson
                               (LambdaPreparacao.DObject {[ "idPedido" := VStr "p-ana" ]}))
     (after (LambdaPreparacao.handler
               (LambdaPreparacao.BodyJson
                  (LambdaPreparacao.DObject {[ "idPedido" := VStr "p-ana" ]})))
            world_ana)).1
  = (LambdaPreparacao.handler
       (LambdaPreparacao.BodyJson
          (LambdaPreparacao.DObject {[ "idPedido" := VStr "p-ana" ]})) world_ana).1
  /\ table (after (LambdaPreparacao.handler
                     (LambdaPreparacao.BodyJson
                        (LambdaPreparacao.DObject {[ "idPedido" := VStr "p-ana" ]})))
              (after (LambdaPreparacao.handler
                        (LambdaPreparacao.BodyJson
                           (LambdaPreparacao.DObject {[ "idPedido" := VStr "p-ana" ]})))
                     world_ana))
     = table (after (LambdaPreparacao.handler
                       (LambdaPreparacao.BodyJson
                          (LambdaPreparacao.DObject {[ "idPedido" := VStr "p-ana" ]})))
                    world_ana).
Proof.
  apply (preparacao_twice _ "p-ana" world_ana).
  - by_vm.
  - discriminate.
  - intros c. by_vm.
Defined.

(** ** The date an order is stored with, as the sweep reads it *)

Lemma digit_char (m : Z) :
  0 <= m < 10 ->
  is_digit (byte_char (48 + m)) = true /\ digit_val (byte_char (48 + m)) = m.
Proof.
  intros H.
  assert (Hm : m = 0 \/ m = 1 \/ m = 2 \/ m = 3 \/ m = 4 \/ m = 5 \/ m = 6 \/ m = 7
               \/ m = 8 \/ m = 9) by lia.
  repeat (destruct Hm as [-> | Hm]; [split; reflexivity|]). subst. split; reflexivity.
Qed.

Lemma append_assoc (a b c : string) : ((a ++ b) ++ c = a ++ (b ++ c))%string.
Proof.
  induction a as [|x a IH]; [reflexivity|].
  change (String x ((a ++ b) ++ c) = String x (a ++ (b ++ c)))%string. now rewrite IH.
Qed.

Lemma take_digits_pad (k j : nat) (a acc : Z) (r : string) :
  0 <= a < 10 ^ Z.of_nat k ->
  take_digits (k + j) (pad k a ++ r) acc = take_digits j r (10 ^ Z.of_nat k * acc + a).
Proof.
  revert j a acc r. induction k as [|k IH]; intros j a acc r Ha.
  - simpl in *. f_equal. lia.
  - cbn [pad]. rewrite append_assoc.
    change (String ?c EmptyString ++ r)%string with (String c r).
    replace (S k + j)%nat with (k + S j)%nat by lia.
    assert (Hpow : 10 ^ Z.of_nat (S k) = 10 * 10 ^ Z.of_nat k)
      by (rewrite Nat2Z.inj_succ, Z.pow_succ_r; lia).
    rewrite IH by (rewrite Hpow in Ha; split; [apply Z.div_pos; lia|apply Z.div_lt_upper_bound; lia]).
    cbn [take_digits].
    destruct (digit_char (a mod 10)) as [Hd Hv]; [apply Z.mod_pos_bound; lia|].
    rewrite Hd, Hv. f_equal. rewrite Hpow.
    pose proof (Z.div_mod a 10). lia.
Qed.

Lemma doe_bounds (doe : Z) :
  0 <= doe < 146097 ->
  let yoe := (doe - doe / 1460 + doe / 36524 - doe / 146096) / 365 in
  let doy := doe - (365 * yoe + yoe / 4 - yoe / 100) in
  0 <= yoe <= 399 /\ 0 <= doy <= 365.
Proof.
  intros H yoe doy. subst doy yoe. Z.div_mod_to_equations; lia.
Qed.

Lemma civil_round_trip (z : Z) :
  let '(y, m, d) := civil_from_days z in
  days_from_civil y m d = z /\ 1 <= m <= 12 /\ 1 <= d <= 31.
Proof.
  unfold civil_from_days, days_from_civil.
  set (z' := z + 719468).
  set (era := z' / 146097).
  set (doe := z' - era * 146097).
  assert (Hdoe : 0 <= doe < 146097) by (subst doe era; Z.div_mod_to_equations; lia).
  assert (Hz : z = era * 146097 + doe - 719468) by (subst doe z'; lia).
  clearbody doe era. clear z'.
  pose proof (doe_bounds doe Hdoe) as Hb. cbv zeta in Hb.
  set (yoe := (doe - doe / 1460 + doe / 36524 - doe / 146096) / 365) in *.
  set (doy := doe - (365 * yoe + yoe / 4 - yoe / 100)) in *.
  assert (Hdoe' : doe = 365 * yoe + yoe / 4 - yoe / 100 + doy) by (subst doy; lia).
  clearbody doy. clearbody yoe. destruct Hb as [Hy Hd].
  set (mp := (5 * doy + 2) / 153).
  assert (Hmp : 0 <= mp <= 11) by (subst mp; Z.div_mod_to_equations; lia).
  destruct (mp <? 10) eqn:Hlt; [apply Z.ltb_lt in Hlt | apply Z.ltb_ge in Hlt].
  - replace (mp + 3 <=? 2) with false by (symmetry; apply Z.leb_gt; lia).
    replace (2 <? mp + 3) with true by (symmetry; apply Z.ltb_lt; lia).
    replace (mp + 3 - 3) with mp by lia.
    replace ((yoe + era * 400) / 400) with era by (Z.div_mod_to_equations; lia).
    subst mp. split; [|Z.div_mod_to_equations; lia].
    Z.div_mod_to_equations; lia.
  - replace (mp - 9 <=? 2) with true by (symmetry; apply Z.leb_le; lia).
    replace (2 <? mp - 9) with false by (symmetry; apply Z.ltb_ge; lia).
    replace (mp - 9 + 9) with mp by lia.
    replace (yoe + era * 400 + 1 - 1) with (yoe + era * 400) by lia.
    replace ((yoe + era * 400) / 400) with era by (Z.div_mod_to_equations; lia).
    subst mp. split; [|Z.div_mod_to_equations; lia].
    Z.div_mod_to_equations; lia.
Qed.

Lemma take_digits_pad0 (k : nat) (a : Z) (r : string) :
  0 <= a < 10 ^ Z.of_nat k ->
  take_digits k (pad k a ++ r) 0 = Some (a, r).
Proof.
  intros Ha. pose proof (take_digits_pad k 0 a 0 r Ha) as H.
  rewrite Nat.add_0_r in H. rewrite H. simpl. f_equal. f_equal. lia.
Qed.

Lemma expect_app (c : ascii) (r : string) : expect c (String c "" ++ r) = Some r.
Proof.
  change (String c "" ++ r)%string with (String c r). unfold expect.
  now rewrite Ascii.eqb_refl.
Qed.

Lemma year_bound (z : Z) :
  - 100000000 <= z <= 100000000 ->
  - 1000000 < (civil_from_days z).1.1 < 1000000.
Proof.
  intros Hz. unfold civil_from_days.
  set (z' := z + 719468).
  set (era := z' / 146097).
  set (doe := z' - era * 146097).
  assert (Hdoe : 0 <= doe < 146097) by (subst doe era; Z.div_mod_to_equations; lia).
  assert (Hera : - 1000 < era < 1000) by (subst era z'; Z.div_mod_to_equations; lia).
  clearbody doe era.
  pose proof (doe_bounds doe Hdoe) as Hb. cbv zeta in Hb.
  set (yoe := (doe - doe / 1460 + doe / 36524 - doe / 146096) / 365) in *.
  clearbody yoe. destruct Hb as [Hy _]. cbv zeta. cbn [fst].
  destruct (_ <=? 2); lia.
Qed.

Lemma pad_head (k : nat) (a : Z) (r : string) :
  0 <= a ->
  exists (c : ascii) (s : string),
    (pad (S k) a ++ r)%string = String c s /\ is_digit c = true.
Proof.
  revert a r. induction k as [|k IH]; intros a r Ha.
  - exists (byte_char (48 + a mod 10)), r. split; [reflexivity|].
    apply digit_char. apply Z.mod_pos_bound. lia.
  - change (pad (S (S k)) a) with (pad (S k) (a / 10)
                                   ++ String (byte_char (48 + a mod 10)) "")%string.
    rewrite append_assoc. apply IH. apply Z.div_pos; lia.
Qed.

Lemma read_year_digit (c : ascii) (s : string) :
  is_digit c = true -> read_year (String c s) = take_digits 4 (String c s) 0.
Proof.
  destruct c as [[] [] [] [] [] [] [] []]; intros H; try discriminate H; reflexivity.
Qed.

Lemma read_year_pad (y : Z) (r : string) :
  - 1000000 < y < 1000000 ->
  read_year ((if (0 <=? y) && (y <=? 9999) then pad 4 y
              else (if y <? 0 then "-" else "+") ++ pad 6 (Z.abs y)) ++ r)
  = Some (y, r).
Proof.
  intros Hy.
  destruct ((0 <=? y) && (y <=? 9999)) eqn:Hr.
  - apply andb_true_iff in Hr. destruct Hr as [H0 H1].
    apply Z.leb_le in H0. apply Z.leb_le in H1.
    destruct (pad_head 3 y r) as (c & s & Hs & Hc); [lia|].
    assert (Hd : read_year (pad 4 y ++ r) = take_digits 4 (pad 4 y ++ r) 0)
      by (rewrite Hs; now apply read_year_digit).
    rewrite Hd. apply take_digits_pad0. simpl. lia.
  - assert (Hout : y < 0 \/ 9999 < y).
    { apply andb_false_iff in Hr. destruct Hr as [H|H];
        [apply Z.leb_gt in H | apply Z.leb_gt in H]; lia. }
    rewrite append_assoc.
    destruct (y <? 0) eqn:Hneg; [apply Z.ltb_lt in Hneg | apply Z.ltb_ge in Hneg].
    + change ("-" ++ ?s)%string with (String "-"%char s). cbn [read_year].
      rewrite take_digits_pad0 by (simpl; lia). simpl. f_equal. f_equal. lia.
    + change ("+" ++ ?s)%string with (String "+"%char s). cbn [read_year].
      rewrite take_digits_pad0 by (simpl; lia). f_equal. f_equal. lia.
Qed.

Lemma read_iso_fields_toISOString (t : Z) :
  - 8640000000000000 <= t <= 8640000000000000 ->
  read_iso_fields (toISOString t) = Some t.
Proof.
  intros Ht. unfold toISOString.
  pose proof (civil_round_trip (t / msPerDay)) as Hc.
  pose proof (year_bound (t / msPerDay)) as Hy.
  destruct (civil_from_days (t / msPerDay)) as [[y m] d]. cbn [fst] in Hy.
  destruct Hc as (Hdays & Hm & Hd).
  assert (Hyb : - 1000000 < y < 1000000)
    by (apply Hy; unfold msPerDay; Z.div_mod_to_equations; lia).
  set (ms := t mod msPerDay).
  assert (Hms : 0 <= ms < 86400000) by (subst ms; apply Z.mod_pos_bound; reflexivity).
  unfold read_iso_fields.
  rewrite (read_year_pad y _ Hyb). cbn [mbind option_bind].
  rewrite expect_app. cbn [mbind option_bind].
  rewrite take_digits_pad0 by (simpl; lia). cbn [mbind option_bind].
  rewrite expect_app. cbn [mbind option_bind].
  rewrite take_digits_pad0 by (simpl; lia). cbn [mbind option_bind].
  rewrite expect_app. cbn [mbind option_bind].
  rewrite take_digits_pad0 by (simpl; Z.div_mod_to_equations; lia). cbn [mbind option_bind].
  rewrite expect_app. cbn [mbind option_bind].
  rewrite take_digits_pad0 by (simpl; Z.div_mod_to_equations; lia). cbn [mbind option_bind].
  rewrite expect_app. cbn [mbind option_bind].
  rewrite take_digits_pad0 by (simpl; Z.div_mod_to_equations; lia). cbn [mbind option_bind].
  rewrite expect_app. cbn [mbind option_bind].
  rewrite take_digits_pad0 by (simpl; Z.div_mod_to_equations; lia). cbn [mbind option_bind].
  change "Z"%string with ("Z" ++ "")%string.
  rewrite expect_app. cbn [mbind option_bind].
  f_equal. rewrite Hdays. subst ms. unfold msPerDay. Z.div_mod_to_equations; lia.
Qed.

Lemma TimeClip_integer (t : Z) :
  - 8640000000000000 <= t <= 8640000000000000 ->
  TimeClip (num_of_Z t) = num_of_Z t.
Proof.
  intros Ht. unfold TimeClip, num_of_Z.
  assert (Hle : Qle_bool (Qabs (inject_Z t)) (inject_Z 8640000000000000) = true).
  { apply Qle_bool_iff. unfold Qle, Qabs, inject_Z. simpl. lia. }
  rewrite Hle. simpl. now rewrite Z.quot_1_r.
Qed.

(** A time value written by [toISOString] is read back by [Date.parse]. *)
Lemma Date_parse_toISOString (t : Z) :
  - 8640000000000000 <= t <= 8640000000000000 ->
  Date_parse (toISOString t) = num_of_Z t.
Proof.
  intros Ht. unfold Date_parse. rewrite (read_iso_fields_toISOString t Ht).
  rewrite String.eqb_refl. now apply TimeClip_integer.
Qed.

Lemma novo_pedido_data (now : Z) (uuid : string) (req_body : gmap string value) :
  prop (Api.novo_pedido now uuid req_body) "data" = VStr (toISOString now).
Proof.
  unfold prop, Api.novo_pedido.
  rewrite !lookup_insert_ne by discriminate. now rewrite lookup_insert_eq.
Qed.

Lemma novo_pedido_age (agora now : Z) (uuid : string) (req_body : gmap string value) :
  - 8640000000000000 <= now <= 8640000000000000 ->
  LambdaEnvio.mais_de_4_minutos agora (Api.novo_pedido now uuid req_body) = true
  <-> 240000 < agora - now.
Proof.
  intros Hnow. rewrite mais_de_4_minutos_spec, novo_pedido_data.
  cbn [Date_of]. rewrite (Date_parse_toISOString now Hnow). split.
  - intros (t & Ht & Hlt). unfold num_of_Z, inject_Z in Ht. inversion Ht. lia.
  - intros Hlt. exists now. auto.
Qed.

(** X23.  The date [POST /pedidos] stores with an order is the clock of the
    creation, and the age filter of the sweep reads it back as that very
    instant: the order counts as older than four minutes exactly when the
    clock of the sweep is more than 240000 milliseconds past the clock of
    the creation. *)
Theorem created_order_age (agora now : Z) (uuid : string)
        (req_body : gmap string value) :
  - 8640000000000000 <= now <= 8640000000000000 ->
  Date_of (prop (Api.novo_pedido now uuid req_body) "data") = num_of_Z now
  /\ (LambdaEnvio.mais_de_4_minutos agora (Api.novo_pedido now uuid req_body) = true
      <-> 240000 < agora - now).
Proof.
  intros Hnow. split; [|now apply novo_pedido_age].
  rewrite novo_pedido_data. cbn [Date_of]. now apply Date_parse_toISOString.
Qed.

Lemma created_order_age_witness :
  Date_of (prop (Api.novo_pedido t0 "p-ana" body_ana) "data") = num_of_Z t0
  /\ (LambdaEnvio.mais_de_4_minutos (t0 + minutes 5) (Api.novo_pedido t0 "p-ana" body_ana)
      = true
      <-> 240000 < t0 + minutes 5 - t0).
Proof.
  apply (created_order_age (t0 + minutes 5) t0 "p-ana" body_ana).
  unfold t0. lia.
Defined.

(** X24.  An order created by [POST /pedidos] with the status RECEBIMENTO,
    and the sweep run on the world the creation left, while the scan is
    answered: the sweep selects the order exactly when its clock is more
    than 240000 milliseconds past the clock of the creation. *)
Theorem due_order_is_swept (agora now : Z) (uuid : string)
        (req_body : gmap string value) (w w' : world) (answer : reply) :
  Api.post_pedidos now uuid req_body w = (Ok (Response 201 answer), w') ->
  prop req_body "status" = VStr "RECEBIMENTO" ->
  - 8640000000000000 <= now <= 8640000000000000 ->
  fault w (ScanCommand "RECEBIMENTO") = None ->
  exists pedidos pedidosPendentes : list item,
    (LambdaEnvio.selecionar agora w').1 = Ok (pedidos, pedidosPendentes)
    /\ (In (Api.novo_pedido now uuid req_body) pedidosPendentes
        <-> 240000 < agora - now).
Proof.
  intros Hpost Hst Hnow Hf.
  destruct (post_pedidos_created _ _ _ _ _ _ Hpost) as [-> ->].
  set (pedido := Api.novo_pedido now uuid req_body).
  set (w1 := set_table _ _).
  destruct (selecionar_spec agora w1 Hf) as (pedidos & pendentes & Hrun & Hspec).
  exists pedidos, pendentes. rewrite Hrun. split; [reflexivity|].
  rewrite Hspec. subst pedido. rewrite (novo_pedido_age agora now uuid req_body Hnow).
  split; [tauto|]. intros Hlt. split; [|split; [|exact Hlt]].
  - exists uuid. subst w1. cbn [table set_table]. apply lookup_insert_eq.
  - unfold status_is, Api.novo_pedido. rewrite Hst.
    rewrite !lookup_insert_ne by discriminate. rewrite lookup_insert_eq.
    reflexivity.
Qed.

Lemma due_order_is_swept_witness :
  exists pedidos pedidosPendentes : list item,
    (LambdaEnvio.selecionar (t0 + minutes 5)
       (after (Api.post_pedidos t0 "p-ana" body_RECEBIMENTO) empty_world)).1
    = Ok (pedidos, pedidosPendentes)
    /\ (In (Api.novo_pedido t0 "p-ana" body_RECEBIMENTO) pedidosPendentes
        <-> 240000 < t0 + minutes 5 - t0).
Proof.
  apply (due_order_is_swept (t0 + minutes 5) t0 "p-ana" body_RECEBIMENTO empty_world
           (after (Api.post_pedidos t0 "p-ana" body_RECEBIMENTO) empty_world)
           (PedidoReply "Pedido criado com sucesso"
                        (Api.novo_pedido t0 "p-ana" body_RECEBIMENTO))).
  - apply run_eq. by_vm.
  - by_vm.
  - unfold t0. lia.
  - reflexivity.
Defined.

(** ** lambda-confirmacao: the key and the file name *)

Lemma decode_from_plain (fuel : nat) (s : string) :
  (String.length s <= fuel)%nat ->
  lacks "%" s = true ->
  decode_from fuel s = Some s.
Proof.
  revert s. induction fuel as [|fuel IH]; intros s Hlen Hs.
  - destruct s; [reflexivity | simpl in Hlen; lia].
  - destruct s as [|c r]; [reflexivity|].
    cbn [lacks] in Hs. apply andb_true_iff in Hs. destruct Hs as [Hc Hr].
    apply negb_true_iff in Hc. cbn [decode_from]. rewrite Hc.
    rewrite IH; [reflexivity | simpl in Hlen; lia | exact Hr].
Qed.

Lemma replace_plus_length (s : string) :
  String.length (replace_plus s) = String.length s.
Proof. induction s as [|c r IH]; simpl; [reflexivity | now rewrite IH]. Qed.

Lemma replace_plus_lacks (s : string) :
  lacks "%" s = true -> lacks "%" (replace_plus s) = true /\ lacks "+" (replace_plus s) = true.
Proof.
  induction s as [|c r IH]; [auto|].
  cbn [lacks replace_plus]. intros H. apply andb_true_iff in H. destruct H as [Hc Hr].
  destruct (IH Hr) as [H1 H2]. rewrite H1, H2, !andb_true_r.
  destruct (Ascii.eqb c "+") eqn:Hplus; [split; reflexivity|].
  rewrite Hc, Hplus. split; reflexivity.
Qed.

(** X25.  The key of an S3 event that holds no percent sign is never
    refused: it decodes to itself with every plus sign turned into a space,
    without a URIError, and nothing is sent. *)
Theorem decode_key_plain (raw : string) (w : world) :
  lacks "%" raw = true ->
  LambdaConfirmacao.decode_key raw w = (Ok (replace_plus raw), w)
  /\ lacks "+" (replace_plus raw) = true.
Proof.
  intros H. destruct (replace_plus_lacks raw H) as [Hp Hplus].
  split; [|exact Hplus].
  unfold LambdaConfirmacao.decode_key, decodeURIComponent.
  rewrite decode_from_plain; [reflexivity | lia | exact Hp].
Qed.

Lemma decode_key_plain_witness :
  LambdaConfirmacao.decode_key "notas/nota+fiscal+ana.pdf" empty_world
  = (Ok (replace_plus "notas/nota+fiscal+ana.pdf"), empty_world)
  /\ lacks "+" (replace_plus "notas/nota+fiscal+ana.pdf") = true.
Proof.
  apply (decode_key_plain "notas/nota+fiscal+ana.pdf" empty_world). reflexivity.
Defined.

Lemma last_segment_from_spec (s cur pre : string) :
  (exists mid, cur = mid ++ s /\ lacks "/" mid = true)%string ->
  exists dir : string,
    (pre ++ cur = dir ++ last_segment_from s cur)%string
    /\ lacks "/" (last_segment_from s cur) = true
    /\ (dir = pre \/ exists d, dir = (d ++ "/")%string).
Proof.
  revert cur pre. induction s as [|c r IH]; intros cur pre (mid & Hcur & Hmid).
  - cbn [last_segment_from]. exists pre. split; [reflexivity|]. split; [|now left].
    subst cur. clear -Hmid. induction mid as [|x mid IHm]; [reflexivity|].
    cbn [lacks] in Hmid. apply andb_true_iff in Hmid. destruct Hmid as [Hx Hm].
    change (String x mid ++ "")%string with (String x (mid ++ "")%string).
    cbn [lacks]. now rewrite Hx, IHm.
  - cbn [last_segment_from]. destruct (Ascii.eqb c "/") eqn:Hc.
    + apply Ascii.eqb_eq in Hc. subst c.
      destruct (IH r ((pre ++ mid) ++ "/")%string) as (dir & Heq & Hno & Hdir).
      { exists ""%string. split; reflexivity. }
      exists dir. split; [|split; [exact Hno|]].
      * rewrite <- Heq. subst cur. rewrite !append_assoc. reflexivity.
      * destruct Hdir as [-> | Hd]; [right; eauto | right; exact Hd].
    + apply IH. exists (mid ++ String c "")%string. split.
      * subst cur. rewrite append_assoc. reflexivity.
      * clear -Hmid Hc. induction mid as [|x mid IHm].
        -- change ("" ++ String c "")%string with (String c ""). cbn [lacks].
           now rewrite Hc.
        -- cbn [lacks] in Hmid. apply andb_true_iff in Hmid. destruct Hmid as [Hx Hm].
           change (String x mid ++ String c "")%string
             with (String x (mid ++ String c "")%string).
           cbn [lacks]. now rewrite Hx, IHm.
Qed.

(** X26.  The file name lambda-confirmacao records for a document is the
    part of the key after its last slash: it holds no slash, and the key is
    that name on its own or a prefix ending with a slash followed by that
    name. *)
Theorem split_pop_spec (key : string) :
  lacks "/" (split_pop key) = true
  /\ (key = split_pop key
      \/ exists dir : string, key = ((dir ++ "/") ++ split_pop key)%string).
Proof.
  destruct (last_segment_from_spec key key ""%string) as (dir & Heq & Hno & Hdir).
  { exists ""%string. split; reflexivity. }
  fold (split_pop key) in Heq, Hno. split; [exact Hno|].
  change ("" ++ key)%string with key in Heq.
  destruct Hdir as [-> | [d ->]]; [left; exact Heq | right; exists d; exact Heq].
Qed.

(** ** What the sweep posts *)

Lemma sweep_calls (agora : Z) (w : world) :
  fault w (ScanCommand "RECEBIMENTO") = None ->
  calls (after (LambdaEnvio.handler agora) w)
  = (calls w
     ++ ScanCommand "RECEBIMENTO"
        :: posts (List.filter (LambdaEnvio.mais_de_4_minutos agora)
                    (List.filter (status_is "RECEBIMENTO") (map_to_list (table w)).*2)))%list.
Proof.
  intros Hf.
  set (pedidos := List.filter (status_is "RECEBIMENTO") (map_to_list (table w)).*2).
  set (pendentes := List.filter (LambdaEnvio.mais_de_4_minutos agora) pedidos).
  assert (Hsel : LambdaEnvio.selecionar agora w
                 = (Ok (pedidos, pendentes), log_call (ScanCommand "RECEBIMENTO") w)).
  { unfold LambdaEnvio.selecionar, dynamo_scan, bind. now rewrite (send_ok _ _ Hf). }
  destruct (enviar_pendentes_run pendentes [] (log_call (ScanCommand "RECEBIMENTO") w))
    as (w' & Hrun & Hcalls).
  unfold after, LambdaEnvio.handler, try_catch. unfold bind at 1. rewrite Hsel.
  unfold bind at 1. rewrite Hrun. cbn [snd ret]. rewrite Hcalls. cbn [calls log_call].
  now rewrite <- app_assoc.
Qed.

Lemma posts_spec (agora : Z) (w : world) (id : string) :
  well_keyed w ->
  In (HttpPost (VStr id))
     (posts (List.filter (LambdaEnvio.mais_de_4_minutos agora)
               (List.filter (status_is "RECEBIMENTO") (map_to_list (table w)).*2)))
  <-> exists pedido : item,
        table w !! id = Some pedido
        /\ status_is "RECEBIMENTO" pedido = true
        /\ LambdaEnvio.mais_de_4_minutos agora pedido = true.
Proof.
  intros Hk. unfold posts. rewrite in_map_iff. split.
  - intros (pedido & Hid & Hin).
    apply filter_In in Hin. destruct Hin as [Hin Hage].
    apply filter_In in Hin. destruct Hin as [Hin Hst].
    apply list_elem_of_In, list_elem_of_fmap in Hin.
    destruct Hin as ([k p] & Hp & Hin). simpl in Hp. subst p.
    apply elem_of_map_to_list in Hin.
    pose proof (Hk k pedido Hin) as Hkey. unfold prop in Hid. rewrite Hkey in Hid.
    simpl in Hid. injection Hid as ->. eauto.
  - intros (pedido & Hin & Hst & Hage). exists pedido. split.
    + unfold prop. now rewrite (Hk id pedido Hin).
    + apply filter_In. split; [|exact Hage]. apply filter_In. split; [|exact Hst].
      apply list_elem_of_In, list_elem_of_fmap. exists (id, pedido).
      split; [reflexivity|]. now apply elem_of_map_to_list.
Qed.

Lemma status_is_spec (st : string) (pedido : item) :
  status_is st pedido = true <-> pedido !! "status" = Some (VStr st).
Proof.
  unfold status_is. destruct (pedido !! "status") as [[| | | |s|]|]; try (split; discriminate).
  rewrite String.eqb_eq. split; [now intros -> | now intros [= ->]].
Qed.

Lemma dated_age (agora t : Z) (pedido : item) :
  - 8640000000000000 <= t <= 8640000000000000 ->
  pedido !! "data" = Some (VStr (toISOString t)) ->
  LambdaEnvio.mais_de_4_minutos agora pedido = true <-> 240000 < agora - t.
Proof.
  intros Ht Hd.
  assert (Hdate : Date_of (prop pedido "data") = num_of_Z t)
    by (unfold prop; rewrite Hd; exact (Date_parse_toISOString t Ht)).
  rewrite mais_de_4_minutos_spec, Hdate. split.
  - intros (t' & Ht' & Hlt). unfold num_of_Z, inject_Z in Ht'. inversion Ht'. lia.
  - intros Hlt. exists t. auto.
Qed.

(** X27.  What the sweep posts, on a table where every order is stored
    under its idPedido and every order with the status RECEBIMENTO carries
    a date as [toISOString] writes it, while the scan is answered: a request
    for the order [id] has left by the end of the sweep exactly when one had
    left before, or the order stored under [id] has the status RECEBIMENTO
    and its date is more than 240000 milliseconds before the clock. *)
Theorem sweep_posts_spec (agora : Z) (w : world) (id : string) :
  fault w (ScanCommand "RECEBIMENTO") = None ->
  well_keyed w ->
  received_dated w ->
  In (HttpPost (VStr id)) (calls (after (LambdaEnvio.handler agora) w))
  <-> In (HttpPost (VStr id)) (calls w)
      \/ exists (pedido : item) (t : Z),
           table w !! id = Some pedido
           /\ pedido !! "status" = Some (VStr "RECEBIMENTO")
           /\ pedido !! "data" = Some (VStr (toISOString t))
           /\ - 8640000000000000 <= t <= 8640000000000000
           /\ 240000 < agora - t.
Proof.
  intros Hf Hk Hd. rewrite (sweep_calls agora w Hf), in_app_iff.
  cbn [In]. rewrite (posts_spec agora w id Hk). split.
  - intros [H | [H | (pedido & Hp & Hst & Hage)]]; [now left | discriminate | right].
    apply status_is_spec in Hst.
    destruct (Hd id pedido Hp Hst) as (t & Ht & Hdata).
    exists pedido, t. repeat (split; [assumption|]).
    now apply (dated_age agora t pedido Ht Hdata).
  - intros [H | (pedido & t & Hp & Hst & Hdata & Ht & Hlt)]; [now left|].
    right. right. exists pedido. split; [exact Hp|]. split.
    + now apply status_is_spec.
    + now apply (dated_age agora t pedido Ht Hdata).
Qed.

Lemma world_due_table :
  table world_due = <["p-ana" := Api.novo_pedido t0 "p-ana" body_RECEBIMENTO]> ∅.
Proof.
  assert (Hrun : Api.post_pedidos t0 "p-ana" body_RECEBIMENTO empty_world
                 = (Ok (Response 201
                          (PedidoReply "Pedido criado com sucesso"
                                       (Api.novo_pedido t0 "p-ana" body_RECEBIMENTO))),
                    world_due))
    by (apply run_eq; by_vm).
  destruct (post_pedidos_created _ _ _ _ _ _ Hrun) as [_ ->]. reflexivity.
Qed.

Lemma sweep_posts_spec_witness :
  In (HttpPost (VStr "p-ana")) (calls (after (LambdaEnvio.handler (t0 + minutes 5)) world_due)).
Proof.
  apply (sweep_posts_spec (t0 + minutes 5) world_due "p-ana").
  - reflexivity.
  - apply (keeps_after keyed_after _
             (keeps_post_pedidos_keyed t0 "p-ana" body_RECEBIMENTO) empty_world).
    intros k pedido H. cbn [table empty_world] in H. rewrite lookup_empty in H.
    discriminate.
  - intros k pedido Hp _. rewrite world_due_table in Hp.
    apply lookup_insert_Some in Hp. destruct Hp as [[_ <-] | [_ Hp]].
    + exists t0. split; [unfold t0; lia|].
      unfold Api.novo_pedido. rewrite !lookup_insert_ne by discriminate.
      apply lookup_insert_eq.
    + rewrite lookup_empty in Hp. discriminate.
  - right. exists (Api.novo_pedido t0 "p-ana" body_RECEBIMENTO), t0.
    split; [rewrite world_due_table; apply lookup_insert_eq|].
    split; [by_vm|].
    split; [unfold Api.novo_pedido; rewrite !lookup_insert_ne by discriminate;
            apply lookup_insert_eq|].
    split; [unfold t0; lia | unfold minutes; lia].
Defined.

(** X28.  An order that lambda-preparacao has advanced is out of the sweep:
    on a table where every order is stored under its idPedido and while the
    services answer, once the handler has run for the stored order [id], a
    sweep at any later or earlier clock posts no request for [id]. *)
Theorem advanced_order_not_swept (ev : LambdaPreparacao.event_body) (id : string)
        (agora : Z) (w : world) :
  payload_idPedido (LambdaPreparacao.decode ev) = VStr id ->
  id <> "" ->
  answers w ->
  well_keyed w ->
  is_Some (table w !! id) ->
  ~ In (HttpPost (VStr id)) (calls w) ->
  ~ In (HttpPost (VStr id))
       (calls (after (LambdaEnvio.handler agora) (after (LambdaPreparacao.handler ev) w))).
Proof.
  intros Hid Hne Hans Hk [pedido Hp] Hnot.
  pose proof (keeps_after keyed_after _ (keeps_preparacao_keyed ev) w Hk) as Hk1.
  assert (Hrun : after (LambdaPreparacao.handler ev) w
                 = set_table (<[id := <["status" := VStr "PREPARACAO"]> pedido]> (table w))
                     (log_call (UpdateCommand (VStr id) set_PREPARACAO)
                               (log_call (GetCommand (VStr id)) w)))
    by (unfold after; now rewrite (preparacao_run ev id w Hid Hne Hans), Hp).
  rewrite Hrun in *. set (w1 := set_table _ _) in *.
  rewrite (sweep_calls agora w1 (Hans _)), in_app_iff.
  intros [Hin | [Hin | Hin]].
  - subst w1. cbn [calls set_table log_call] in Hin.
    rewrite !in_app_iff in Hin. cbn [In] in Hin.
    destruct Hin as [[Hin | [Hin | []]] | [Hin | []]]; [auto | discriminate | discriminate].
  - discriminate.
  - apply (posts_spec agora w1 id Hk1) in Hin. destruct Hin as (p & Hin & Hst & _).
    subst w1. cbn [table set_table] in Hin. rewrite lookup_insert_eq in Hin.
    injection Hin as <-. unfold status_is in Hst. rewrite lookup_insert_eq in Hst.
    discriminate.
Qed.

Lemma advanced_order_not_swept_witness :
  ~ In (HttpPost (VStr "p-ana"))
       (calls (after (LambdaEnvio.handler (t0 + minutes 5))
                     (after (LambdaPreparacao.handler
                               (LambdaPreparacao.BodyJson
                                  (LambdaPreparacao.DObject {[ "idPedido" := VStr "p-ana" ]})))
                            world_ana))).
Proof.
  apply (advanced_order_not_swept _ "p-ana" (t0 + minutes 5) world_ana).
  - by_vm.
  - discriminate.
  - intros c. by_vm.
  - exact world_ana_well_keyed.
  - exists (Api.novo_pedido t0 "p-ana" body_ana). by_vm.
  - vm_compute. intros [[=] | []].
Defined.
